(* ===== verification/_CoqProject ===== *)
-Q . S2P
Prelude.v
PyStr.v
PyDict.v
PyFloat.v
Numberbatch.v
Graph.v
Query.v
GetData.v
Streams.v
Interrupt.v
TestScript.v
Examples.v
