(* ===== verification/Prelude.v ===== *)
(** * A verification development of conceptnet-pytools

    The repository ([src/conceptnet.py], [src/get_data.py], [src/test.py])
    loads two text resources and answers queries over them:

    - the NumberBatch embedding table ([ConceptNet.__load_numberbatch],
      lines 47-76): a header [<count> <dim>] and [count] rows
      [<concept> <v1> ... <vdim>] become the dict [self.concepts] from a
      concept to a float32 vector; with [remove_duplicate] a row whose
      vector equals (elementwise [==]) an already kept vector is dropped,
      using the first element of each vector as a bucket key
      ([known_embeddings]);
    - the ConceptNet relation graph ([__add_outbond], [__add_inbond],
      [__load_conceptnet], lines 79-117): every line [rel\tsrc\tdst\tw] of a
      whitelisted relation (and, with [remove_dangling], whose endpoints both
      have an embedding) is merged into [outbonds[src][dst][rel]] by
      [max(old, float(w))] starting from [0.0]; the reverse view goes into
      [outbonds[dst][src][rel]] for a symmetric relation and into
      [inbonds[dst][src][rel]] otherwise;
    - the queries ([__edge_list], [__get_outbonds], [__get_inbonds],
      [get_embedding], [query_concept], [query_edge], lines 120-171), which
      only read the structures built by the constructor [__init__]
      (lines 11-40), which runs the two loaders in this order;
    - the retrieval script [get_data.py], which downloads, checks by
      SHA-256, extracts and (for ConceptNet) filters the upstream dumps into
      the two files [__init__] opens by default, skipping every stage whose
      product is already present and valid;
    - the smoke test [test.py], which builds [ConceptNet()] on those two
      files and prints six queries.

    ** Files, in dependency order

    - [Prelude] (this file): the Python exception type [PyExc], the result
      type [res] with its bind notation in [py_scope], list indexing
      [py_index] and [assert] as fallible operations, the monadic fold
      [foldM] that models a loop that may raise, the hint database [pyres]
      and the tactics shared by all files.
    - [PyStr]: the Python string operations the code calls: [str.split(sep)]
      ([split_sep]), [str.split()] ([split_ws]), reading a text file line by
      line ([lines_of], [readline]) and the file object's cursor
      ([readline_str]), the [while True: line = f.readline(); if not line:
      break] loop with fuel ([while_lines]), [int()] on a token
      ([parse_int]); with the round trips split/join and lines/concat.
    - [PyDict]: Python's insertion-ordered [dict] as an association list
      ([PyDict.t]) with [get], [contains], [setitem], [items]; its
      well-formedness (no duplicate key) preserved by every operation; the
      refinement of a dict by a stdpp [gmap] ([to_gmap]) and the setoid
      [dict_equiv] (same contents, any order) with its [Proper] instances.
    - [PyFloat]: the interface the code needs from Python floats, as a type
      class [PyFloat] (parsing [float(s)], [0.0], [>], [==]) with the laws
      of [==] and, separately, of a total order; Python's [max(a, b)] as
      [py_max]; and an exact-decimal instance on [Q] used by the witnesses.
    - [Numberbatch]: the embedding-table loader, the bucketed deduplication
      and its reference specification.
    - [Graph]: the adjacency structures, [add_outbond]/[add_inbond], the
      per-line step and the streaming loader; the abstract specification
      (accepted facts and their maximum weight) and the refinement theorem.
    - [Query]: the query façade ([Edge] for the 4-element edge lists, the
      [ConceptNet] record for [self]), the constructor [init] composing
      both loaders, and the theorems about queries on a built instance.
    - [GetData]: [get_data.py]: the working directory as a stdpp [gmap]
      from file names to contents, the stages and their [flag_*] tests,
      [os.remove] and [sys.exit]; [filter_conceptnet]'s line transformation;
      HTTP, SHA-256, gzip and JSON are section parameters (oracles).
    - [Streams]: the chunked loops inside the helpers of [get_data.py]
      ([compute_sha256], [download_file], [unzip_file] and the [while line:]
      loop of [filter_conceptnet]): [f.read(n)] as a cursor ([read_str]),
      [iter(lambda: f.read(n), b'')] by well-founded recursion with
      Equations ([read_chunks]), [hashlib]'s object as the class [Hashlib]
      with its documented [update] law ([HashlibLaws]), and [open]/[write]
      on the directory; each streamed helper is proved equal to the
      one-shot helper [GetData] uses.
    - [Interrupt]: what a run of [get_data.py] leaves when it stops early:
      the script as a state-and-error monad that logs its file effects
      ([open(f, 'w'/'wb')], [f.write], [os.remove]) and reads the
      directory as they left it ([M], [bind], notation [x <-! m ; k]),
      with the stages and helpers written as in the source
      ([get_conceptnet_m], [get_numberbatch_m], [main_m]); the inductive
      relation [interrupted] of the directories in which a run can stop
      (between two effects, inside a write with any contents, after an
      exception); the progress of a retrieval as its latest valid product
      ([cn_level], [nb_level]).
    - [TestScript]: [test.py]: [__init__] on the files of the working
      directory ([init_files]: read embeddings, load, read relations, load)
      and the six printed queries ([test_script]); its link to [main].
    - [Examples]: the concrete runs: the example of the specification, the
      witnesses that apply each theorem with hypotheses to a concrete input,
      and the concrete behaviours behind the findings below.

    ** What is proved (groups of theorems)

    - type/well-formedness: dicts built by the code never hold a key twice;
    - functional behaviour of every operation on every branch, errors
      included (which Python exception a malformed input raises);
    - equivalence: the bucketed duplicate-vector filter equals the plain
      "keep the first of each vector" filter when concept names are
      distinct; the streaming graph loader equals "parse every line, then
      build";
    - refinement: the nested dicts implement the abstract weight function
      "maximum over the accepted facts of a key, starting from 0.0";
    - invariants of the built index: symmetric relations never in
      [inbonds], no dangling endpoint when [remove_dangling];
    - round trips of the string helpers and of [filter_conceptnet]'s
      output through the loader's parser; bounds of stored weights;
    - termination: the [while True] read loop of the graph loader stops
      with the loader's result given more fuel than the file has characters;
    - liveness: with honest oracles (a fetch whose bytes hash to the
      published checksum, a gzip that inflates them) [main] and
      [get_conceptnet] succeed;
    - safety of stopped runs: forgetting the effects, the effect model of
      the script is the [GetData] model ([Interrupt.main_m_refines]); and
      wherever a run stops, no validated product is lost
      ([Interrupt.get_conceptnet_interrupt_safe],
      [Interrupt.main_interrupt_safe]), because every stage removes the
      previous product only after verifying the new one and each
      retrieval touches only its own files;
    - error behaviour: every exception the two loaders raise is one of
      [ValueError], [IndexError], [AssertionError], [KeyError];
    - refinement of the helpers: the chunked [compute_sha256],
      [download_file], [unzip_file] and [filter_conceptnet] loops compute
      the one-shot helpers of [GetData] on every input, errors included
      ([Streams.compute_sha256_stream_refines],
      [Streams.download_file_stream_refines],
      [Streams.unzip_file_stream_refines],
      [Streams.filter_conceptnet_stream_refines]), so the theorems about
      the script hold of the code as written; the chunk loop reads the
      unique split into [n]-byte chunks ([Streams.read_chunks_characterization])
      in [ceil(len / n)] turns ([Streams.read_chunks_number]).

    The main theorems: [Graph.load_conceptnet_refines] (refinement of the
    graph loader), [Numberbatch.load_numberbatch_dedup] (bucketed filter =
    reference filter), [Query.query_edge_loaded] (end to end),
    [Graph.load_conceptnet_parse_then_build] and [Graph.load_conceptnet_Raise]
    (streaming = parse then build; errors), [Graph.inbonds_not_symmetric],
    [Graph.no_dangling_edges], [Query.queries_not_dangling] (invariants and
    safety), [Graph.stored_weight_bounds] (every weight stored in either
    dict is non-negative and the maximum of its key's weights), and the
    specifications of each
    query on every branch. For the script: [GetData.get_conceptnet_resume]
    (the flags implement "resume after the latest valid product"),
    [GetData.get_conceptnet_valid], [GetData.get_conceptnet_frame],
    [GetData.get_conceptnet_idempotent], [GetData.get_conceptnet_no_FNF]
    (no [os.remove] or read of a missing file), and the two links to the
    loader: [GetData.main_provides_default_files] (the script leaves the
    files [ConceptNet()] opens by default) and [GetData.filter_output_loads]
    (every line it writes is a four-field line the loader reads without
    [IndexError]), [GetData.written_rows_read_back] (rows written by the
    filter are read back, with or without [remove_dangling], as the rows
    of a valid relation whose endpoints have embeddings), and
    [GetData.main_succeeds] and [GetData.get_conceptnet_succeeds]
    (liveness). Across the two scripts,
    [TestScript.test_runs_on_get_data_files]: after [main] has succeeded,
    [test.py] builds [ConceptNet()] from the two files the script verified,
    each in its role, and prints its six queries on that instance.
    [Graph.load_conceptnet_terminates]
    and [Numberbatch.load_numberbatch_data_errors] close the loaders'
    termination and error behaviour.

    ** What modelling showed

    - [IsA] is missing from [valid_assertions] (lines 12-19): every [IsA]
      line is skipped ([Graph.isa_line_skipped]).
    - With [remove_duplicate], a table of dimension 0 raises [IndexError] at
      [embedding[0]] for every such file
      ([Numberbatch.dimension_zero_dedup_raises]).
    - The dicts nest concept -> other concept -> relation, where the
      specification says concept -> relation -> other
      ([Examples.nesting_order]); the undirected [query_edge] reports an
      inbound edge in its original orientation, unlike the worked example of
      the specification ([Examples.spec_example]).
    - Malformed relation lines are mostly not fatal
      ([Examples.malformed_lines]); negative weights are stored as [0.0]
      ([Examples.negative_weight_clamped]); repeated concept names defeat
      "keep the first concept of a vector" ([Examples.dedup_repeated_name]);
      the header count, not the file, bounds the rows read
      ([Examples.header_count_mismatch]).
    - A malformed embedding file fails with [ValueError], [IndexError],
      [AssertionError] or [KeyError] depending on the defect, not with one
      parse error ([Numberbatch.load_numberbatch_data_errors]); the
      dimension check is an [assert], which [python -O] removes.

    ** Modelling choices, bounds and fuel

    - The embedding loop is structural: it runs [Z.to_nat count] times
      (Python's [range] of a negative count is empty), each turn reading the
      next line from the file cursor ([Numberbatch.readlines_str], equal to
      taking lines of [lines_of], [Numberbatch.readlines_n_str]). The graph
      loader's [while True] loop is [Graph.load_conceptnet_loop], a fuelled
      [PyStr.while_lines]: each turn consumes at least one character, so
      fuel [S (length contents)] is enough, and with it the loop returns
      the structural fold over the lines ([Graph.load_conceptnet]) used by
      every other theorem ([Graph.load_conceptnet_terminates]). The same
      bound serves the [while line:] loop of [filter_conceptnet]
      ([Streams.filter_conceptnet_stream_refines]).
    - The [iter(lambda: f.read(n), b'')] loops need no fuel: [read_chunks]
      is defined by well-founded recursion on the unread length (each
      non-empty read shortens it), so it is total and evaluates by
      [vm_compute]. The chunks of [r.iter_content(8192)] are taken to be
      the [read(8192)] pieces of the body; the refinement of
      [download_file] holds for any chunking that concatenates to the body
      ([Streams.writes_insert]). [shutil.copyfileobj]'s buffer size is a
      parameter (any positive size).
    - Text files are their decoded contents as a [string] of 8-bit
      characters; whitespace is Python's ASCII whitespace. Python's
      universal-newline translation of ['\r\n'] and ['\r'] in files opened
      with ['r'] is not modelled: lines end at ['\n'], as in the resources.
    - Floats are abstract (the [PyFloat] class): every theorem holds for any
      instance, IEEE ones included, unless it states the order laws.

    ** Not modelled

    - I/O, [tqdm] progress bars, [print]: no effect on the structures.
    - In [get_data.py]: the network, hashing, gzip and JSON libraries (their
      results are parameters, and the theorems hold for any of them), and
      [print]. A stopped process is modelled ([Interrupt]); a power failure
      is not: the script never calls [fsync], so which writes survive it
      is up to the operating system. When [gzip] fails part-way through
      an archive, the model leaves the truncated target empty; the code
      may have written a prefix of the inflated data. The safety argument
      does not depend on that target's contents: a valid target only
      raises the level.
    - In [test.py]: only the [print] formatting; the printed values are
      modelled ([TestScript.printed]).
    - [assert] is modelled as raising [AssertionError]; under [python -O]
      the asserts of the loaders are removed (a finding, not modelled).
    - Float parsing is exact decimal in the [Q] instance; rounding to
      float32 and NaN are outside the instance (the class itself does not
      exclude them). *)

From Stdlib Require Export String Ascii ZArith.
From stdpp Require Export base list.

Declare Scope py_scope.
Delimit Scope py_scope with py.

(** Python exceptions that the modelled code can raise. *)
Inductive PyExc :=
| ValueError       (** [int()]/[float()] of a bad token, tuple unpacking *)
| IndexError       (** [l[i]] out of range *)
| AssertionError   (** [assert] *)
| KeyError         (** [d[k]] of a missing key *)
| FileNotFoundError  (** [open(f, 'r')], [os.remove(f)] of a missing file *)
| OSError          (** [gzip] on a corrupt archive, other I/O failures *)
| HTTPError        (** [r.raise_for_status()] *)
| JSONDecodeError  (** [json.loads] of a malformed document *)
| SystemExit (msg : string).  (** [sys.exit(msg)] *)

#[export] Instance PyExc_eq_dec : EqDecision PyExc.
Proof. intros x y. unfold Decision. decide equality. apply String.string_dec. Defined.

(** The exceptions a parser raises on bad data, as opposed to I/O errors. *)
Definition data_error (e : PyExc) : Prop :=
  e = ValueError \/ e = IndexError \/ e = AssertionError \/ e = KeyError.

(** A computation that returns a value or raises. *)
Inductive res (A : Type) : Type :=
| Ok (a : A)
| Raise (e : PyExc).
Arguments Ok {A} a.
Arguments Raise {A} e.

Definition res_bind {A B} (m : res A) (k : A -> res B) : res B :=
  match m with
  | Ok a => k a
  | Raise e => Raise e
  end.

Notation "x <- m ;; k" := (res_bind m (fun x => k))
  (at level 60, m at next level, right associativity) : py_scope.

Open Scope py_scope.

(** [l[i]] *)
Definition py_index {A} (l : list A) (i : nat) : res A :=
  match l !! i with
  | Some x => Ok x
  | None => Raise IndexError
  end.

(** [assert b] *)
Definition py_assert (b : bool) : res unit :=
  if b then Ok tt else Raise AssertionError.

(** A loop over [l] whose body may raise: the first exception ends it. *)
Fixpoint foldM {A S} (f : S -> A -> res S) (s : S) (l : list A) : res S :=
  match l with
  | [] => Ok s
  | x :: l' => s' <- f s x ;; foldM f s' l'
  end.

(** The list of results of [f] over [l], or the first exception. *)
Fixpoint mapM {A B} (f : A -> res B) (l : list A) : res (list B) :=
  match l with
  | [] => Ok []
  | x :: l' => y <- f x ;; ys <- mapM f l' ;; Ok (y :: ys)
  end.

(** ** Generic lemmas *)

Create HintDb pyres discriminated.
Create Rewrite HintDb pyres.

Lemma res_bind_Ok {A B} (m : res A) (k : A -> res B) b :
  res_bind m k = Ok b <-> exists a, m = Ok a /\ k a = Ok b.
Proof.
  destruct m as [a|e]; simpl; split.
  - eauto.
  - intros (? & [= ->] & ?). done.
  - done.
  - intros (? & ? & _). done.
Qed.

Lemma res_bind_Raise {A B} (m : res A) (k : A -> res B) e :
  res_bind m k = Raise e <-> m = Raise e \/ exists a, m = Ok a /\ k a = Raise e.
Proof.
  destruct m as [a|e']; simpl; split.
  - eauto.
  - intros [?|(? & [= ->] & ?)]; done.
  - intros [= ->]. auto.
  - intros [[= ->]|(? & ? & _)]; done.
Qed.

Lemma res_bind_ret {A} (m : res A) : res_bind m Ok = m.
Proof. by destruct m. Qed.

Lemma res_bind_assoc {A B C} (m : res A) (k : A -> res B) (h : B -> res C) :
  res_bind (res_bind m k) h = res_bind m (fun a => res_bind (k a) h).
Proof. by destruct m. Qed.

#[export] Hint Rewrite @res_bind_ret @res_bind_assoc : pyres.

(** A bind does not raise [e] when neither part does. *)
Lemma res_bind_not_Raise {A B} (m : res A) (k : A -> res B) e :
  m <> Raise e -> (forall a, m = Ok a -> k a <> Raise e) -> res_bind m k <> Raise e.
Proof. destruct m as [a|e']; simpl; intros H1 H2; [by apply H2|intros [= ->]; by apply H1]. Qed.

Lemma py_index_Ok {A} (l : list A) i x : py_index l i = Ok x <-> l !! i = Some x.
Proof.
  unfold py_index. destruct (l !! i); split; congruence.
Qed.

Lemma py_index_lt {A} (l : list A) i : i < length l -> exists x, py_index l i = Ok x.
Proof.
  intros Hi. destruct (lookup_lt_is_Some_2 l i Hi) as [x Hx].
  exists x. by apply py_index_Ok.
Qed.

Lemma py_index_ge {A} (l : list A) i : length l <= i -> py_index l i = Raise IndexError.
Proof.
  intros Hi. unfold py_index. rewrite lookup_ge_None_2; done.
Qed.

Lemma foldM_app {A S} (f : S -> A -> res S) s l1 l2 :
  foldM f s (l1 ++ l2) = res_bind (foldM f s l1) (fun s' => foldM f s' l2).
Proof.
  revert s. induction l1 as [|x l1 IH]; intros s; simpl; [done|].
  destruct (f s x); simpl; done.
Qed.

(** An invariant of the loop state preserved by every successful body is
    true of the loop's result. *)
Lemma foldM_invariant {A S} (P : S -> Prop) (f : S -> A -> res S) l s s' :
  (forall s1 x s2, In x l -> P s1 -> f s1 x = Ok s2 -> P s2) ->
  P s -> foldM f s l = Ok s' -> P s'.
Proof.
  revert s. induction l as [|x l IH]; intros s Hstep Hs; simpl.
  - by intros [= <-].
  - destruct (f s x) as [s1|] eqn:Hf; simpl; [|done].
    apply IH; [|eapply Hstep; eauto; left; done].
    intros; eapply Hstep; eauto. right; done.
Qed.

(** A loop whose body never raises [e] never raises [e]. *)
Lemma foldM_not_Raise {A S} (f : S -> A -> res S) e l s :
  (forall s x, In x l -> f s x <> Raise e) -> foldM f s l <> Raise e.
Proof.
  revert s. induction l as [|x l IH]; intros s Hf; simpl; [done|].
  apply res_bind_not_Raise; [by apply Hf; left|].
  intros s1 _. apply IH. intros; apply Hf; by right.
Qed.

(** A body that never raises gives a loop that never raises. *)
Lemma foldM_total {A S} (f : S -> A -> S) s l :
  foldM (fun s x => Ok (f s x)) s l = Ok (fold_left f l s).
Proof. revert s. induction l; simpl; auto. Qed.

Lemma mapM_Ok {A B} (f : A -> res B) l ys :
  mapM f l = Ok ys <-> Forall2 (fun x y => f x = Ok y) l ys.
Proof.
  revert ys. induction l as [|x l IH]; intros ys; simpl.
  - split; [intros [= <-]; constructor|intros H; inversion H; done].
  - split.
    + destruct (f x) as [y|] eqn:Hf; simpl; [|done].
      destruct (mapM f l) as [ys'|] eqn:Hm; simpl; [|done].
      intros [= <-]. constructor; [done|]. by apply IH.
    + intros H. inversion H as [|? y ? ys' Hy Hrest]; subst.
      rewrite Hy. simpl. apply IH in Hrest. rewrite Hrest. done.
Qed.

Lemma mapM_length {A B} (f : A -> res B) l ys :
  mapM f l = Ok ys -> length ys = length l.
Proof. rewrite mapM_Ok. intros H. symmetry. by eapply Forall2_length. Qed.

(** Every result of a successful [mapM] comes from an input. *)
Lemma mapM_In {A B} (f : A -> res B) l ys y :
  mapM f l = Ok ys -> In y ys -> exists x, In x l /\ f x = Ok y.
Proof.
  rewrite mapM_Ok. induction 1 as [|x y' l ys' Hxy _ IH]; simpl; [done|].
  intros [<-|Hy]; [eauto|]. destruct (IH Hy) as (x' & ? & ?). eauto.
Qed.

(** A loop whose body parses its input and then updates the state
    without failing is "parse every input, then fold". *)
Lemma foldM_mapM {A B S} (f : S -> A -> res S) (p : A -> res B) (g : S -> B -> S) s l :
  (forall s x, f s x = res_bind (p x) (fun y => Ok (g s y))) ->
  foldM f s l = res_bind (mapM p l) (fun ys => Ok (fold_left g ys s)).
Proof.
  intros Hf. revert s. induction l as [|x l IH]; intros s; simpl; [done|].
  rewrite Hf. destruct (p x) as [y|e]; simpl; [|done].
  rewrite IH. by destruct (mapM p l).
Qed.

(** When every input parses, a loop "parse, then act" is the loop of the
    action over the parsed values. *)
Lemma foldM_parsed {A B S} (p : A -> res B) (g : S -> B -> res S) s l ys :
  mapM p l = Ok ys ->
  foldM (fun s x => res_bind (p x) (g s)) s l = foldM g s ys.
Proof.
  revert s ys. induction l as [|x l IH]; intros s ys; simpl; [by intros [= <-]|].
  destruct (p x) as [y|]; simpl; [|done].
  destruct (mapM p l) as [ys'|] eqn:Hm; simpl; [|done]. intros [= <-]. simpl.
  destruct (g s y); simpl; [by apply IH|done].
Qed.

(** Folding over optional items is folding over the present ones. *)
Lemma fold_left_omap {A S} (g : S -> A -> S) (os : list (option A)) s :
  fold_left (fun s o => match o with Some x => g s x | None => s end) os s =
  fold_left g (omap id os) s.
Proof. revert s. induction os as [|[x|] os IH]; intros s; simpl; auto. Qed.

#[export] Hint Resolve py_index_lt py_index_ge : pyres.

(** Destruct the binds of a hypothesis [H : (x <- m ;; k) = Ok _]. *)
Ltac res_inv H :=
  repeat match type of H with
  | res_bind ?m _ = Ok _ =>
      let E := fresh "E" in
      destruct m eqn:E; simpl in H; [|discriminate H]
  | Ok _ = Ok _ => injection H as H
  end.

(** The exception of a loop is the exception of one turn of its body. *)
Lemma foldM_Raise_inv {A S} (f : S -> A -> res S) s l e :
  foldM f s l = Raise e -> exists s' x, In x l /\ f s' x = Raise e.
Proof.
  revert s. induction l as [|x l IH]; intros s; simpl; [done|].
  destruct (f s x) as [s1|e'] eqn:Hf; simpl.
  - intros (s' & y & Hy & Hs')%IH. eauto.
  - intros [= ->]. eauto.
Qed.

Lemma mapM_Raise_inv {A B} (f : A -> res B) l e :
  mapM f l = Raise e -> exists x, In x l /\ f x = Raise e.
Proof.
  induction l as [|x l IH]; simpl; [done|].
  destruct (f x) eqn:Hf; simpl; [|intros [= ->]; eauto].
  destruct (mapM f l); simpl; [done|]. intros [= ->]. destruct IH as (y & ? & ?); eauto.
Qed.

Lemma py_index_Raise {A} (l : list A) i e : py_index l i = Raise e -> e = IndexError.
Proof. unfold py_index. by case_match; intros [= <-]. Qed.

(** Split a raised computation into the atomic part that raised: binds
    are split, conditionals are cased on, [Ok] cases are discarded. *)
Ltac raise_inv H :=
  repeat match type of H with
  | res_bind _ _ = Raise _ => apply res_bind_Raise in H as [H|(?a & ?Ha & H)]
  | (if ?b then _ else _) = Raise _ => destruct b
  | Ok _ = Raise _ => discriminate H
  end.

(** Case on every bind in the goal, innermost computations first. *)
Ltac res_case :=
  repeat match goal with
  | |- context [res_bind ?m _] =>
      lazymatch m with
      | res_bind _ _ => fail
      | Ok _ => fail
      | Raise _ => fail
      | _ => let E := fresh "E" in destruct m eqn:E; simpl
      end
  end.
