(* ===== verification/PyStr.v ===== *)
(** * PyStr: the Python string operations the loaders call

    [line.split('\t')] ([split_sep]), [line.split()] ([split_ws]), a text
    file read by [readline] until the empty string ([lines_of], [readline];
    [readline_str] is the file object's cursor), the loop
    [while True: line = f.readline(); if not line: break] with fuel
    ([while_lines], which returns the fold over the lines given more fuel
    than characters, [while_lines_enough]),
    and [int(token)] ([parse_int], with its digit scanner [scan_digits] that
    [PyFloat] reuses for [float()]).  Strings are [String.string] over
    8-bit characters; whitespace is the ASCII part of Python's
    [str.isspace]. *)

From S2P Require Import Prelude.
Open Scope string_scope.

Module PyStr.

(** [c.isspace()] on an ASCII character: \t \n \v \f \r, the separators
    \x1c-\x1f, and the space. *)
Definition is_space (c : ascii) : bool :=
  let n := nat_of_ascii c in
  (Nat.leb 9 n && Nat.leb n 13) || (Nat.leb 28 n && Nat.leb n 32).

(** Split at every character satisfying [p], keeping empty pieces. *)
Fixpoint split_pred (p : ascii -> bool) (s : string) : list string :=
  match s with
  | EmptyString => [EmptyString]
  | String x r =>
      let parts := split_pred p r in
      if p x then EmptyString :: parts
      else match parts with
           | q :: qs => String x q :: qs
           | [] => [String x EmptyString]
           end
  end.

(** [s.split(c)] for a one-character separator. *)
Definition split_sep (c : ascii) (s : string) : list string :=
  split_pred (fun x => Ascii.eqb x c) s.

(** [s.split()]: runs of whitespace separate, no empty piece is kept. *)
Definition split_ws (s : string) : list string :=
  filter (fun w => negb (String.eqb w EmptyString)) (split_pred is_space s).

(** [c.join(parts)] *)
Fixpoint join (c : ascii) (parts : list string) : string :=
  match parts with
  | [] => EmptyString
  | [p] => p
  | p :: ps => p ++ String c (join c ps)
  end.

(** The lines [readline] returns, in order, each with its ['\n'] (the last
    one may lack it); the empty string that ends the loop is not a line. *)
Fixpoint lines_of (s : string) : list string :=
  match s with
  | EmptyString => []
  | String x r =>
      if Ascii.eqb x "010"%char then String x EmptyString :: lines_of r
      else match lines_of r with
           | l :: ls => String x l :: ls
           | [] => [String x EmptyString]
           end
  end.

(** [f.readline()] on the remaining lines: [''] at end of file. *)
Definition readline (rest : list string) : string * list string :=
  match rest with
  | [] => (EmptyString, [])
  | l :: ls => (l, ls)
  end.

(** [s.strip()] *)
Fixpoint lstrip (s : string) : string :=
  match s with
  | String x r => if is_space x then lstrip r else s
  | EmptyString => EmptyString
  end.

Definition rev_string (s : string) : string :=
  string_of_list_ascii (rev (list_ascii_of_string s)).

Definition strip (s : string) : string :=
  rev_string (lstrip (rev_string (lstrip s))).

Definition is_digit (c : ascii) : bool :=
  let n := nat_of_ascii c in Nat.leb 48 n && Nat.leb n 57.

Definition digit_val (c : ascii) : Z := Z.of_nat (nat_of_ascii c - 48).

(** Scan a maximal digit part [digit (["_"] digit)*] (PEP 515): the value,
    the number of digits and the rest; [None] when an underscore is not
    between two digits. *)
Fixpoint scan_digits (s : string) (acc : Z) (n : nat) : option (Z * nat * string) :=
  match s with
  | String c r =>
      if is_digit c then scan_digits r (10 * acc + digit_val c) (S n)
      else if Ascii.eqb c "_" && Nat.ltb 0 n then
        match r with
        | String d _ => if is_digit d then scan_digits r acc n else None
        | EmptyString => None
        end
      else Some (acc, n, s)
  | EmptyString => Some (acc, n, EmptyString)
  end.

(** An optional sign: [-1], [1] and the rest. *)
Definition scan_sign (s : string) : Z * string :=
  match s with
  | String c r =>
      if Ascii.eqb c "-" then (-1, r)%Z
      else if Ascii.eqb c "+" then (1, r)%Z
      else (1%Z, s)
  | EmptyString => (1%Z, s)
  end.

(** [int(s)] in base 10; [None] is the [ValueError]. *)
Definition parse_int (s : string) : option Z :=
  let '(sg, t) := scan_sign (strip s) in
  match scan_digits t 0 0 with
  | Some (v, S _, EmptyString) => Some (sg * v)%Z
  | _ => None
  end.

(** [c in s] *)
Definition has_char (c : ascii) (s : string) : bool :=
  existsb (fun x => Ascii.eqb x c) (list_ascii_of_string s).

(** [f.readline()] on the unread rest [s] of a text file: the characters
    up to and including the first newline (all of [s] when there is none),
    and the new rest. *)
Fixpoint readline_str (s : string) : string * string :=
  match s with
  | EmptyString => (EmptyString, EmptyString)
  | String c r =>
      if Ascii.eqb c "010"%char then (String c EmptyString, r)
      else let '(l, r') := readline_str r in (String c l, r')
  end.

(** [line = f.readline()]; [while line: body; line = f.readline()], with
    [fuel] turns at most: [None] when the fuel runs out. *)
Fixpoint while_lines {St} (fuel : nat) (body : St -> string -> res St)
    (st : St) (s : string) : option (res St) :=
  match fuel with
  | O => None
  | S fuel' =>
      let '(line, rest) := readline_str s in
      match line with
      | EmptyString => Some (Ok st)
      | String _ _ =>
          match body st line with
          | Ok st' => while_lines fuel' body st' rest
          | Raise e => Some (Raise e)
          end
      end
  end.

(** ** Lemmas *)

Lemma append_empty_r (s : string) : s ++ EmptyString = s.
Proof. induction s; simpl; congruence. Qed.


Lemma split_pred_cons_ne p s : split_pred p s <> [].
Proof.
  destruct s as [|x r]; simpl; [done|].
  destruct (p x); [done|]. by destruct (split_pred p r).
Qed.

(** [s.split(c)] always has a first piece: [elem[0]] never raises. *)
Lemma split_sep_head c s : exists q qs, split_sep c s = q :: qs.
Proof.
  unfold split_sep. destruct (split_pred _ s) as [|q qs] eqn:E; eauto.
  by apply split_pred_cons_ne in E.
Qed.

Lemma join_cons_string c x q qs :
  join c (String x q :: qs) = String x (join c (q :: qs)).
Proof. by destruct qs. Qed.

Lemma join_empty_cons c qs :
  qs <> [] -> join c (EmptyString :: qs) = String c (join c qs).
Proof. by destruct qs. Qed.


(** Round trip: joining the pieces with the separator gives the line back. *)
Lemma join_split_sep c s : join c (split_sep c s) = s.
Proof.
  unfold split_sep. induction s as [|x r IH]; simpl; [done|].
  destruct (Ascii.eqb_spec x c) as [->|Hx].
  - rewrite join_empty_cons, IH; [done|apply split_pred_cons_ne].
  - destruct (split_pred _ r) as [|q qs] eqn:E; [by apply split_pred_cons_ne in E|].
    rewrite join_cons_string, IH. done.
Qed.

Lemma split_sep_app c p s :
  has_char c p = false ->
  split_sep c (p ++ s) =
  match split_sep c s with q :: qs => (p ++ q) :: qs | [] => [p] end.
Proof.
  unfold split_sep, has_char. induction p as [|x p IH]; simpl; intros Hp.
  - destruct (split_pred _ s) eqn:E; [by apply split_pred_cons_ne in E|done].
  - destruct (Ascii.eqb x c); simpl in Hp; [done|].
    rewrite IH by done.
    destruct (split_pred _ s) eqn:E; [by apply split_pred_cons_ne in E|done].
Qed.

Lemma split_sep_sep c s : split_sep c (String c s) = EmptyString :: split_sep c s.
Proof. unfold split_sep. simpl. by rewrite Ascii.eqb_refl. Qed.

(** Round trip: [str.split(sep)] inverts [sep.join] on a non-empty list of
    separator-free pieces. *)
Lemma split_sep_join c ps :
  ps <> [] -> Forall (fun p => has_char c p = false) ps ->
  split_sep c (join c ps) = ps.
Proof.
  induction ps as [|p ps IH]; intros Hne Hall; [done|].
  inversion Hall as [|? ? Hp Hps]; subst.
  destruct ps as [|p' ps'].
  - simpl. rewrite <- (append_empty_r p) at 1.
    rewrite split_sep_app by done. simpl. by rewrite append_empty_r.
  - change (join c (p :: p' :: ps')) with (p ++ String c (join c (p' :: ps'))).
    rewrite split_sep_app, split_sep_sep, IH by done.
    by rewrite append_empty_r.
Qed.

(** Every line [readline] returns is non-empty, so the loop
    [while line:] stops exactly at the end of the file. *)
Lemma lines_of_nonempty s : Forall (fun l => l <> EmptyString) (lines_of s).
Proof.
  induction s as [|x r IH]; simpl; [constructor|].
  destruct (Ascii.eqb x _); [by constructor|].
  destruct (lines_of r) as [|l ls]; [by repeat constructor|].
  inversion IH; subst. by constructor.
Qed.

(** Round trip: the lines, concatenated, are the file. *)
Lemma lines_of_concat s : foldr append EmptyString (lines_of s) = s.
Proof.
  induction s as [|x r IH]; simpl; [done|].
  destruct (Ascii.eqb x _); simpl; [by rewrite IH|].
  destruct (lines_of r) as [|l ls]; simpl in *; by subst.
Qed.

Lemma split_ws_nonempty s : Forall (fun w => w <> EmptyString) (split_ws s).
Proof.
  apply Forall_forall. intros w. unfold split_ws.
  rewrite list_elem_of_In, <- list_elem_of_In, list_elem_of_filter.
  intros [Hw _]. intros ->. done.
Qed.

Lemma append_assoc (a b c : string) : (a ++ b) ++ c = a ++ (b ++ c).
Proof. induction a; simpl; congruence. Qed.

Lemma append_String_assoc a c b d : (a ++ String c b) ++ d = a ++ String c (b ++ d).
Proof. by rewrite append_assoc. Qed.

Lemma has_char_String c x s : has_char c (String x s) = Ascii.eqb x c || has_char c s.
Proof. done. Qed.

Lemma has_char_app c a b : has_char c (a ++ b) = has_char c a || has_char c b.
Proof.
  induction a as [|x a IH]; [done|].
  simpl. rewrite !has_char_String, IH.
  by rewrite orb_assoc.
Qed.

(** No piece of [s.split(c)] holds [c], and a piece holds no character
    the string does not hold. *)
Lemma split_sep_free c d s :
  Forall (fun p => has_char c p = false) (split_sep c s) /\
  (has_char d s = false -> Forall (fun p => has_char d p = false) (split_sep c s)).
Proof.
  unfold split_sep. induction s as [|x r [IH1 IH2]]; simpl; [by split; repeat constructor|].
  rewrite has_char_String. destruct (Ascii.eqb_spec x c) as [->|Hx].
  - split; [by constructor|]. intros [Hd ?]%orb_false_iff. by constructor; [|apply IH2].
  - destruct (split_pred _ r) as [|q qs] eqn:E; [by apply split_pred_cons_ne in E|].
    inversion IH1 as [|? ? Hq Hqs]; subst. split.
    + constructor; [|done]. rewrite has_char_String, Hq. by destruct (Ascii.eqb_spec x c).
    + intros [Hd Hr]%orb_false_iff. apply IH2 in Hr. inversion Hr; subst.
      constructor; [|done]. by rewrite has_char_String, Hd.
Qed.

(** Appending a tail without the separator extends the last piece. *)
Lemma split_sep_snoc c s1 s2 :
  has_char c s2 = false ->
  exists ps q, split_sep c s1 = (ps ++ [q])%list /\ split_sep c (s1 ++ s2) = (ps ++ [(q ++ s2)%string])%list.
Proof.
  intros Hs2. unfold split_sep. induction s1 as [|x r (ps & q & IH1 & IH2)].
  - exists [], EmptyString. split; [reflexivity|]. simpl.
    pose proof (split_sep_app c s2 EmptyString Hs2) as H.
    unfold split_sep in H. rewrite append_empty_r in H. rewrite H. simpl.
    by rewrite append_empty_r.
  - simpl. rewrite IH1, IH2. destruct (Ascii.eqb x c).
    + by exists (EmptyString :: ps), q.
    + destruct ps as [|p0 ps0]; simpl.
      * by exists [], (String x q).
      * by exists (String x p0 :: ps0), q.
Qed.

(** A line ending in a newline, then the rest: [readline] returns that
    line first. *)
Lemma lines_of_line_app y s :
  has_char "010"%char y = false ->
  lines_of ((y ++ String "010" EmptyString) ++ s) = (y ++ String "010" EmptyString) :: lines_of s.
Proof.
  induction y as [|x y IH]; intros Hy; [done|].
  rewrite has_char_String in Hy. apply orb_false_iff in Hy as [Hx Hy].
  simpl. rewrite Hx, IH by done. done.
Qed.

(** Each line [readline] returns has a newline at most at its end. *)
Lemma lines_of_shape s l :
  In l (lines_of s) ->
  exists x, has_char "010"%char x = false /\
            (l = x \/ l = x ++ String "010" EmptyString).
Proof.
  revert l. induction s as [|c r IH]; intros l; simpl; [done|].
  destruct (Ascii.eqb c "010") eqn:Ec.
  - apply Ascii.eqb_eq in Ec as ->. intros [<-|Hl]; [|by apply IH].
    exists EmptyString. by split; [|right].
  - destruct (lines_of r) as [|l0 ls] eqn:E.
    + intros [<-|[]]. exists (String c EmptyString). split; [|by left].
      by rewrite has_char_String, Ec.
    + intros [<-|Hl]; [|apply IH; by right].
      destruct (IH l0 (or_introl eq_refl)) as (x & Hx & [->| ->]);
        exists (String c x); (split; [by rewrite has_char_String, Ec|]); auto.
Qed.

(** [readline] returns [''] exactly at the end of the file; otherwise it
    returns the next line of [lines_of] and strictly shortens the rest. *)
Lemma readline_str_spec s :
  let '(l, r) := readline_str s in
  (s = EmptyString /\ l = EmptyString /\ r = EmptyString) \/
  (l <> EmptyString /\ lines_of s = l :: lines_of r /\ String.length r < String.length s).
Proof.
  induction s as [|c r IH]; simpl; [by left|].
  destruct (Ascii.eqb c "010") eqn:Ec; simpl; [right; split_and!; [done|done|lia]|].
  destruct (readline_str r) as [l r']. right.
  destruct IH as [(-> & -> & ->)|(Hl & Hlines & Hlen)]; simpl.
  - split_and!; [done|done|simpl; lia].
  - rewrite Hlines. split_and!; [done|done|simpl; lia].
Qed.

(** The list view of a file agrees with the file object: [readline] on
    the lines of [s] returns what [f.readline()] returns on [s], and the
    lines of the rest. *)
Lemma readline_lines_of s :
  readline (lines_of s) = let '(l, r) := readline_str s in (l, lines_of r).
Proof.
  pose proof (readline_str_spec s) as Hs. destruct (readline_str s) as [l r].
  destruct Hs as [(-> & -> & ->)|(_ & -> & _)]; done.
Qed.

(** Termination of the [while line:] loop: with more turns of fuel than
    characters in the file it stops, with the result of the fold of its
    body over the lines. *)
Lemma while_lines_enough {St} (body : St -> string -> res St) fuel st s :
  String.length s < fuel -> while_lines fuel body st s = Some (foldM body st (lines_of s)).
Proof.
  revert st s. induction fuel as [|fuel IH]; intros st s Hf; [lia|]. simpl.
  pose proof (readline_str_spec s) as Hs. destruct (readline_str s) as [l r].
  destruct Hs as [(-> & -> & ->)|(Hl & -> & Hlen)]; [done|].
  destruct l as [|x l']; [done|]. simpl.
  destruct (body st (String x l')); simpl; [apply IH; lia|done].
Qed.

End PyStr.

#[export] Hint Rewrite PyStr.append_empty_r PyStr.join_cons_string : pyres.
