(* ===== verification/PyDict.v ===== *)
(** * PyDict: Python's insertion-ordered [dict]

    A dict is the list of its items in insertion order.  [d[k] = v] updates
    the value in place when [k] is present and appends [(k, v)] otherwise,
    so [d.items()] iterates in first-insertion order, which is the order
    [__edge_list] and [query_edge] report edges in.  Every dict of the code
    is built from [{}] by [setitem]; it never holds a key twice ([wf]).
    Nested dicts of the code are never shared between two places (each
    [{}] is fresh and stored once), so a value model of nesting is exact.

    The file also gives the abstraction of a dict to a stdpp [gmap]
    ([to_gmap]), under which [setitem] is [insert] (a refinement), and the
    equivalence [dict_equiv] (same contents, any order) with the [Proper]
    instances of the operations. *)

From S2P Require Import Prelude.
From stdpp Require Import gmap.

Module PyDict.

Section Dict.
Context {K V : Type} `{EqDecision K}.

Definition t (K V : Type) := list (K * V).

(** [{}] *)
Definition empty : t K V := [].

(** [d.get(k)]; [d[k]] raises [KeyError] on [None]. *)
Fixpoint get (k : K) (d : t K V) : option V :=
  match d with
  | [] => None
  | (k', v) :: d' => if decide (k = k') then Some v else get k d'
  end.

(** [k in d] *)
Definition contains (k : K) (d : t K V) : bool :=
  match get k d with Some _ => true | None => false end.

(** [d[k] = v] *)
Fixpoint setitem (k : K) (v : V) (d : t K V) : t K V :=
  match d with
  | [] => [(k, v)]
  | (k', v') :: d' =>
      if decide (k = k') then (k, v) :: d' else (k', v') :: setitem k v d'
  end.

(** [d.items()] and [d.keys()] *)
Definition items (d : t K V) : list (K * V) := d.
Definition keys (d : t K V) : list K := map fst d.

(** [if k not in d: d[k] = v0] *)
Definition ensure (k : K) (v0 : V) (d : t K V) : t K V :=
  if contains k d then d else setitem k v0 d.

(** [d[k]] read after [ensure k v0 d]: the stored value, or [v0]. *)
Definition get_or (k : K) (v0 : V) (d : t K V) : V :=
  match get k d with Some v => v | None => v0 end.

(** A dict never holds a key twice. *)
Definition wf (d : t K V) : Prop := NoDup (keys d).

(** Same contents, whatever the insertion order. *)
Definition dict_equiv (d1 d2 : t K V) : Prop := forall k, get k d1 = get k d2.

(** ** Lemmas *)

Lemma get_setitem_eq k v d : get k (setitem k v d) = Some v.
Proof.
  induction d as [|[k' v'] d IH]; simpl; [by rewrite decide_True|].
  case_decide; simpl; [by rewrite decide_True|].
  by rewrite decide_False.
Qed.

Lemma get_setitem_ne k k' v d : k <> k' -> get k' (setitem k v d) = get k' d.
Proof.
  intros Hne. induction d as [|[k0 v0] d IH]; simpl.
  - by rewrite decide_False.
  - case_decide; subst; simpl.
    + by rewrite !decide_False.
    + by case_decide.
Qed.

Lemma get_setitem k k' v d :
  get k' (setitem k v d) = if decide (k' = k) then Some v else get k' d.
Proof.
  case_decide; subst; [apply get_setitem_eq|]. by apply get_setitem_ne.
Qed.

Lemma get_empty k : get k empty = None.
Proof. done. Qed.

Lemma contains_get k d : contains k d = true <-> is_Some (get k d).
Proof. unfold contains. destruct (get k d); split; by eauto. Qed.

Lemma get_In k v d : get k d = Some v -> In (k, v) (items d).
Proof.
  induction d as [|[k' v'] d IH]; simpl; [done|].
  case_decide; [intros [= <-]; subst; auto|auto].
Qed.

Lemma In_keys k d : In k (keys d) <-> is_Some (get k d).
Proof.
  induction d as [|[k' v'] d IH]; simpl; [split; [done|by intros []]|].
  case_decide; subst; [split; eauto|]. rewrite IH. naive_solver.
Qed.

(** Insertion order: updating a present key keeps the keys; a new key goes
    last. *)
Lemma keys_setitem k v d :
  keys (setitem k v d) = if contains k d then keys d else keys d ++ [k].
Proof.
  unfold contains. induction d as [|[k' v'] d IH]; simpl; [done|].
  case_decide; subst; simpl; [done|]. rewrite IH. by destruct (get k d).
Qed.

Lemma wf_empty : wf empty.
Proof. constructor. Qed.

Lemma wf_setitem k v d : wf d -> wf (setitem k v d).
Proof.
  unfold wf. rewrite keys_setitem. unfold contains.
  destruct (get k d) eqn:E; [done|]. intros Hd.
  apply NoDup_app. split; [done|]. split; [|apply NoDup_singleton].
  intros x Hx ->%list_elem_of_singleton. apply list_elem_of_In, In_keys in Hx.
  rewrite E in Hx. by destruct Hx.
Qed.

Lemma wf_ensure k v d : wf d -> wf (ensure k v d).
Proof. unfold ensure. destruct (contains k d); auto using wf_setitem. Qed.

(** In a well-formed dict, [items] lists exactly the stored pairs. *)
Lemma In_items k v d : wf d -> In (k, v) (items d) <-> get k d = Some v.
Proof.
  unfold wf. induction d as [|[k' v'] d IH]; simpl; intros Hnd; [done|].
  inversion Hnd as [|? ? Hk' Hnd']; subst.
  case_decide; subst.
  - split; [|intros [= ->]; auto].
    intros [[= ->]|Hin]; [done|].
    exfalso. apply Hk', list_elem_of_In. apply in_map_iff. by exists (k', v).
  - rewrite <- IH by done. split; [intros [[= -> ->]|]|]; auto. done.
Qed.

Lemma get_ensure k v0 d : get k (ensure k v0 d) = Some (get_or k v0 d).
Proof.
  unfold ensure, contains, get_or.
  destruct (get k d) eqn:E; [done|]. apply get_setitem_eq.
Qed.

Lemma get_ensure_ne k k' v0 d : k <> k' -> get k' (ensure k v0 d) = get k' d.
Proof. unfold ensure. destruct (contains k d); [done|]. by apply get_setitem_ne. Qed.

Lemma setitem_setitem_eq k v v0 d : setitem k v (setitem k v0 d) = setitem k v d.
Proof.
  induction d as [|[k' v'] d IH]; simpl; [by rewrite decide_True|].
  case_decide; simpl; [by rewrite decide_True|]. rewrite decide_False by done.
  by rewrite IH.
Qed.

(** [ensure] followed by an assignment of the same key is the assignment. *)
Lemma setitem_ensure k v v0 d : setitem k v (ensure k v0 d) = setitem k v d.
Proof.
  unfold ensure. destruct (contains k d); [done|]. apply setitem_setitem_eq.
Qed.

Lemma get_or_ensure k v0 d : get_or k v0 (ensure k v0 d) = get_or k v0 d.
Proof. unfold get_or at 1. by rewrite get_ensure. Qed.

Lemma get_or_setitem_eq k v v0 d : get_or k v0 (setitem k v d) = v.
Proof. unfold get_or. by rewrite get_setitem_eq. Qed.

End Dict.


(** ** The setoid of dict contents *)

Section Equiv.
Context {K V : Type} `{EqDecision K}.
Implicit Types d : t K V.

#[global] Instance dict_equiv_equiv : Equivalence (@dict_equiv K V _).
Proof.
  split; unfold dict_equiv; [done|by intros ?? H k; rewrite H|].
  intros ??? H1 H2 k. by rewrite H1, H2.
Qed.

#[global] Instance get_proper k : Proper (@dict_equiv K V _ ==> eq) (get k).
Proof. intros d1 d2 H. apply H. Qed.

#[global] Instance contains_proper k : Proper (@dict_equiv K V _ ==> eq) (contains k).
Proof. intros d1 d2 H. unfold contains. by rewrite (H k). Qed.

#[global] Instance setitem_proper k v : Proper (@dict_equiv K V _ ==> @dict_equiv K V _) (setitem k v).
Proof. intros d1 d2 H k'. rewrite !get_setitem. by case_decide. Qed.

#[global] Instance get_or_proper k v0 : Proper (@dict_equiv K V _ ==> eq) (get_or k v0).
Proof. intros d1 d2 H. unfold get_or. by rewrite (H k). Qed.

#[global] Instance ensure_proper k v0 : Proper (@dict_equiv K V _ ==> @dict_equiv K V _) (ensure k v0).
Proof.
  intros d1 d2 H. unfold ensure. rewrite (contains_proper k d1 d2 H).
  destruct (contains k d2); [done|]. by rewrite H.
Qed.

(** Assignments to distinct keys commute up to insertion order. *)
Lemma setitem_setitem_ne k1 k2 v1 v2 d :
  k1 <> k2 -> dict_equiv (setitem k1 v1 (setitem k2 v2 d)) (setitem k2 v2 (setitem k1 v1 d)).
Proof. intros Hne k. rewrite !get_setitem. repeat case_decide; congruence. Qed.

End Equiv.

(** ** Refinement: a dict is a finite map *)

Section ToGmap.
Context {K V : Type} `{Countable K}.

Definition to_gmap (d : t K V) : gmap K V := list_to_map (items d).

Lemma to_gmap_lookup (d : t K V) k : to_gmap d !! k = get k d.
Proof.
  unfold to_gmap, items. induction d as [|[k' v'] d IH]; simpl.
  - by rewrite lookup_empty.
  - rewrite lookup_insert. case_decide; subst; [by rewrite decide_True|].
    by rewrite decide_False by congruence.
Qed.

(** [d[k] = v] refines [<[k := v]>]. *)
Lemma to_gmap_setitem (d : t K V) k v : to_gmap (setitem k v d) = <[k := v]> (to_gmap d).
Proof.
  apply map_eq. intros k'. rewrite to_gmap_lookup, get_setitem, lookup_insert.
  repeat case_decide; subst; try congruence. by rewrite to_gmap_lookup.
Qed.

Lemma to_gmap_empty : to_gmap (empty : t K V) = ∅.
Proof. done. Qed.

(** Two dicts have the same contents iff they denote the same map. *)
Lemma dict_equiv_to_gmap (d1 d2 : t K V) : dict_equiv d1 d2 <-> to_gmap d1 = to_gmap d2.
Proof.
  split.
  - intros Heq. apply map_eq. intros k. by rewrite !to_gmap_lookup.
  - intros Heq k. by rewrite <- !to_gmap_lookup, Heq.
Qed.

End ToGmap.

End PyDict.

#[export] Hint Rewrite @PyDict.get_setitem_eq @PyDict.get_ensure @PyDict.setitem_ensure
  @PyDict.get_or_ensure @PyDict.get_or_setitem_eq : pyres.
#[export] Hint Resolve PyDict.wf_empty PyDict.wf_setitem PyDict.wf_ensure : pyres.

Arguments PyDict.t : clear implicits.
