(* ===== verification/PyFloat.v ===== *)
(** * PyFloat: what the code needs from Python floats

    The loaders call [float(s)] on a weight, [np.asarray(..., dtype=np.float32)]
    on vector components, compare with [>] (inside [max]) and [==] (inside
    [np.array_equal]) and start every weight at [0.0].  The class [PyFloat]
    is that interface; [PyFloatLaws] are the laws IEEE-754 comparison
    satisfies ([==] symmetric and transitive, [>] irreflexive and
    transitive; NaN makes [==] irreflexive, so reflexivity is not a law).

    [py_max] is CPython's [max(a, b)]: [b] if [b > a], else [a].

    [QFloat] is an instance on exact decimals ([Q]) whose parser accepts
    Python's decimal literal syntax: surrounding whitespace, a sign,
    digits with PEP 515 underscores, a fraction and an exponent.  It has no
    rounding and no [inf]/[nan] (it rejects them), so it is the instance of
    the witnesses, not a model of binary64; the theorems of the other files
    are stated over any instance. *)

From S2P Require Import Prelude PyStr.
From Stdlib Require Import QArith.

Class PyFloat (F : Type) := {
  py_float : string -> option F;   (** [float(s)]; [None] is [ValueError] *)
  fzero : F;                       (** [0.0] *)
  fgt : F -> F -> bool;            (** [a > b] *)
  feq : F -> F -> bool             (** [a == b] *)
}.

Class PyFloatLaws (F : Type) `{PyFloat F} := {
  feq_sym a b : feq a b = true -> feq b a = true;
  feq_trans a b c : feq a b = true -> feq b c = true -> feq a c = true;
  fgt_irrefl a : fgt a a = false;
  fgt_trans a b c : fgt a b = true -> fgt b c = true -> fgt a c = true
}.

(** [max(a, b)] *)
Definition py_max {F} `{PyFloat F} (a b : F) : F := if fgt b a then b else a.

(** [np.array_equal(a, b)]: same shape and elementwise [==]. *)
Fixpoint array_equal {F} `{PyFloat F} (a b : list F) : bool :=
  match a, b with
  | [], [] => true
  | x :: a', y :: b' => feq x y && array_equal a' b'
  | _, _ => false
  end.

Section Laws.
Context {F : Type} `{PyFloatLaws F}.

Lemma py_max_cases a b : py_max a b = a \/ py_max a b = b.
Proof. unfold py_max. destruct (fgt b a); auto. Qed.

(** Nothing that was not above [a] is above [max(a, b)], and [b] is not. *)
Lemma py_max_upper a b x :
  fgt x a = false -> fgt x (py_max a b) = false /\ fgt b (py_max a b) = false.
Proof.
  unfold py_max. destruct (fgt b a) eqn:Hba; intros Hxa.
  - split; [|apply fgt_irrefl].
    destruct (fgt x b) eqn:Hxb; [|done].
    rewrite (fgt_trans _ _ _ Hxb Hba) in Hxa. done.
  - done.
Qed.

(** The running [max] of a loop is above nothing it has seen and above
    nothing its start was above. *)
Lemma fold_py_max_upper ws x :
  (forall z, fgt z x = false -> fgt z (fold_left py_max ws x) = false) /\
  Forall (fun y => fgt y (fold_left py_max ws x) = false) ws.
Proof.
  revert x. induction ws as [|y ws IH]; intros x; simpl; [split; [done|constructor]|].
  destruct (IH (py_max x y)) as [Hup Hall]. split.
  - intros z Hz. apply Hup. by apply (py_max_upper x y z).
  - constructor; [|done]. apply Hup. apply (py_max_upper x y x), fgt_irrefl.
Qed.

(** The running [max] is its start or one of the values seen. *)
Lemma fold_py_max_In ws x : In (fold_left py_max ws x) (x :: ws).
Proof.
  revert x. induction ws as [|y ws IH]; intros x; simpl; [auto|].
  destruct (IH (py_max x y)) as [<-|]; [|auto].
  destruct (py_max_cases x y) as [->| ->]; auto.
Qed.

Lemma array_equal_sym a b : array_equal a b = true -> array_equal b a = true.
Proof.
  revert b. induction a as [|x a IH]; intros [|y b]; simpl; try done.
  intros [Hxy Hab]%andb_prop. by rewrite (feq_sym _ _ Hxy), IH.
Qed.

Lemma array_equal_trans a b c :
  array_equal a b = true -> array_equal b c = true -> array_equal a c = true.
Proof.
  revert b c. induction a as [|x a IH]; intros [|y b] [|z c]; simpl; try done.
  intros [Hxy Hab]%andb_prop [Hyz Hbc]%andb_prop.
  by rewrite (feq_trans _ _ _ Hxy Hyz), (IH _ _ Hab Hbc).
Qed.

(** Equal arrays have equal first elements. *)
Lemma array_equal_head x a y b :
  array_equal (x :: a) (y :: b) = true -> feq x y = true.
Proof. simpl. by intros [? _]%andb_prop. Qed.

End Laws.

(** ** An exact-decimal instance *)

Module QFloat.
Import PyStr.
Open Scope string_scope.


(** [m * 10^e] as a rational. *)
Definition scaled (m e : Z) : Q :=
  if Z.leb 0 e then inject_Z (m * 10 ^ e) else m # Z.to_pos (10 ^ (- e)).

(** The optional exponent part [(e|E) sign? digits], then end of input. *)
Definition scan_exponent (s : string) : option Z :=
  match s with
  | EmptyString => Some 0%Z
  | String c r =>
      if Ascii.eqb c "e" || Ascii.eqb c "E" then
        let '(sg, t) := scan_sign r in
        match scan_digits t 0%Z 0%nat with
        | Some (x, S _, EmptyString) => Some (sg * x)%Z
        | _ => None
        end
      else None
  end.

(** [float(s)] for a decimal literal. *)
Definition parse_decimal (s : string) : option Q :=
  let '(sg, t) := scan_sign (strip s) in
  match scan_digits t 0%Z 0%nat with
  | Some (ip, ni, rest) =>
      let frac :=
        match rest with
        | String c r => if Ascii.eqb c "." then scan_digits r ip 0%nat else Some (ip, 0%nat, rest)
        | EmptyString => Some (ip, 0%nat, rest)
        end in
      match frac with
      | Some (m, nf, rest') =>
          if Nat.eqb (ni + nf) 0 then None
          else match scan_exponent rest' with
               | Some e => Some (scaled (sg * m) (e - Z.of_nat nf))
               | None => None
               end
      | None => None
      end
  | None => None
  end.

#[global] Instance QFloat_PyFloat : PyFloat Q := {
  py_float := parse_decimal;
  fzero := 0%Q;
  fgt a b := negb (Qle_bool a b);
  feq := Qeq_bool
}.

#[global] Instance QFloat_laws : PyFloatLaws Q.
Proof.
  split; simpl.
  - intros a b. rewrite !Qeq_bool_iff. intros. by symmetry.
  - intros a b c. rewrite !Qeq_bool_iff. intros. by transitivity b.
  - intros a. apply negb_false_iff, Qle_bool_iff, Qle_refl.
  - intros a b c. rewrite !negb_true_iff.
    intros Hab Hbc. apply not_true_iff_false. rewrite Qle_bool_iff.
    apply not_true_iff_false in Hab, Hbc. rewrite Qle_bool_iff in Hab, Hbc.
    apply Qlt_not_le. apply Qnot_le_lt in Hab, Hbc. by apply (Qlt_trans _ b).
Qed.

End QFloat.
