(* ===== verification/Numberbatch.v ===== *)
(** * Numberbatch: the embedding table ([__load_numberbatch], lines 47-76)

    State: [self.concepts] (a dict from a concept to its float32 vector) and
    the local [known_embeddings] (first vector element -> concepts kept
    with a vector starting with it), threaded as a pair through the
    [for i in range(num_concepts)] loop.

    [parse_header] is line 50, [parse_row] lines 52-57 (split, [elem[0]],
    [np.asarray(elem[1:], dtype=np.float32)], the [assert]), [insert_row]
    lines 59-76 (the bucketed duplicate filter and the stores), [load_row]
    one turn of the loop, [load_numberbatch] the whole method.  A row read
    past the end of the file is [''], whose [elem[0]] raises [IndexError].

    [known_embeddings] is keyed by float32 scalars: a lookup finds the key
    that compares [==] to [embedding[0]] (a NaN, never equal, always opens a
    new key), which [Buckets] models as an association list searched with
    [feq].  The comparison loop reads [self.concepts[c]] afresh, so a
    concept that is stored twice changes what later rows are compared with;
    the model reads the current dict likewise. *)

From S2P Require Import Prelude PyStr PyDict PyFloat.
Local Open Scope list_scope.

Module Numberbatch.

Section NB.
Context {F : Type} `{PyFloat F}.

(** A float32 vector. *)
Definition Vec : Type := list F.

(** [self.concepts] *)
Definition Concepts : Type := PyDict.t string Vec.

(** [known_embeddings] *)
Definition Buckets : Type := list (F * list string).

(** [e in known_embeddings] / [known_embeddings[e]] *)
Fixpoint bucket_find (e : F) (kn : Buckets) : option (list string) :=
  match kn with
  | [] => None
  | (k, cs) :: kn' => if feq k e then Some cs else bucket_find e kn'
  end.

(** [known_embeddings[e] = cs]: the entry whose key equals [e] keeps its
    key; otherwise a new entry goes last. *)
Fixpoint bucket_set (e : F) (cs : list string) (kn : Buckets) : Buckets :=
  match kn with
  | [] => [(e, cs)]
  | (k, cs') :: kn' => if feq k e then (k, cs) :: kn' else (k, cs') :: bucket_set e cs kn'
  end.

(** [self.concepts[c]] *)
Definition getitem (c : string) (concepts : Concepts) : res Vec :=
  match PyDict.get c concepts with Some v => Ok v | None => Raise KeyError end.

(** [float32(s)] for each field *)
Definition parse_vector (fields : list string) : res Vec :=
  mapM (fun s => match py_float s with Some x => Ok x | None => Raise ValueError end) fields.

(** Line 50: [num_concepts, embedding_size = [int(x) for x in line.split()]]. *)
Definition parse_header (line : string) : res (Z * Z) :=
  xs <- mapM (fun t => match PyStr.parse_int t with Some z => Ok z | None => Raise ValueError end)
             (PyStr.split_ws line) ;;
  match xs with
  | [n; d] => Ok (n, d)
  | _ => Raise ValueError
  end.

(** Lines 52-57: a row's concept and vector. *)
Definition parse_row (embedding_size : Z) (line : string) : res (string * Vec) :=
  let elem := PyStr.split_ws line in
  concept <- py_index elem 0 ;;
  embedding <- parse_vector (drop 1 elem) ;;
  _ <- py_assert (Z.eqb embedding_size (Z.of_nat (length embedding))) ;;
  Ok (concept, embedding).

(** Lines 67-70: [flag] is false iff some concept of the bucket has a
    vector equal to [emb] (the loop breaks there). *)
Fixpoint scan_bucket (emb : Vec) (concepts : Concepts) (cs : list string) : res bool :=
  match cs with
  | [] => Ok true
  | c :: cs' =>
      v <- getitem c concepts ;;
      if array_equal emb v then Ok false else scan_bucket emb concepts cs'
  end.

(** Lines 59-76: store the row, or drop it as a duplicate. *)
Definition insert_row (remove_duplicate : bool) (st : Concepts * Buckets)
    (row : string * Vec) : res (Concepts * Buckets) :=
  let '(concepts, known) := st in
  let '(concept, embedding) := row in
  if remove_duplicate then
    e0 <- py_index embedding 0 ;;
    match bucket_find e0 known with
    | None => Ok (PyDict.setitem concept embedding concepts, bucket_set e0 [concept] known)
    | Some cs =>
        flag <- scan_bucket embedding concepts cs ;;
        if flag then
          Ok (PyDict.setitem concept embedding concepts, bucket_set e0 (cs ++ [concept]) known)
        else Ok (concepts, known)
    end
  else Ok (PyDict.setitem concept embedding concepts, known).

(** One turn of the loop of line 51. *)
Definition load_row (remove_duplicate : bool) (embedding_size : Z)
    (st : Concepts * Buckets) (line : string) : res (Concepts * Buckets) :=
  row <- parse_row embedding_size line ;; insert_row remove_duplicate st row.

(** [k] calls of [f_in.readline()]: [''] once the file is exhausted. *)
Fixpoint readlines_n (k : nat) (rest : list string) : list string :=
  match k with
  | O => []
  | S k' => let '(l, rest') := PyStr.readline rest in l :: readlines_n k' rest'
  end.

(** The same calls on the file object: [f_in.readline()] [k] times on the
    unread rest [s] of the file. *)
Fixpoint readlines_str (k : nat) (s : string) : list string :=
  match k with
  | O => []
  | S k' => let '(l, r) := PyStr.readline_str s in l :: readlines_str k' r
  end.

(** [__load_numberbatch(filename, remove_duplicate)] from [self.concepts]. *)
Definition load_numberbatch (contents : string) (remove_duplicate : bool)
    (concepts : Concepts) : res Concepts :=
  let '(header, rest) := PyStr.readline (PyStr.lines_of contents) in
  hd <- parse_header header ;;
  let '(num_concepts, embedding_size) := hd in
  st <- foldM (load_row remove_duplicate embedding_size) (concepts, [])
              (readlines_n (Z.to_nat num_concepts) rest) ;;
  Ok (fst st).

(** ** Specification *)

(** The header and all rows, or the first exception. *)
Definition parse_table (contents : string) : res (Z * list (string * Vec)) :=
  let '(header, rest) := PyStr.readline (PyStr.lines_of contents) in
  hd <- parse_header header ;;
  let '(num_concepts, embedding_size) := hd in
  rows <- mapM (parse_row embedding_size) (readlines_n (Z.to_nat num_concepts) rest) ;;
  Ok (embedding_size, rows).

(** The dict of rows stored in order. *)
Definition rows_to_dict (d : Concepts) (rows : list (string * Vec)) : Concepts :=
  fold_left (fun d '(c, v) => PyDict.setitem c v d) rows d.

(** Reference duplicate filter: keep a row iff no row kept before it has an
    equal vector. *)
Definition dedup_step (kept : list (string * Vec)) (row : string * Vec) : list (string * Vec) :=
  if existsb (fun kv => array_equal (snd row) (snd kv)) kept then kept else kept ++ [row].

Definition dedup_ref (rows : list (string * Vec)) : list (string * Vec) :=
  fold_left dedup_step rows [].

(** ** Lemmas on the rows *)

Lemma rows_to_dict_app d rows1 rows2 :
  rows_to_dict d (rows1 ++ rows2) = rows_to_dict (rows_to_dict d rows1) rows2.
Proof. unfold rows_to_dict. by rewrite fold_left_app. Qed.

Lemma rows_to_dict_snoc d rows c v :
  rows_to_dict d (rows ++ [(c, v)]) = PyDict.setitem c v (rows_to_dict d rows).
Proof. by rewrite rows_to_dict_app. Qed.

(** With distinct names, the dict of the rows maps each name to its row. *)
Lemma rows_to_dict_get rows c v :
  NoDup (map fst rows) -> In (c, v) rows -> PyDict.get c (rows_to_dict [] rows) = Some v.
Proof.
  induction rows as [|[c' v'] rows IH] using rev_ind; [done|].
  rewrite map_app, rows_to_dict_snoc. simpl. intros Hnd Hin.
  apply NoDup_app in Hnd as (Hnd & Hdisj & _).
  rewrite PyDict.get_setitem. apply in_app_or in Hin as [Hin|[[= -> ->]|[]]].
  - rewrite decide_False; [by apply IH|]. intros ->.
    apply (Hdisj c'); [apply list_elem_of_In, in_map_iff; by exists (c', v)|by left].
  - by rewrite decide_True.
Qed.

Lemma load_row_nodup d st line :
  load_row false d st line =
  res_bind (parse_row d line) (fun row => Ok (PyDict.setitem (fst row) (snd row) (fst st), snd st)).
Proof.
  unfold load_row. destruct (parse_row d line) as [[c v]|]; simpl; [|done].
  by destruct st.
Qed.

Lemma fold_store_rows rows (st : Concepts * Buckets) :
  fst (fold_left (fun st row => (PyDict.setitem (fst row) (snd row) (fst st), snd st)) rows st)
  = rows_to_dict (fst st) rows.
Proof.
  revert st. induction rows as [|[c v] rows IH]; intros st; simpl; [done|].
  by rewrite IH.
Qed.

(** ** Lemmas on [known_embeddings] *)

Lemma bucket_find_Some e kn cs :
  bucket_find e kn = Some cs -> exists k, In (k, cs) kn /\ feq k e = true.
Proof.
  induction kn as [|[k cs'] kn IH]; simpl; [done|].
  destruct (feq k e) eqn:Hk; [intros [= <-]; eauto|].
  intros (k' & ? & ?)%IH. eauto.
Qed.

Lemma bucket_find_None e kn :
  bucket_find e kn = None -> forall k cs, In (k, cs) kn -> feq k e = false.
Proof.
  induction kn as [|[k cs'] kn IH]; simpl; [done|].
  destruct (feq k e) eqn:Hk; [done|]. intros Hn k' cs [[= -> ->]|Hin]; eauto.
Qed.

Lemma bucket_set_new e cs kn :
  bucket_find e kn = None -> bucket_set e cs kn = kn ++ [(e, cs)].
Proof.
  induction kn as [|[k cs'] kn IH]; simpl; [done|].
  destruct (feq k e); [done|]. intros Hn. by rewrite IH.
Qed.

Lemma bucket_set_keys e cs cs0 kn :
  bucket_find e kn = Some cs0 -> map fst (bucket_set e cs kn) = map fst kn.
Proof.
  induction kn as [|[k cs'] kn IH]; simpl; [done|].
  destruct (feq k e); [done|]. intros Hf. simpl. f_equal. by apply IH.
Qed.

Lemma bucket_set_In_inv e cs kn k x :
  In (k, x) (bucket_set e cs kn) -> In (k, x) kn \/ (x = cs /\ (feq k e = true \/ k = e)).
Proof.
  induction kn as [|[k' cs'] kn IH]; simpl; [intros [[= -> ->]|[]]; auto|].
  destruct (feq k' e) eqn:Hk; simpl.
  - intros [[= -> ->]|Hin]; auto.
  - intros [[= -> ->]|Hin]; auto. destruct (IH Hin); auto.
Qed.

(** Extending the found bucket keeps every concept in a bucket of the same
    key. *)
Lemma bucket_set_In_keep e cs0 ys kn k x c :
  bucket_find e kn = Some cs0 -> In (k, x) kn -> In c x ->
  exists x', In (k, x') (bucket_set e (cs0 ++ ys) kn) /\ In c x'.
Proof.
  induction kn as [|[k' cs'] kn IH]; simpl; [done|].
  destruct (feq k' e) eqn:Hk.
  - intros [= ->] [[= -> ->]|Hin] Hc.
    + exists (x ++ ys). split; [by left|]. apply in_or_app. by left.
    + exists x. by split; [right|].
  - intros Hf [[= -> ->]|Hin] Hc; [exists x; by split; [left|]|].
    destruct (IH Hf Hin Hc) as (x' & ? & ?). exists x'. by split; [right|].
Qed.

Lemma bucket_set_In_found e cs0 cs kn :
  bucket_find e kn = Some cs0 -> exists k, In (k, cs) (bucket_set e cs kn) /\ feq k e = true.
Proof.
  induction kn as [|[k' cs'] kn IH]; simpl; [done|].
  destruct (feq k' e) eqn:Hk; [intros _; exists k'; by split; [left|]|].
  intros (k & ? & ?)%IH. exists k. by split; [right|].
Qed.

End NB.

Section Laws.
Context {F : Type} `{PyFloatLaws F}.

(** No two keys of [known_embeddings] compare equal. *)
Definition keys_apart (kn : Buckets) : Prop :=
  ForallOrdPairs (fun a b => feq a b = false) (map fst kn).

Lemma bucket_find_unique kn k cs e :
  keys_apart kn -> In (k, cs) kn -> feq k e = true -> bucket_find e kn = Some cs.
Proof.
  unfold keys_apart. induction kn as [|[k0 cs0] kn IH]; simpl; [done|].
  intros Hap Hin Hk. inversion Hap as [|? ? Hhd Htl]; subst.
  destruct Hin as [[= -> ->]|Hin]; [by rewrite Hk|].
  destruct (feq k0 e) eqn:Hk0; [|by apply IH].
  exfalso. rewrite Forall_forall in Hhd.
  specialize (Hhd k ltac:(apply list_elem_of_In, in_map_iff; by exists (k, cs))).
  by rewrite (feq_trans _ _ _ Hk0 (feq_sym _ _ Hk)) in Hhd.
Qed.

Lemma keys_apart_snoc kn e cs :
  keys_apart kn -> (forall k x, In (k, x) kn -> feq k e = false) ->
  keys_apart (kn ++ [(e, cs)]).
Proof.
  unfold keys_apart. induction kn as [|[k x] kn IH]; simpl; intros Hap Hne.
  - repeat constructor.
  - inversion Hap as [|? ? Hhd Htl]; subst. constructor; [|apply IH; eauto].
    rewrite map_app. apply Forall_app. split; [done|]. repeat constructor. eauto.
Qed.

(** The relation between the rows kept so far and the loop state. *)
Definition dedup_inv (K : list (string * Vec)) (st : Concepts * Buckets) : Prop :=
  fst st = rows_to_dict [] K /\ NoDup (map fst K) /\ keys_apart (snd st) /\
  (forall k cs c, In (k, cs) (snd st) -> In c cs -> exists v, In (c, v) K) /\
  (forall c v, In (c, v) K -> exists k cs v0 rest,
     In (k, cs) (snd st) /\ In c cs /\ v = v0 :: rest /\ (k = v0 \/ feq v0 k = true)).

Lemma dedup_inv_init : dedup_inv [] ([], []).
Proof. split_and!; try done; constructor. Qed.

Lemma scan_bucket_spec emb concepts cs :
  (forall c, In c cs -> is_Some (PyDict.get c concepts)) ->
  scan_bucket emb concepts cs =
  Ok (negb (existsb (fun c => match PyDict.get c concepts with
                               | Some v => array_equal emb v | None => false end) cs)).
Proof.
  induction cs as [|c cs IH]; simpl; intros Hs; [done|].
  unfold getitem. destruct (Hs c (or_introl eq_refl)) as [v Hv]. rewrite Hv. simpl.
  destruct (array_equal emb v); [done|]. apply IH. eauto.
Qed.

(** A kept row whose vector equals [v] sits in the bucket of [v]'s first
    element. *)
Lemma kept_in_bucket K st c' v' v0 rest :
  dedup_inv K st -> In (c', v') K -> array_equal (v0 :: rest) v' = true ->
  exists cs, bucket_find v0 (snd st) = Some cs /\ In c' cs.
Proof.
  intros (_ & _ & Hap & _ & Hpl) Hin Heq.
  destruct (Hpl _ _ Hin) as (k & cs & v0' & rest' & Hk & Hc & -> & Hkey).
  exists cs. split; [|done]. apply (bucket_find_unique _ k); [done|done|].
  apply feq_sym. pose proof (array_equal_head _ _ _ _ Heq) as Hhd.
  destruct Hkey as [->|Hkey]; [done|]. by apply (feq_trans _ v0').
Qed.

Lemma dedup_inv_get K st k cs c :
  dedup_inv K st -> In (k, cs) (snd st) -> In c cs ->
  exists v, In (c, v) K /\ PyDict.get c (fst st) = Some v.
Proof.
  intros Hinv Hk Hc. pose proof Hinv as (Hd & Hnd & _ & Hmem & _).
  destruct (Hmem _ _ _ Hk Hc) as [v Hv]. exists v. rewrite Hd. by split; [|apply rows_to_dict_get].
Qed.

(** In a found bucket, scanning its concepts for an equal vector is
    scanning the kept rows. *)
Lemma dedup_scan_found K concepts known v0 rest cs :
  dedup_inv K (concepts, known) -> bucket_find v0 known = Some cs ->
  existsb (fun c => match PyDict.get c concepts with
                    | Some v => array_equal (v0 :: rest) v | None => false end) cs
  = existsb (fun kv => array_equal (v0 :: rest) (snd kv)) K.
Proof.
  intros Hinv Hf. pose proof Hinv as (Hd & Hnd & _). simpl in Hd.
  destruct (bucket_find_Some _ _ _ Hf) as (k0 & Hk0 & _).
  apply Bool.eq_iff_eq_true. rewrite !existsb_exists. split.
  - intros (c' & Hc' & Heqc).
    destruct (dedup_inv_get _ _ _ _ _ Hinv Hk0 Hc') as (v' & Hin & Hg).
    simpl in Hg. rewrite Hg in Heqc. by exists (c', v').
  - intros ([c' v'] & Hin & Heqv). simpl in Heqv.
    destruct (kept_in_bucket _ _ _ _ _ _ Hinv Hin Heqv) as (cs' & Hf' & Hc').
    simpl in Hf'. rewrite Hf in Hf'. injection Hf' as <-.
    exists c'. rewrite Hd, (rows_to_dict_get K c' v') by done. done.
Qed.

(** Without a bucket for [embedding[0]], no kept row has an equal vector. *)
Lemma dedup_scan_none K st v0 rest :
  dedup_inv K st -> bucket_find v0 (snd st) = None ->
  existsb (fun kv => array_equal (v0 :: rest) (snd kv)) K = false.
Proof.
  intros Hinv Hf. apply not_true_iff_false. intros ([c' v'] & Hin & Heqv)%existsb_exists.
  destruct (kept_in_bucket _ _ _ _ _ _ Hinv Hin Heqv) as (cs & Hf' & _). congruence.
Qed.

(** Storing a new row into a found bucket keeps the invariant. *)
Lemma dedup_inv_snoc_found K concepts known c v0 rest cs :
  dedup_inv K (concepts, known) -> NoDup (map fst (K ++ [(c, v0 :: rest)])) ->
  bucket_find v0 known = Some cs ->
  dedup_inv (K ++ [(c, v0 :: rest)])
    (PyDict.setitem c (v0 :: rest) concepts, bucket_set v0 (cs ++ [c]) known).
Proof.
  intros Hinv Hnd' Hf. pose proof Hinv as (Hd & Hnd & Hap & Hmem & Hpl). simpl in *.
  destruct (bucket_find_Some _ _ _ Hf) as (k0 & Hk0 & Hfk0).
  split_and!; cbn -[array_equal].
  - by rewrite rows_to_dict_snoc, Hd.
  - done.
  - unfold keys_apart. by rewrite (bucket_set_keys _ _ _ _ Hf).
  - intros k x c'' Hin Hc''. apply bucket_set_In_inv in Hin as [Hin|[-> _]].
    + destruct (Hmem _ _ _ Hin Hc'') as [v'' ?]. exists v''. apply in_or_app. by left.
    + apply in_app_or in Hc'' as [Hc''|[<-|[]]].
      * destruct (Hmem _ _ _ Hk0 Hc'') as [v'' ?]. exists v''. apply in_or_app. by left.
      * exists (v0 :: rest). apply in_or_app. right. by left.
  - intros c'' v'' Hin. apply in_app_or in Hin as [Hin|[[= <- <-]|[]]].
    + destruct (Hpl _ _ Hin) as (k & x & v0' & rest' & Hk & Hx & -> & Hkey).
      destruct (bucket_set_In_keep v0 cs [c] known k x c'' Hf Hk Hx) as (x' & Hk' & Hx').
      by exists k, x', v0', rest'.
    + destruct (bucket_set_In_found v0 cs (cs ++ [c]) known Hf) as (k & Hk & Hfk).
      exists k, (cs ++ [c]), v0, rest. split_and!; [done| |done|right; by apply feq_sym].
      apply in_or_app. right. by left.
Qed.

(** Storing a row under a new bucket keeps the invariant. *)
Lemma dedup_inv_snoc_new K concepts known c v0 rest :
  dedup_inv K (concepts, known) -> NoDup (map fst (K ++ [(c, v0 :: rest)])) ->
  bucket_find v0 known = None ->
  dedup_inv (K ++ [(c, v0 :: rest)])
    (PyDict.setitem c (v0 :: rest) concepts, bucket_set v0 [c] known).
Proof.
  intros Hinv Hnd' Hf. pose proof Hinv as (Hd & Hnd & Hap & Hmem & Hpl). simpl in *.
  rewrite bucket_set_new by done. split_and!; simpl.
  - by rewrite rows_to_dict_snoc, Hd.
  - done.
  - apply keys_apart_snoc; [done|]. by apply bucket_find_None.
  - intros k x c'' Hin Hc''. apply in_app_or in Hin as [Hin|[[= _ <-]|[]]].
    + destruct (Hmem _ _ _ Hin Hc'') as [v'' ?]. exists v''. apply in_or_app. by left.
    + destruct Hc'' as [<-|[]]. exists (v0 :: rest). apply in_or_app. right. by left.
  - intros c'' v'' Hin. apply in_app_or in Hin as [Hin|[[= <- <-]|[]]].
    + destruct (Hpl _ _ Hin) as (k & x & v0' & rest' & Hk & Hx & -> & Hkey).
      exists k, x, v0', rest'. split_and!; [apply in_or_app; by left|done|done|done].
    + exists v0, [c], v0, rest. split_and!; [apply in_or_app; right; by left|by left|done|by left].
Qed.

(** One row of the loop keeps the invariant, never raises, and keeps or
    drops the row as the reference filter does. *)
Lemma insert_row_dedup_step K st c v :
  dedup_inv K st -> ~ In c (map fst K) -> v <> [] ->
  exists st', insert_row true st (c, v) = Ok st' /\ dedup_inv (dedup_step K (c, v)) st'.
Proof.
  intros Hinv Hc Hv. destruct v as [|v0 rest]; [done|]. destruct st as [concepts known].
  assert (Hnd' : NoDup (map fst (K ++ [(c, v0 :: rest)]))).
  { pose proof Hinv as (_ & Hnd & _). rewrite map_app. apply NoDup_app.
    split_and!; [done| |apply NoDup_singleton].
    intros x Hx ->%list_elem_of_singleton. by apply Hc, list_elem_of_In. }
  unfold insert_row, dedup_step. cbn -[array_equal].
  destruct (bucket_find v0 known) as [cs|] eqn:Hf.
  - rewrite scan_bucket_spec.
    2: { intros c' Hc'. destruct (bucket_find_Some _ _ _ Hf) as (k0 & Hk0 & _).
         destruct (dedup_inv_get _ _ _ _ _ Hinv Hk0 Hc') as (v' & _ & Hg). simpl in Hg. by rewrite Hg. }
    rewrite (dedup_scan_found _ _ _ _ _ _ Hinv Hf).
    destruct (existsb (fun kv => array_equal (v0 :: rest) (snd kv)) K) eqn:Hdup;
      cbn -[array_equal]; [exists (concepts, known); by split|].
    eexists; split; [done|]. by apply dedup_inv_snoc_found.
  - rewrite (dedup_scan_none _ (concepts, known) _ _ Hinv Hf).
    eexists; split; [done|]. by apply dedup_inv_snoc_new.
Qed.

Lemma dedup_step_names K c v x :
  In x (map fst (dedup_step K (c, v))) -> In x (map fst K) \/ x = c.
Proof.
  unfold dedup_step. destruct (existsb (fun kv => array_equal (snd (c, v)) (snd kv)) K); [auto|].
  rewrite map_app. intros [Hx|[<-|[]]]%in_app_or; auto.
Qed.

Lemma dedup_fold rows K st :
  dedup_inv K st -> NoDup (map fst rows) ->
  (forall c, In c (map fst rows) -> ~ In c (map fst K)) ->
  Forall (fun row => snd row <> []) rows ->
  exists st', foldM (insert_row true) st rows = Ok st' /\
              dedup_inv (fold_left dedup_step rows K) st'.
Proof.
  revert K st. induction rows as [|[c v] rows IH]; intros K st Hinv Hnd Hdisj Hne; simpl.
  - by exists st.
  - inversion Hnd as [|? ? Hc Hnd']; subst. inversion Hne as [|? ? Hv Hne']; subst.
    destruct (insert_row_dedup_step K st c v Hinv) as (st1 & -> & Hinv1);
      [apply Hdisj; by left|done|].
    simpl. apply IH; [done|done| |done].
    intros x Hx [Hx2 | ->]%dedup_step_names; [by apply (Hdisj x); [right|]|].
    apply Hc, list_elem_of_In, Hx.
Qed.

End Laws.

Section Load.
Context {F : Type} `{PyFloat F}.

Lemma parse_row_length d line c v :
  parse_row d line = Ok (c, v) -> Z.of_nat (length v) = d.
Proof.
  unfold parse_row. destruct (py_index _ 0); simpl; [|done].
  destruct (parse_vector _) as [v'|]; simpl; [|done].
  unfold py_assert. destruct (Z.eqb_spec d (Z.of_nat (length v'))); simpl; [|done].
  intros [= _ <-]. lia.
Qed.

Lemma load_numberbatch_eq contents d0 :
  load_numberbatch contents false d0 =
  res_bind (parse_table contents) (fun t => Ok (rows_to_dict d0 (snd t))).
Proof.
  unfold load_numberbatch, parse_table.
  destruct (PyStr.readline _) as [header rest].
  destruct (parse_header header) as [[n d]|]; simpl; [|done].
  rewrite (foldM_mapM _ (parse_row d)
            (fun (st : Concepts * Buckets) (row : string * Vec) =>
               (PyDict.setitem (fst row) (snd row) (fst st), snd st)))
    by apply load_row_nodup.
  destruct (mapM _ _) as [rows|]; simpl; [|done].
  f_equal. apply (fold_store_rows _ (d0, [])).
Qed.

(** C9 (equivalence): without [remove_duplicate] the loader stores every
    row in file order (a later row of the same concept overwrites the
    earlier one) and raises exactly what parsing the table raises. *)
Theorem load_numberbatch_keep_all contents d0 :
  load_numberbatch contents false d0 =
  res_bind (parse_table contents) (fun t => Ok (rows_to_dict d0 (snd t))).
Proof. apply load_numberbatch_eq. Qed.

(** Reading [k] rows from the lines of the file is reading them from the
    file object. *)
Lemma readlines_n_str k s : readlines_n k (PyStr.lines_of s) = readlines_str k s.
Proof.
  revert s. induction k as [|k IH]; intros s; [done|]. simpl.
  rewrite PyStr.readline_lines_of. destruct (PyStr.readline_str s) as [l r]. by rewrite IH.
Qed.

(** The exceptions of each step of the loader. *)
Lemma parse_header_raises line e : parse_header line = Raise e -> e = ValueError.
Proof.
  unfold parse_header. intros Hr. raise_inv Hr;
    [apply mapM_Raise_inv in Hr as (t & _ & Ht); revert Ht
    |revert Hr]; by repeat case_match; intros [= <-].
Qed.

Lemma parse_row_raises d line e : parse_row d line = Raise e -> data_error e.
Proof.
  unfold parse_row, parse_vector, py_assert. intros Hr. raise_inv Hr;
    first [apply py_index_Raise in Hr; unfold data_error; by auto
          |apply mapM_Raise_inv in Hr as (t & _ & Ht); revert Ht; case_match;
           intros [= <-]; by left
          |injection Hr as <-; unfold data_error; by auto].
Qed.

Lemma scan_bucket_raises emb cs cs' e : scan_bucket emb cs cs' = Raise e -> e = KeyError.
Proof.
  induction cs' as [|c cs' IH]; simpl; [done|]. unfold getitem.
  destruct (PyDict.get c cs); simpl; [|by intros [= <-]].
  by destruct (array_equal _ _).
Qed.

Lemma insert_row_raises rd st row e : insert_row rd st row = Raise e -> data_error e.
Proof.
  destruct st as [cs kn], row as [c v]. unfold insert_row. intros Hr.
  raise_inv Hr; [apply py_index_Raise in Hr; unfold data_error; by auto|].
  revert Hr. case_match; intros Hr; raise_inv Hr.
  apply scan_bucket_raises in Hr. unfold data_error. auto.
Qed.

Lemma load_numberbatch_raises contents rd d0 e :
  load_numberbatch contents rd d0 = Raise e -> data_error e.
Proof.
  unfold load_numberbatch. destruct (PyStr.readline _) as [header rest]. intros Hr.
  raise_inv Hr; [apply parse_header_raises in Hr; unfold data_error; by auto|].
  destruct a as [n d]. raise_inv Hr.
  apply foldM_Raise_inv in Hr as (st & line & _ & Hr). unfold load_row in Hr.
  raise_inv Hr; [by apply parse_row_raises in Hr|by apply insert_row_raises in Hr].
Qed.

(** A malformed embedding file makes [__load_numberbatch]
    raise one of the four data errors: [ValueError] (a bad header or
    float), [IndexError] (a missing row, an empty vector under
    [remove_duplicate]), [AssertionError] (a row of the wrong dimension)
    or [KeyError]; the specification's single "ParseError" is these four. *)
Theorem load_numberbatch_data_errors contents rd d0 e :
  load_numberbatch contents rd d0 = Raise e -> data_error e.
Proof. apply load_numberbatch_raises. Qed.

(** C32 (error): with [remove_duplicate], a file whose header announces
    at least one row of dimension 0 never loads.  Line 56 forces the first
    row's vector to be empty, and line 60 then reads [embedding[0]] and
    raises [IndexError], unless parsing the row has already raised. *)
Theorem dimension_zero_dedup_raises contents d0 n :
  parse_header (fst (PyStr.readline (PyStr.lines_of contents))) = Ok (n, 0%Z) -> (0 < n)%Z ->
  exists e, load_numberbatch contents true d0 = Raise e.
Proof.
  unfold load_numberbatch. destruct (PyStr.readline _) as [header rest]. simpl.
  intros Hh Hn. rewrite Hh. simpl. destruct (Z.to_nat n) as [|k] eqn:Hk; [lia|].
  simpl. destruct (PyStr.readline rest) as [l r]. cbn [foldM]. unfold load_row.
  destruct (parse_row 0 l) as [[c v]|e] eqn:Hr; simpl; [|eauto].
  apply parse_row_length in Hr. destruct v; simpl in *; [eauto|lia].
Qed.

End Load.

Section LawsLoad.
Context {F : Type} `{PyFloatLaws F}.

(** C2 (equivalence): with [remove_duplicate], distinct concept names and a
    positive dimension, the bucketed filter (first element as the key, full
    [np.array_equal] inside a bucket) keeps exactly the rows the reference
    filter keeps: a row is kept iff no earlier kept row has an equal
    vector; and the loader never raises. *)
Theorem load_numberbatch_dedup contents d rows :
  parse_table contents = Ok (d, rows) -> (0 < d)%Z -> NoDup (map fst rows) ->
  load_numberbatch contents true [] = Ok (rows_to_dict [] (dedup_ref rows)).
Proof.
  unfold load_numberbatch, parse_table.
  destruct (PyStr.readline _) as [header rest].
  destruct (parse_header header) as [[n d']|]; simpl; [|done].
  destruct (mapM _ _) as [rows'|] eqn:Hm; simpl; [|done].
  intros [= <- <-] Hd Hnd.

  unfold load_row. rewrite (foldM_parsed _ (insert_row true) _ _ _ Hm).
  destruct (dedup_fold rows' [] ([], []) dedup_inv_init Hnd) as (st & Hfold & (Hst & _)).
  - intros c _ [].
  - apply Forall_forall. intros [c v] Hin%list_elem_of_In.
    destruct (mapM_In _ _ _ _ Hm Hin) as (line & _ & Hp).
    apply parse_row_length in Hp. simpl. intros ->. simpl in Hp. lia.
  - match goal with |- context [foldM ?f ?s rows'] =>
      replace (foldM f s rows') with (Ok st : res (Concepts * Buckets)) by (symmetry; exact Hfold)
    end.
    simpl. by rewrite Hst.
Qed.

End LawsLoad.
End Numberbatch.
