(* ===== verification/Graph.v ===== *)
(** * Graph: the ConceptNet relation index ([__load_conceptnet])

    State: the two adjacency dicts [self.outbonds] and [self.inbonds], each
    [concept -> other concept -> relation -> weight] (the code nests the
    other endpoint before the relation).  [__load_conceptnet] only reads
    [self.concepts] (for [remove_dangling]), so the loader takes the
    concept table as an argument and threads [Bonds] alone.

    Operations, translated line by line: [add_bond] is the body shared by
    [__add_outbond] and [__add_inbond] (lines 79-97), [load_line] one turn of
    the [while line:] loop (lines 105-113), [load_conceptnet] the loop as a
    fold over the lines of the file and [load_conceptnet_loop] the same loop
    read with [readline] and fuel ([load_conceptnet_terminates]: it stops
    with [load_conceptnet]'s result).

    Specification: [parse_line] says which lines are accepted and which
    fact [(rel, src, dst, w)] each contributes, [accepted_facts] collects
    them (or the first exception), [out_entries]/[in_entries] say which keys
    each fact feeds, and [max_weight] is the promised stored weight.  The
    theorems: the streaming loader is "parse everything, then build"
    ([load_conceptnet_parse_then_build]); the dicts hold exactly
    [max_weight] ([load_conceptnet_refines]); the loader raises exactly
    when a line does ([load_conceptnet_Raise]), and only with [ValueError],
    [IndexError] or [KeyError] ([load_conceptnet_raises]); one call of [add_bond]
    ([add_bond_updates], [add_bond_errors]);
    invariants (well-formed nested dicts, no symmetric relation in
    [inbonds], no dangling endpoint) and bounds on the stored weights. *)

From S2P Require Import Prelude PyStr PyDict PyFloat.
Open Scope string_scope.

Module Graph.

(** [self.valid_assertions] (lines 12-19): 38 labels. *)
Definition valid_assertions : list string :=
  ["RelatedTo"; "FormOf"; "PartOf"; "HasA"; "UsedFor"; "CapableOf"; "AtLocation";
   "Causes"; "HasSubevent"; "HasFirstSubevent"; "HasLastSubevent"; "HasPrerequisite";
   "HasProperty"; "MotivatedByGoal"; "ObstructedBy"; "Desires"; "CreatedBy"; "Synonym";
   "Antonym"; "DistinctFrom"; "DerivedFrom"; "SymbolOf"; "DefinedAs"; "MannerOf";
   "LocatedNear"; "HasContext"; "SimilarTo"; "EtymologicallyRelatedTo";
   "EtymologicallyDerivedFrom"; "CausesDesire"; "MadeOf"; "ReceivesAction";
   "ExternalURL"; "NotIsA"; "NotDesires"; "NotUsedFor"; "NotCapableOf"; "NotHasProperty"].

(** [self.symmetric_assertions] (lines 20-22). *)
Definition symmetric_assertions : list string :=
  ["RelatedTo"; "Synonym"; "Antonym"; "DistinctFrom"; "LocatedNear"; "SimilarTo";
   "EtymologicallyRelatedTo"].

(** [x in s] for a set literal of strings. *)
Definition mem (x : string) (s : list string) : bool := existsb (String.eqb x) s.
Arguments mem : simpl never.

(** The tab character of [line.split('\t')]. *)
Definition TAB : ascii := "009".

Section Graph.
Context {F : Type} `{PyFloat F}.

(** [concept -> other -> relation -> weight] *)
Definition Adj : Type := PyDict.t string (PyDict.t string (PyDict.t string F)).

(** The part of [self] that [__load_conceptnet] writes. *)
Record Bonds := mkBonds {
  inbonds : Adj;
  outbonds : Adj
}.

(** [float(elem[3])] *)
Definition parse_weight (s : string) : res F :=
  match py_float s with Some w => Ok w | None => Raise ValueError end.
Arguments parse_weight : simpl never.

(** The body of [__add_outbond] / [__add_inbond] on the dict [d]. *)
Definition add_bond (d : Adj) (elem : list string) : res Adj :=
  a <- py_index elem 1 ;;
  let d := PyDict.ensure a PyDict.empty d in
  b <- py_index elem 2 ;;
  let mid := PyDict.ensure b PyDict.empty (PyDict.get_or a PyDict.empty d) in
  r <- py_index elem 0 ;;
  let inner := PyDict.ensure r fzero (PyDict.get_or b PyDict.empty mid) in
  ws <- py_index elem 3 ;;
  w <- parse_weight ws ;;
  let inner := PyDict.setitem r (py_max (PyDict.get_or r fzero inner) w) inner in
  let mid := PyDict.setitem b inner mid in
  Ok (PyDict.setitem a mid d).

Definition add_outbond (st : Bonds) (elem : list string) : res Bonds :=
  o <- add_bond (outbonds st) elem ;; Ok (mkBonds (inbonds st) o).

Definition add_inbond (st : Bonds) (elem : list string) : res Bonds :=
  i <- add_bond (inbonds st) elem ;; Ok (mkBonds i (outbonds st)).

(** [[elem[0], elem[2], elem[1], elem[3]]] *)
Definition reverse_elem (elem : list string) : res (list string) :=
  r <- py_index elem 0 ;; b <- py_index elem 2 ;; a <- py_index elem 1 ;;
  ws <- py_index elem 3 ;; Ok [r; b; a; ws].

Section Load.
Context {E : Type}.
Variable concepts : PyDict.t string E.
Variable remove_dangling : bool.

(** The guard of line 108, with Python's short-circuit order. *)
Definition accept_line (elem : list string) : res bool :=
  r <- py_index elem 0 ;;
  if mem r valid_assertions then
    if negb remove_dangling then Ok true
    else a <- py_index elem 1 ;;
         if PyDict.contains a concepts then
           b <- py_index elem 2 ;; Ok (PyDict.contains b concepts)
         else Ok false
  else Ok false.

(** One turn of the [while line:] loop (lines 105-113). *)
Definition load_line (st : Bonds) (line : string) : res Bonds :=
  let elem := PyStr.split_sep TAB line in
  acc <- accept_line elem ;;
  if acc then
    st <- add_outbond st elem ;;
    r <- py_index elem 0 ;;
    rev <- reverse_elem elem ;;
    if mem r symmetric_assertions then add_outbond st rev
    else add_inbond st rev
  else Ok st.

(** [__load_conceptnet]: the loop over the lines of the file. *)
Definition load_conceptnet (st : Bonds) (contents : string) : res Bonds :=
  foldM load_line st (PyStr.lines_of contents).

(** [__load_conceptnet] as written: [line = f_in.readline()] and the
    [while line:] loop (lines 103-116), run for at most [fuel] turns. *)
Definition load_conceptnet_loop (fuel : nat) (st : Bonds) (contents : string)
    : option (res Bonds) :=
  PyStr.while_lines fuel load_line st contents.

End Load.

(** ** The abstract specification *)

(** An accepted line: [(rel, src, dst, w)]. *)
Definition fact : Type := string * string * string * F.

(** An entry [d[a][b][r]] fed with weight [w]: [(a, b, r, w)]. *)
Definition entry : Type := string * string * string * F.

(** The entries a fact feeds in [outbonds] and in [inbonds]. *)
Definition out_entries (f : fact) : list entry :=
  let '(r, a, b, w) := f in
  if mem r symmetric_assertions then [(a, b, r, w); (b, a, r, w)] else [(a, b, r, w)].

Definition in_entries (f : fact) : list entry :=
  let '(r, a, b, w) := f in
  if mem r symmetric_assertions then [] else [(b, a, r, w)].

(** [d[a][b][r]] if present. *)
Definition lookup3 (d : Adj) (a b r : string) : option F :=
  match PyDict.get a d with
  | Some mid => match PyDict.get b mid with
                | Some inner => PyDict.get r inner
                | None => None
                end
  | None => None
  end.

(** The weights fed to key [(a, b, r)], in input order. *)
Definition weights_of (es : list entry) (a b r : string) : list F :=
  omap (fun e : entry => let '(a', b', r', w) := e in
                         if decide ((a', b', r') = (a, b, r)) then Some w else None) es.

(** The promised content of [d[a][b][r]]: absent when no input feeds the
    key, otherwise [max] over its weights starting from [0.0]. *)
Definition max_weight (es : list entry) (a b r : string) : option F :=
  match weights_of es a b r with
  | [] => None
  | ws => Some (fold_left py_max ws fzero)
  end.

(** [add_bond] once its fields are parsed. *)
Definition insert_entry (d : Adj) (e : entry) : Adj :=
  let '(a, b, r, w) := e in
  let mid := PyDict.get_or a PyDict.empty d in
  let inner := PyDict.get_or b PyDict.empty mid in
  PyDict.setitem a (PyDict.setitem b (PyDict.setitem r (py_max (PyDict.get_or r fzero inner) w) inner) mid) d.

(** The effect of an accepted fact on both dicts. *)
Definition insert_fact (st : Bonds) (f : fact) : Bonds :=
  mkBonds (fold_left insert_entry (in_entries f) (inbonds st))
          (fold_left insert_entry (out_entries f) (outbonds st)).

Definition build (st : Bonds) (fs : list fact) : Bonds := fold_left insert_fact fs st.

Definition empty_bonds : Bonds := mkBonds PyDict.empty PyDict.empty.

(** Every level of a nested dict is well formed. *)
Definition adj_wf (d : Adj) : Prop :=
  PyDict.wf d /\ Forall (fun am => PyDict.wf am.2 /\ Forall (fun bi => PyDict.wf bi.2) am.2) d.

#[global] Instance adj_wf_dec d : Decision (adj_wf d).
Proof. unfold adj_wf, PyDict.wf. apply _. Defined.

Section Spec.
Context {E : Type}.
Variable concepts : PyDict.t string E.
Variable remove_dangling : bool.

(** Which fact a line contributes, if accepted; the exception it raises. *)
Definition parse_line (line : string) : res (option fact) :=
  let elem := PyStr.split_sep TAB line in
  acc <- accept_line concepts remove_dangling elem ;;
  if acc then
    a <- py_index elem 1 ;; b <- py_index elem 2 ;; r <- py_index elem 0 ;;
    ws <- py_index elem 3 ;; w <- parse_weight ws ;; Ok (Some (r, a, b, w))
  else Ok None.

Definition accepted_facts (contents : string) : res (list fact) :=
  ofs <- mapM parse_line (PyStr.lines_of contents) ;; Ok (omap id ofs).

End Spec.

(** ** Lemmas on one insertion *)

Lemma add_bond_spec d elem :
  add_bond d elem =
  (a <- py_index elem 1 ;; b <- py_index elem 2 ;; r <- py_index elem 0 ;;
   ws <- py_index elem 3 ;; w <- parse_weight ws ;; Ok (insert_entry d (a, b, r, w))).
Proof.
  unfold add_bond. res_case; try done.
  unfold insert_entry. by autorewrite with pyres.
Qed.

Lemma lookup3_default d a b r :
  PyDict.get_or r fzero (PyDict.get_or b PyDict.empty (PyDict.get_or a PyDict.empty d)) =
  default fzero (lookup3 d a b r).
Proof.
  unfold lookup3, PyDict.get_or.
  destruct (PyDict.get a d) as [mid|]; [|done]. by destruct (PyDict.get b mid).
Qed.

Lemma lookup3_insert_entry d a b r w a' b' r' :
  lookup3 (insert_entry d (a, b, r, w)) a' b' r' =
  if decide ((a, b, r) = (a', b', r')) then Some (py_max (default fzero (lookup3 d a b r)) w)
  else lookup3 d a' b' r'.
Proof.
  rewrite <- lookup3_default. unfold insert_entry, lookup3 at 1.
  rewrite !PyDict.get_setitem.
  destruct (decide (a' = a)) as [->|Ha]; [rewrite PyDict.get_setitem|].
  - destruct (decide (b' = b)) as [->|Hb]; [rewrite PyDict.get_setitem|].
    + destruct (decide (r' = r)) as [->|Hr]; [by rewrite !decide_True|].
      rewrite decide_False by congruence. unfold lookup3, PyDict.get_or.
      destruct (PyDict.get a d) as [mid|]; [|done]. by destruct (PyDict.get b mid).
    + rewrite decide_False by congruence. unfold lookup3, PyDict.get_or.
      destruct (PyDict.get a d) as [mid|]; [done|]. by rewrite PyDict.get_empty.
  - rewrite decide_False by congruence. done.
Qed.

(** C14 (functional): [__add_outbond(elem)] on [[r, a, b, ws, ...]] with a
    numeric [ws] sets [d[a][b][r]] to [max(old value or 0.0, float(ws))] and
    changes no other key. *)
Theorem add_bond_updates d r a b ws rest d' :
  add_bond d (r :: a :: b :: ws :: rest) = Ok d' ->
  exists w, py_float ws = Some w /\
    forall a' b' r', lookup3 d' a' b' r' =
      if decide ((a, b, r) = (a', b', r')) then Some (py_max (default fzero (lookup3 d a b r)) w)
      else lookup3 d a' b' r'.
Proof.
  rewrite add_bond_spec. simpl. unfold parse_weight.
  destruct (py_float ws) as [w|]; simpl; [intros [= <-]|done].
  exists w. split; [done|]. intros. apply lookup3_insert_entry.
Qed.

(** C15 (errors): [__add_outbond(elem)] raises [IndexError] when [elem] has
    fewer than four fields and [ValueError] when the fourth is not a float;
    nothing else. *)
Theorem add_bond_errors d elem e :
  add_bond d elem = Raise e <->
  (length elem < 4 /\ e = IndexError) \/
  (exists ws, elem !! 3 = Some ws /\ py_float ws = None /\ e = ValueError).
Proof.
  rewrite add_bond_spec. unfold parse_weight.
  destruct elem as [|x0 [|x1 [|x2 [|x3 rest]]]]; simpl;
    try (split; [intros [= <-]; left; split; [lia|done]|
                 intros [[_ ->]|(? & [=] & _)]; done]).
  destruct (py_float x3) eqn:Ex; simpl; split.
  - done.
  - intros [[? _]|(ws & [= <-] & ? & _)]; [lia|congruence].
  - intros [= <-]. right. by exists x3.
  - intros [[? _]|(ws & [= <-] & _ & ->)]; [lia|done].
Qed.

Lemma weights_of_cons a' b' r' w es a b r :
  weights_of ((a', b', r', w) :: es) a b r =
  if decide ((a', b', r') = (a, b, r)) then w :: weights_of es a b r else weights_of es a b r.
Proof. unfold weights_of. simpl. by case_decide. Qed.

(** Inserting entries in order keeps, per key, the running [max]. *)
Lemma lookup3_fold_insert es d a b r :
  lookup3 (fold_left insert_entry es d) a b r =
  match weights_of es a b r with
  | [] => lookup3 d a b r
  | ws => Some (fold_left py_max ws (default fzero (lookup3 d a b r)))
  end.
Proof.
  revert d. induction es as [|[[[a' b'] r'] w] es IH]; intros d; cbn [fold_left]; [done|].
  rewrite IH, lookup3_insert_entry, weights_of_cons.
  case_decide as Hk; [|done]. simplify_eq.
  by destruct (weights_of es a b r).
Qed.

Lemma weights_of_app es1 es2 a b r :
  weights_of (es1 ++ es2)%list a b r = (weights_of es1 a b r ++ weights_of es2 a b r)%list.
Proof. unfold weights_of. by rewrite omap_app. Qed.

Lemma outbonds_build st fs :
  outbonds (build st fs) = fold_left insert_entry (flat_map out_entries fs) (outbonds st).
Proof.
  revert st. induction fs as [|f fs IH]; intros st; simpl; [done|].
  unfold build in *. rewrite IH. by rewrite fold_left_app.
Qed.

Lemma inbonds_build st fs :
  inbonds (build st fs) = fold_left insert_entry (flat_map in_entries fs) (inbonds st).
Proof.
  revert st. induction fs as [|f fs IH]; intros st; simpl; [done|].
  unfold build in *. rewrite IH. by rewrite fold_left_app.
Qed.

Lemma weights_of_In es a b r w : In w (weights_of es a b r) <-> In (a, b, r, w) es.
Proof.
  induction es as [|[[[a' b'] r'] w'] es IH]; [done|].
  rewrite weights_of_cons. case_decide; simpl; rewrite IH; naive_solver.
Qed.

Lemma max_weight_Some es a b r w :
  max_weight es a b r = Some w ->
  w = fold_left py_max (weights_of es a b r) fzero /\ exists w', In (a, b, r, w') es.
Proof.
  unfold max_weight. destruct (weights_of es a b r) as [|w0 ws] eqn:Hw; [done|].
  intros [= <-]. split; [done|]. exists w0. apply weights_of_In. rewrite Hw. by left.
Qed.

Lemma lookup3_empty a b r : lookup3 PyDict.empty a b r = None.
Proof. done. Qed.

(** From empty dicts, the stored weights are [max_weight]. *)
Lemma lookup3_build_empty es a b r :
  lookup3 (fold_left insert_entry es PyDict.empty) a b r = max_weight es a b r.
Proof. rewrite lookup3_fold_insert. unfold max_weight. by destruct (weights_of es a b r). Qed.

Lemma wf_get_or {V} (k : string) (d : PyDict.t string (PyDict.t string V)) :
  (forall x, PyDict.get k d = Some x -> PyDict.wf x) -> PyDict.wf (PyDict.get_or k PyDict.empty d).
Proof. intros Hx. unfold PyDict.get_or. destruct (PyDict.get k d) eqn:E; [eauto|apply PyDict.wf_empty]. Qed.

Lemma Forall_items {V} (P : string * V -> Prop) (d : PyDict.t string V) :
  PyDict.wf d -> Forall P d <-> forall k v, PyDict.get k d = Some v -> P (k, v).
Proof.
  intros Hwf. rewrite Forall_forall. split.
  - intros HP k v Hg. apply HP, list_elem_of_In. by apply PyDict.In_items.
  - intros HP [k v] Hin%list_elem_of_In. apply HP. by apply PyDict.In_items.
Qed.

(** The lookup form of [adj_wf]. *)
Lemma adj_wf_iff d :
  adj_wf d <-> PyDict.wf d /\ forall a mid, PyDict.get a d = Some mid ->
    PyDict.wf mid /\ forall b inner, PyDict.get b mid = Some inner -> PyDict.wf inner.
Proof.
  unfold adj_wf. split; intros [Hd Hall]; split; try done.
  - intros a mid Hg. rewrite Forall_items in Hall by done.
    destruct (Hall a mid Hg) as [Hm Hin]. split; [done|].
    rewrite Forall_items in Hin by done. intros b inner. apply Hin.
  - apply Forall_items; [done|]. intros a mid Hg. destruct (Hall a mid Hg) as [Hm Hin].
    split; [done|]. apply Forall_items; [done|]. intros b inner. apply Hin.
Qed.

Lemma adj_wf_insert_entry d e : adj_wf d -> adj_wf (insert_entry d e).
Proof.
  destruct e as [[[a b] r] w]. rewrite !adj_wf_iff. intros [Hd Hmid]. unfold insert_entry.
  split; [by apply PyDict.wf_setitem|].
  intros a' mid'. rewrite PyDict.get_setitem. case_decide as Ha.
  - intros [= <-].
    assert (Hm : PyDict.wf (PyDict.get_or a PyDict.empty d)).
    { apply wf_get_or. intros x Hx. apply (proj1 (Hmid a x Hx)). }
    split; [by apply PyDict.wf_setitem|].
    intros b' inner'. rewrite PyDict.get_setitem. case_decide as Hb.
    + intros [= <-]. apply PyDict.wf_setitem, wf_get_or.
      intros x Hx. unfold PyDict.get_or in Hx. destruct (PyDict.get a d) as [m|] eqn:E; [|done].
      apply (proj2 (Hmid a m E) b x Hx).
    + intros Hx. unfold PyDict.get_or in Hx. destruct (PyDict.get a d) as [m|] eqn:E; [|done].
      apply (proj2 (Hmid a m E) b' inner' Hx).
  - by apply Hmid.
Qed.

Lemma adj_wf_fold es d : adj_wf d -> adj_wf (fold_left insert_entry es d).
Proof. revert d. induction es; simpl; auto using adj_wf_insert_entry. Qed.

Lemma adj_wf_empty : adj_wf PyDict.empty.
Proof. split; [apply PyDict.wf_empty|constructor]. Qed.

Section LoadSpec.
Context {E : Type}.
Variable concepts : PyDict.t string E.
Variable remove_dangling : bool.

(** One line of the loop is "parse it, then insert its fact". *)
Lemma load_line_spec st line :
  load_line concepts remove_dangling st line =
  res_bind (parse_line concepts remove_dangling line)
           (fun o => Ok (match o with Some f => insert_fact st f | None => st end)).
Proof.
  unfold load_line, parse_line.
  destruct (accept_line _ _ _) as [[]|]; simpl; [|done|done].
  unfold add_outbond, add_inbond, reverse_elem.
  rewrite add_bond_spec.
  destruct (py_index _ 1) as [a|]; simpl; [|done].
  destruct (py_index _ 2) as [b|]; simpl; [|done].
  destruct (py_index _ 0) as [r|]; simpl; [|done].
  destruct (py_index _ 3) as [ws|]; simpl; [|done].
  destruct (parse_weight ws) as [w|] eqn:Ew; simpl; [|done].
  unfold insert_fact, out_entries, in_entries.
  destruct (mem r symmetric_assertions); rewrite add_bond_spec; simpl; by rewrite Ew.
Qed.

Lemma load_conceptnet_eq st contents :
  load_conceptnet concepts remove_dangling st contents =
  res_bind (accepted_facts concepts remove_dangling contents) (fun fs => Ok (build st fs)).
Proof.
  unfold load_conceptnet, accepted_facts.
  rewrite (foldM_mapM _ (parse_line concepts remove_dangling)
             (fun st o => match o with Some f => insert_fact st f | None => st end))
    by apply load_line_spec.
  destruct (mapM _ _); simpl; [by rewrite fold_left_omap|done].
Qed.

(** C4: the streaming loader equals "parse every line (stopping at the
    first exception), then build the dicts from the accepted facts". *)
Theorem load_conceptnet_parse_then_build st contents :
  load_conceptnet concepts remove_dangling st contents =
  res_bind (accepted_facts concepts remove_dangling contents) (fun fs => Ok (build st fs)).
Proof. apply load_conceptnet_eq. Qed.

Lemma load_conceptnet_Ok st contents st' :
  load_conceptnet concepts remove_dangling st contents = Ok st' ->
  exists fs, accepted_facts concepts remove_dangling contents = Ok fs /\ st' = build st fs.
Proof.
  rewrite load_conceptnet_eq.
  destruct (accepted_facts _ _ _) as [fs|]; simpl; [intros [= <-]; eauto|done].
Qed.

(** A line's fact, when accepted with [remove_dangling], has both
    endpoints in the concept table. *)
Lemma parse_line_dangling line f :
  remove_dangling = true -> parse_line concepts remove_dangling line = Ok (Some f) ->
  let '(_, a, b, _) := f in
  PyDict.contains a concepts = true /\ PyDict.contains b concepts = true.
Proof.
  intros ->. unfold parse_line, accept_line. simpl.
  destruct (py_index _ 0) as [r|]; simpl; [|done].
  destruct (mem r valid_assertions); simpl; [|done].
  destruct (py_index _ 1) as [a|] eqn:Ea; simpl; [|done].
  destruct (PyDict.contains a concepts) eqn:Ha; simpl; [|done].
  destruct (py_index _ 2) as [b|] eqn:Eb; simpl; [|done].
  destruct (PyDict.contains b concepts) eqn:Hb; simpl; [|done].
  simpl.
  destruct (py_index _ 3); simpl; [|done].
  destruct (parse_weight _); simpl; [|done].
  intros [= <-]. done.
Qed.

Lemma accepted_facts_In contents fs f :
  accepted_facts concepts remove_dangling contents = Ok fs -> In f fs ->
  exists line, In line (PyStr.lines_of contents) /\
               parse_line concepts remove_dangling line = Ok (Some f).
Proof.
  unfold accepted_facts. destruct (mapM _ _) as [ofs|] eqn:Hm; simpl; [|done].
  intros [= <-] Hin.
  apply list_elem_of_In, list_elem_of_omap in Hin as (o & Ho & Hf). simpl in Hf; subst o.
  apply list_elem_of_In in Ho. by apply (mapM_In _ _ _ _ Hm).
Qed.

(** On a successful load, the three-level lookups are the maxima of the
    accepted facts' weights. *)
Lemma loaded_lookup3 contents fs st :
  accepted_facts concepts remove_dangling contents = Ok fs ->
  load_conceptnet concepts remove_dangling empty_bonds contents = Ok st ->
  (forall a b r, lookup3 (outbonds st) a b r = max_weight (flat_map out_entries fs) a b r) /\
  (forall a b r, lookup3 (inbonds st) a b r = max_weight (flat_map in_entries fs) a b r).
Proof.
  intros Hfs (fs' & Hfs' & ->)%load_conceptnet_Ok. rewrite Hfs in Hfs'. injection Hfs' as <-.
  split; intros a b r; [rewrite outbonds_build|rewrite inbonds_build];
    apply lookup3_build_empty.
Qed.

(** C1 (refinement): whenever every line parses, the loader succeeds, and
    [outbonds[a][b][r]] / [inbonds[a][b][r]] hold exactly the maximum,
    from [0.0], of the weights of the accepted facts that feed that key
    (absent when none does). *)
Theorem load_conceptnet_refines contents fs :
  accepted_facts concepts remove_dangling contents = Ok fs ->
  exists st, load_conceptnet concepts remove_dangling empty_bonds contents = Ok st /\
    (forall a b r, lookup3 (outbonds st) a b r = max_weight (flat_map out_entries fs) a b r) /\
    (forall a b r, lookup3 (inbonds st) a b r = max_weight (flat_map in_entries fs) a b r).
Proof.
  intros Hfs. exists (build empty_bonds fs).
  assert (Hl : load_conceptnet concepts remove_dangling empty_bonds contents =
               Ok (build empty_bonds fs)) by (by rewrite load_conceptnet_eq, Hfs).
  split; [done|]. exact (loaded_lookup3 _ _ _ Hfs Hl).
Qed.

(** The loader raises exactly when some line raises, and then
    the exception of the first such line: no partial index is returned. *)
Theorem load_conceptnet_Raise st contents e :
  load_conceptnet concepts remove_dangling st contents = Raise e <->
  accepted_facts concepts remove_dangling contents = Raise e.
Proof.
  rewrite load_conceptnet_eq.
  destruct (accepted_facts _ _ _); simpl; split; congruence.
Qed.

Lemma lookup3_loaded_out contents st a b r w :
  load_conceptnet concepts remove_dangling empty_bonds contents = Ok st ->
  lookup3 (outbonds st) a b r = Some w ->
  exists fs, accepted_facts concepts remove_dangling contents = Ok fs /\
    max_weight (flat_map out_entries fs) a b r = Some w.
Proof.
  intros (fs & Hfs & ->)%load_conceptnet_Ok.
  rewrite outbonds_build, lookup3_build_empty. eauto.
Qed.

Lemma lookup3_loaded_in contents st a b r w :
  load_conceptnet concepts remove_dangling empty_bonds contents = Ok st ->
  lookup3 (inbonds st) a b r = Some w ->
  exists fs, accepted_facts concepts remove_dangling contents = Ok fs /\
    max_weight (flat_map in_entries fs) a b r = Some w.
Proof.
  intros (fs & Hfs & ->)%load_conceptnet_Ok.
  rewrite inbonds_build, lookup3_build_empty. eauto.
Qed.

(** C5 (invariant): a symmetric relation never has an entry in [inbonds]. *)
Theorem inbonds_not_symmetric contents st a b r w :
  load_conceptnet concepts remove_dangling empty_bonds contents = Ok st ->
  lookup3 (inbonds st) a b r = Some w -> mem r symmetric_assertions = false.
Proof.
  intros Hl Hw. destruct (lookup3_loaded_in _ _ _ _ _ _ Hl Hw) as (fs & _ & Hmax).
  apply max_weight_Some in Hmax as [_ [w' Hin]].
  apply in_flat_map in Hin as ([[[r0 a0] b0] w0] & _ & Hin).
  unfold in_entries in Hin. destruct (mem r0 _) eqn:Hs; simpl in Hin; [done|].
  destruct Hin as [[= -> -> -> ->]|[]]. done.
Qed.

Lemma loaded_endpoints contents st a b r w :
  remove_dangling = true ->
  load_conceptnet concepts remove_dangling empty_bonds contents = Ok st ->
  lookup3 (outbonds st) a b r = Some w \/ lookup3 (inbonds st) a b r = Some w ->
  PyDict.contains a concepts = true /\ PyDict.contains b concepts = true.
Proof.
  intros Hrd Hl [Hw|Hw];
    [destruct (lookup3_loaded_out _ _ _ _ _ _ Hl Hw) as (fs & Hfs & Hmax)
    |destruct (lookup3_loaded_in _ _ _ _ _ _ Hl Hw) as (fs & Hfs & Hmax)];
    apply max_weight_Some in Hmax as [_ [w' Hin]];
    apply in_flat_map in Hin as ([[[r0 a0] b0] w0] & Hf & Hin);
    destruct (accepted_facts_In _ _ _ Hfs Hf) as (line & _ & Hp);
    pose proof (parse_line_dangling _ _ Hrd Hp) as [Ha0 Hb0];
    [unfold out_entries in Hin|unfold in_entries in Hin];
    destruct (mem r0 _); simpl in Hin; naive_solver.
Qed.

(** C6 (safety): with [remove_dangling], every endpoint of every stored
    edge, in either dict, has an embedding. *)
Theorem no_dangling_edges contents st a b r w :
  remove_dangling = true ->
  load_conceptnet concepts remove_dangling empty_bonds contents = Ok st ->
  lookup3 (outbonds st) a b r = Some w \/ lookup3 (inbonds st) a b r = Some w ->
  PyDict.contains a concepts = true /\ PyDict.contains b concepts = true.
Proof. apply loaded_endpoints. Qed.

(** C17 (code bug): [IsA] is not in [valid_assertions], so every [IsA]
    line of ConceptNet is skipped, whatever the rest of the line. *)
Theorem isa_line_skipped st rest :
  load_line concepts remove_dangling st ("IsA" ++ String TAB rest) = Ok st.
Proof.
  unfold load_line, accept_line.
  rewrite PyStr.split_sep_app by reflexivity. rewrite PyStr.split_sep_sep. simpl.
  by replace (mem "IsA" valid_assertions) with false by reflexivity.
Qed.

Lemma loaded_wf contents st :
  load_conceptnet concepts remove_dangling empty_bonds contents = Ok st ->
  adj_wf (outbonds st) /\ adj_wf (inbonds st).
Proof.
  intros (fs & _ & ->)%load_conceptnet_Ok.
  rewrite outbonds_build, inbonds_build. split; apply adj_wf_fold, adj_wf_empty.
Qed.

(** The dicts the loader builds never hold a key
    twice, at any of the three levels. *)
Theorem load_conceptnet_wf contents st :
  load_conceptnet concepts remove_dangling empty_bonds contents = Ok st ->
  adj_wf (outbonds st) /\ adj_wf (inbonds st).
Proof. apply loaded_wf. Qed.

(** A line of exactly four fields raises nothing but the [ValueError] of
    [float(elem[3])]. *)
Lemma load_line_four_fields st line r a b ws e :
  PyStr.split_sep TAB line = [r; a; b; ws] ->
  load_line concepts remove_dangling st line = Raise e -> e = ValueError.
Proof.
  intros Hs. unfold load_line, accept_line, add_outbond, add_inbond, reverse_elem.
  rewrite Hs. simpl.
  assert (He : parse_weight ws = Raise e -> e = ValueError)
    by (unfold parse_weight; case_match; congruence).
  destruct (mem r valid_assertions); simpl; [|done].
  destruct remove_dangling; simpl;
    [destruct (PyDict.contains a concepts); simpl; [|done];
     destruct (PyDict.contains b concepts); simpl; [|done]|];
    (rewrite add_bond_spec; simpl; destruct (parse_weight ws) as [w|e'] eqn:Ew; simpl;
     [destruct (mem r symmetric_assertions); rewrite add_bond_spec; simpl; by rewrite Ew
     |intros [= ->]; auto]).
Qed.

Lemma add_bond_raises d elem e : add_bond d elem = Raise e -> data_error e.
Proof.
  rewrite add_bond_spec. unfold parse_weight. intros Hr. raise_inv Hr;
    try (apply py_index_Raise in Hr; unfold data_error; by auto).
  revert Hr. case_match; intros [= <-]. by left.
Qed.

(** A line raises only the [IndexError] of a short line or the
    [ValueError] of a bad weight. *)
Lemma load_line_raises st line e :
  load_line concepts remove_dangling st line = Raise e -> data_error e.
Proof.
  unfold load_line, accept_line, add_outbond, add_inbond, reverse_elem. intros Hr.
  raise_inv Hr;
    first [apply py_index_Raise in Hr; unfold data_error; by auto
          |by apply add_bond_raises in Hr].
Qed.

Lemma load_conceptnet_raises st contents e :
  load_conceptnet concepts remove_dangling st contents = Raise e -> data_error e.
Proof.
  intros (st' & line & _ & Hr)%foldM_Raise_inv. by apply load_line_raises in Hr.
Qed.

(** The [while line:] loop of [__load_conceptnet]
    stops within one turn per character of the file plus one, and then
    returns what the line-by-line fold [load_conceptnet] returns. *)
Theorem load_conceptnet_terminates fuel st contents :
  String.length contents < fuel ->
  load_conceptnet_loop concepts remove_dangling fuel st contents =
  Some (load_conceptnet concepts remove_dangling st contents).
Proof. apply PyStr.while_lines_enough. Qed.

End LoadSpec.

(** The loader never clamps a stored weight below an input, nor below [0.0]
    (IEEE comparison laws suffice). *)
Section Bounds.
Context `{!PyFloatLaws F}.
Context {E : Type}.
Variable concepts : PyDict.t string E.
Variable remove_dangling : bool.

(** What the code promises of a weight [w] stored at [d[a][b][r]] when the
    entries [es] were fed to [d]: it is [0.0] or one of the weights fed to
    its key, and neither [0.0] nor any weight fed to its key exceeds it. *)
Definition weight_bounded (es : list entry) (a b r : string) (w : F) : Prop :=
  (w = fzero \/ In (a, b, r, w) es) /\
  fgt fzero w = false /\
  (forall w', In (a, b, r, w') es -> fgt w' w = false).

Lemma max_weight_bounded es a b r w :
  max_weight es a b r = Some w -> weight_bounded es a b r w.
Proof.
  intros Hw. apply max_weight_Some in Hw as [-> _].
  destruct (fold_py_max_upper (weights_of es a b r) fzero) as [Hup Hall].
  split; [|split].
  - destruct (fold_py_max_In (weights_of es a b r) fzero) as [<-|Hin];
      [by left|right]. by apply weights_of_In.
  - apply Hup, fgt_irrefl.
  - intros w' Hin%weights_of_In. by eapply Forall_forall in Hall; [|apply list_elem_of_In].
Qed.

(** C8 (bounds): after a load, every weight stored in [outbonds] and every
    weight stored in [inbonds] is [0.0] or one of the weights its key was
    fed ([out_entries] / [in_entries] of the accepted lines), and neither
    [0.0] nor any weight fed to its key exceeds it. *)
Theorem stored_weight_bounds contents fs st a b r w :
  accepted_facts concepts remove_dangling contents = Ok fs ->
  load_conceptnet concepts remove_dangling empty_bonds contents = Ok st ->
  (lookup3 (outbonds st) a b r = Some w -> weight_bounded (flat_map out_entries fs) a b r w) /\
  (lookup3 (inbonds st) a b r = Some w -> weight_bounded (flat_map in_entries fs) a b r w).
Proof.
  intros Hfs Hl. destruct (loaded_lookup3 _ _ _ _ _ Hfs Hl) as [Hout Hin].
  split; intros Hw; [rewrite Hout in Hw|rewrite Hin in Hw]; by apply max_weight_bounded.
Qed.

End Bounds.
End Graph.
End Graph.
