(* ===== verification/Query.v ===== *)
(** * Query: the constructor and the query façade

    [ConceptNet] is [self] after [__init__] (lines 11-40): [concepts] from
    [__load_numberbatch], then [inbonds]/[outbonds] from
    [__load_conceptnet], which reads [concepts]; [edge_weights] is created
    empty and never used.  [init] composes the two loaders in this order;
    an exception of either ends the constructor.

    The queries only read: [edge_list] (lines 120-128), [get_outbonds] /
    [get_inbonds] (lines 131-142), [get_embedding] (149-152),
    [query_concept] (155-159, a dict with keys ['out'] and, when
    undirected, ['in']), [query_edge] (162-171).  An edge is the Python
    list [[from, rel, to, w]], a record here.

    The theorems say what each query returns in terms of the stored
    weights ([lookup3]), and, through the refinement of [Graph], in terms
    of the accepted input facts (section [Loaded], on an instance built
    by [init]); the concrete runs are in [Examples]. *)

From S2P Require Import Prelude PyStr PyDict PyFloat Numberbatch Graph.
Local Open Scope list_scope.

Module Query.

Section Query.
Context {E F : Type} `{PyFloat E} `{PyFloat F}.

(** [[concept1, rel, concept2, w]] *)
Record Edge := mkEdge { e_from : string; e_rel : string; e_to : string; e_w : F }.

(** [self] after construction. *)
Record ConceptNet := mkCN {
  concepts : PyDict.t string (list E);
  inbonds : Graph.Adj (F:=F);
  outbonds : Graph.Adj (F:=F);
  edge_weights : PyDict.t string F
}.

(** [ConceptNet(conceptnet_filename, numberbatch_filename, remove_duplicate,
    remove_dangling)] on the contents of the two files. *)
Definition init (conceptnet_file numberbatch_file : string)
    (remove_duplicate remove_dangling : bool) : res ConceptNet :=
  cs <- Numberbatch.load_numberbatch numberbatch_file remove_duplicate PyDict.empty ;;
  b <- Graph.load_conceptnet cs remove_dangling (Graph.mkBonds PyDict.empty PyDict.empty)
                             conceptnet_file ;;
  Ok (mkCN cs (Graph.inbonds b) (Graph.outbonds b) PyDict.empty).

(** [__edge_list(concept1, edges, flip)] *)
Definition edge_list (concept1 : string) (edges : PyDict.t string (PyDict.t string F))
    (flip : bool) : list Edge :=
  flat_map (fun '(concept2, rels) =>
              map (fun '(rel, w) => if flip then mkEdge concept2 rel concept1 w
                                    else mkEdge concept1 rel concept2 w)
                  (PyDict.items rels))
           (PyDict.items edges).

(** [__get_outbonds(concept)] *)
Definition get_outbonds (cn : ConceptNet) (concept : string) : list Edge :=
  if PyDict.contains concept (outbonds cn)
  then edge_list concept (PyDict.get_or concept PyDict.empty (outbonds cn)) false
  else [].

(** [__get_inbonds(concept)] *)
Definition get_inbonds (cn : ConceptNet) (concept : string) : list Edge :=
  if PyDict.contains concept (inbonds cn)
  then edge_list concept (PyDict.get_or concept PyDict.empty (inbonds cn)) true
  else [].

(** [get_embedding(concept)]; [None] is Python's [None]. *)
Definition get_embedding (cn : ConceptNet) (concept : string) : option (list E) :=
  if negb (PyDict.contains concept (concepts cn)) then None
  else PyDict.get concept (concepts cn).

(** [query_concept(concept, directed)] *)
Definition query_concept (cn : ConceptNet) (concept : string) (directed : bool)
    : PyDict.t string (list Edge) :=
  if directed then [("out", get_outbonds cn concept)]
  else [("out", get_outbonds cn concept); ("in", get_inbonds cn concept)].

(** The relations stored at [d[concept1][concept2]], when both keys exist. *)
Definition rels_at (d : Graph.Adj) (concept1 concept2 : string) : PyDict.t string F :=
  if PyDict.contains concept1 d && PyDict.contains concept2 (PyDict.get_or concept1 PyDict.empty d)
  then PyDict.get_or concept2 PyDict.empty (PyDict.get_or concept1 PyDict.empty d)
  else PyDict.empty.

(** [query_edge(concept1, concept2, directed)] *)
Definition query_edge (cn : ConceptNet) (concept1 concept2 : string) (directed : bool)
    : list Edge :=
  map (fun '(rel, w) => mkEdge concept1 rel concept2 w)
      (PyDict.items (rels_at (outbonds cn) concept1 concept2)) ++
  (if negb directed
   then map (fun '(rel, w) => mkEdge concept2 rel concept1 w)
            (PyDict.items (rels_at (inbonds cn) concept1 concept2))
   else []).

(** ** Lemmas *)

Lemma lookup3_Some (d : Graph.Adj) a b r w :
  Graph.lookup3 d a b r = Some w <->
  exists (mid : PyDict.t string (PyDict.t string F)) (inner : PyDict.t string F),
    PyDict.get a d = Some mid /\ PyDict.get b mid = Some inner /\
                    PyDict.get r inner = Some w.
Proof.
  unfold Graph.lookup3. split.
  - destruct (PyDict.get a d) as [mid|]; [|done].
    destruct (PyDict.get b mid) as [inner|] eqn:Eb; [|done]. eauto.
  - intros (mid & inner & -> & -> & ->). done.
Qed.

Lemma In_edge_list c edges flip e :
  In e (edge_list c edges flip) <->
  exists b rels r w, In (b, rels) (PyDict.items edges) /\ In (r, w) (PyDict.items rels) /\
    e = if flip then mkEdge b r c w else mkEdge c r b w.
Proof.
  unfold edge_list. rewrite in_flat_map. split.
  - intros ([b rels] & Hb & He). apply in_map_iff in He as ([r w] & <- & Hr). eauto 10.
  - intros (b & rels & r & w & Hb & Hr & ->). exists (b, rels). split; [done|].
    apply in_map_iff. by exists (r, w).
Qed.

Lemma In_rels_map c1 c2 (rels : PyDict.t string F) e :
  PyDict.wf rels ->
  In e (map (fun '(rel, w) => mkEdge c1 rel c2 w) (PyDict.items rels)) <->
  exists r w, e = mkEdge c1 r c2 w /\ PyDict.get r rels = Some w.
Proof.
  intros Hwf. rewrite in_map_iff. split.
  - intros ([r w] & <- & Hin). exists r, w. split; [done|]. by apply PyDict.In_items.
  - intros (r & w & -> & Hg). exists (r, w). split; [done|]. by apply PyDict.In_items.
Qed.

(** The relations at [d[c1][c2]] are those of [lookup3]. *)
Lemma rels_at_get (d : Graph.Adj) c1 c2 r :
  PyDict.get r (rels_at d c1 c2) = Graph.lookup3 d c1 c2 r.
Proof.
  unfold rels_at, Graph.lookup3, PyDict.contains, PyDict.get_or.
  destruct (PyDict.get c1 d) as [mid|]; simpl; [|done].
  by destruct (PyDict.get c2 mid).
Qed.

Lemma rels_at_wf (d : Graph.Adj) c1 c2 : Graph.adj_wf d -> PyDict.wf (rels_at d c1 c2).
Proof.
  rewrite Graph.adj_wf_iff. intros [_ Hmid]. unfold rels_at, PyDict.contains, PyDict.get_or.
  destruct (PyDict.get c1 d) as [mid|] eqn:E1; simpl; [|apply PyDict.wf_empty].
  destruct (PyDict.get c2 mid) as [inner|] eqn:E2; simpl; [|apply PyDict.wf_empty].
  exact (proj2 (Hmid _ _ E1) _ _ E2).
Qed.

Lemma In_query_rels (d : Graph.Adj) c1 c2 a b e :
  Graph.adj_wf d ->
  In e (map (fun '(rel, w) => mkEdge a rel b w) (PyDict.items (rels_at d c1 c2))) <->
  exists r w, e = mkEdge a r b w /\ Graph.lookup3 d c1 c2 r = Some w.
Proof.
  intros Hwf. rewrite In_rels_map by (by apply rels_at_wf).
  by setoid_rewrite rels_at_get.
Qed.

Lemma query_edge_true_In cn c1 c2 e :
  Graph.adj_wf (outbonds cn) ->
  In e (query_edge cn c1 c2 true) <->
  exists r w, e = mkEdge c1 r c2 w /\ Graph.lookup3 (outbonds cn) c1 c2 r = Some w.
Proof. intros Hwf. unfold query_edge. simpl. rewrite app_nil_r. by apply In_query_rels. Qed.

Lemma query_edge_false_In cn c1 c2 e :
  Graph.adj_wf (outbonds cn) -> Graph.adj_wf (inbonds cn) ->
  In e (query_edge cn c1 c2 false) <->
  (exists r w, e = mkEdge c1 r c2 w /\ Graph.lookup3 (outbonds cn) c1 c2 r = Some w) \/
  (exists r w, e = mkEdge c2 r c1 w /\ Graph.lookup3 (inbonds cn) c1 c2 r = Some w).
Proof.
  intros Ho Hi. unfold query_edge. simpl. rewrite in_app_iff.
  by rewrite !In_query_rels.
Qed.

(** C10 (functional): [query_edge(c1, c2, directed=True)] lists exactly the
    relations stored at [outbonds[c1][c2]], as [(c1, rel, c2, w)]. *)
Theorem query_edge_directed_spec cn c1 c2 e :
  Graph.adj_wf (outbonds cn) ->
  In e (query_edge cn c1 c2 true) <->
  exists r w, e = mkEdge c1 r c2 w /\ Graph.lookup3 (outbonds cn) c1 c2 r = Some w.
Proof. apply query_edge_true_In. Qed.

(** C11 (functional): [query_edge(c1, c2, directed=False)] adds the
    relations stored at [inbonds[c1][c2]], reported in their original
    orientation [(c2, rel, c1, w)]. *)
Theorem query_edge_undirected_spec cn c1 c2 e :
  Graph.adj_wf (outbonds cn) -> Graph.adj_wf (inbonds cn) ->
  In e (query_edge cn c1 c2 false) <->
  (exists r w, e = mkEdge c1 r c2 w /\ Graph.lookup3 (outbonds cn) c1 c2 r = Some w) \/
  (exists r w, e = mkEdge c2 r c1 w /\ Graph.lookup3 (inbonds cn) c1 c2 r = Some w).
Proof. apply query_edge_false_In. Qed.

(** The directed answer is the first part of the undirected one. *)
Lemma query_edge_prefix cn c1 c2 :
  exists l, query_edge cn c1 c2 false = query_edge cn c1 c2 true ++ l.
Proof. unfold query_edge. simpl. rewrite app_nil_r. by eexists. Qed.

(** [__get_outbonds] and [__get_inbonds] list the triples stored under
    [d[c]], oriented by [flip]. *)
Lemma bonds_In (d : Graph.Adj) c flip e :
  Graph.adj_wf d ->
  In e (if PyDict.contains c d then edge_list c (PyDict.get_or c PyDict.empty d) flip else []) <->
  exists b r w, e = (if flip then mkEdge b r c w else mkEdge c r b w) /\
                Graph.lookup3 d c b r = Some w.
Proof.
  rewrite Graph.adj_wf_iff. intros [Hwf Hmid]. unfold PyDict.contains, PyDict.get_or.
  setoid_rewrite lookup3_Some.
  destruct (PyDict.get c d) as [mid|] eqn:Ec; simpl; [|naive_solver].
  destruct (Hmid _ _ Ec) as [Hmw Hin].
  rewrite In_edge_list. split.
  - intros (b & rels & r & w & Hb & Hr & ->).
    apply PyDict.In_items in Hb; [|done]. apply PyDict.In_items in Hr; [|by eapply Hin].
    exists b, r, w. eauto 10.
  - intros (b & r & w & -> & mid' & inner & [= <-] & Hb & Hr).
    exists b, inner, r, w. split_and!; [by apply PyDict.In_items| |done].
    apply PyDict.In_items; [by eapply Hin|done].
Qed.

Lemma get_outbonds_In cn c e :
  Graph.adj_wf (outbonds cn) ->
  In e (get_outbonds cn c) <->
  exists b r w, e = mkEdge c r b w /\ Graph.lookup3 (outbonds cn) c b r = Some w.
Proof. apply (bonds_In _ _ false). Qed.

(** [query_concept(c)['out']] lists exactly the triples
    stored under [outbonds[c]], as [(c, rel, other, w)]. *)
Theorem get_outbonds_spec cn c e :
  Graph.adj_wf (outbonds cn) ->
  In e (get_outbonds cn c) <->
  exists b r w, e = mkEdge c r b w /\ Graph.lookup3 (outbonds cn) c b r = Some w.
Proof. apply get_outbonds_In. Qed.

(** The inbound half: triples [(other, rel, c, w)] stored under [inbonds[c]]. *)
Lemma get_inbonds_spec cn c e :
  Graph.adj_wf (inbonds cn) ->
  In e (get_inbonds cn c) <->
  exists b r w, e = mkEdge b r c w /\ Graph.lookup3 (inbonds cn) c b r = Some w.
Proof. apply (bonds_In _ _ true). Qed.

(** Every value of [query_concept(c, ...)] is [get_outbonds c] or
    [get_inbonds c]. *)
Lemma query_concept_values cn c directed k es :
  PyDict.get k (query_concept cn c directed) = Some es ->
  es = get_outbonds cn c \/ es = get_inbonds cn c.
Proof.
  destruct directed; simpl; repeat case_decide; intros; simplify_eq; auto.
Qed.

(** [query_concept(c, directed=True)] has the same
    ['out'] list as the undirected query and no ['in'] key. *)
Lemma query_concept_directed cn c :
  PyDict.get "out" (query_concept cn c true) = PyDict.get "out" (query_concept cn c false) /\
  PyDict.get "in" (query_concept cn c true) = None /\
  PyDict.get "in" (query_concept cn c false) = Some (get_inbonds cn c).
Proof. done. Qed.

Lemma get_embedding_get cn c : get_embedding cn c = PyDict.get c (concepts cn).
Proof. unfold get_embedding, PyDict.contains. by destruct (PyDict.get c (concepts cn)). Qed.

(** ** The built instance *)

Lemma init_Ok cnf nbf rdup rd cn :
  init cnf nbf rdup rd = Ok cn ->
  Numberbatch.load_numberbatch nbf rdup PyDict.empty = Ok (concepts cn) /\
  exists b, Graph.load_conceptnet (concepts cn) rd Graph.empty_bonds cnf = Ok b /\
            inbonds cn = Graph.inbonds b /\ outbonds cn = Graph.outbonds b.
Proof.
  unfold init. destruct (Numberbatch.load_numberbatch _ _ _) as [cs|]; simpl; [|done].
  destruct (Graph.load_conceptnet _ _ _ _) as [b|] eqn:Eb; simpl; [|done].
  intros [= <-]. simpl. split; [done|]. by exists b.
Qed.

Lemma init_wf cnf nbf rdup rd cn :
  init cnf nbf rdup rd = Ok cn -> Graph.adj_wf (outbonds cn) /\ Graph.adj_wf (inbonds cn).
Proof.
  intros (_ & b & Hb & -> & ->)%init_Ok. exact (Graph.loaded_wf _ _ _ _ Hb).
Qed.

(** The facts of one fact-key feed [outbonds] and [inbonds] the same
    weights when the relation is not symmetric. *)
Lemma out_in_weights (fs : list (Graph.fact (F:=F))) a b r :
  Graph.mem r Graph.symmetric_assertions = false ->
  Graph.weights_of (flat_map Graph.out_entries fs) a b r =
  Graph.weights_of (flat_map Graph.in_entries fs) b a r.
Proof.
  intros Hr. induction fs as [|[[[r0 a0] b0] w0] fs IH]; [done|].
  simpl. unfold Graph.weights_of in *. rewrite !omap_app, IH. f_equal.
  unfold Graph.out_entries, Graph.in_entries.
  destruct (Graph.mem r0 _) eqn:Hr0; simpl.
  - rewrite !decide_False; [done| |]; intros [= _ _ ->]; congruence.
  - repeat case_decide; simplify_eq; done.
Qed.

Lemma sym_weights (fs : list (Graph.fact (F:=F))) a b r :
  Graph.mem r Graph.symmetric_assertions = true ->
  Graph.weights_of (flat_map Graph.out_entries fs) a b r =
  Graph.weights_of (flat_map Graph.out_entries fs) b a r.
Proof.
  intros Hr. induction fs as [|[[[r0 a0] b0] w0] fs IH]; [done|].
  simpl. unfold Graph.weights_of in *. rewrite !omap_app, IH. f_equal.
  unfold Graph.out_entries. destruct (Graph.mem r0 _) eqn:Hr0; simpl.
  - repeat case_decide; simplify_eq; done.
  - rewrite !decide_False; [done| |]; intros [= _ _ ->]; congruence.
Qed.

Lemma sym_not_in (fs : list (Graph.fact (F:=F))) a b r :
  Graph.mem r Graph.symmetric_assertions = true ->
  Graph.max_weight (flat_map Graph.in_entries fs) a b r = None.
Proof.
  intros Hr. unfold Graph.max_weight.
  replace (Graph.weights_of _ a b r) with (@nil F); [done|].
  induction fs as [|[[[r0 a0] b0] w0] fs IH]; [done|].
  simpl. unfold Graph.weights_of in *. rewrite omap_app, <- IH.
  unfold Graph.in_entries. destruct (Graph.mem r0 _) eqn:Hr0; simpl; [done|].
  rewrite decide_False; [done|]. intros [= _ _ ->]. congruence.
Qed.

Lemma max_weight_In (es : list (Graph.entry (F:=F))) a b r w :
  In (a, b, r, w) es -> exists w', Graph.max_weight es a b r = Some w'.
Proof.
  intros Hin%Graph.weights_of_In. unfold Graph.max_weight.
  destruct (Graph.weights_of es a b r); [done|eauto].
Qed.

Section Loaded.
Variables (cnf nbf : string) (rdup rd : bool) (cn : ConceptNet) (fs : list (Graph.fact (F:=F))).
Hypothesis Hinit : init cnf nbf rdup rd = Ok cn.
Hypothesis Hfs : Graph.accepted_facts (concepts cn) rd cnf = Ok fs.

Lemma loaded_out a b r : Graph.lookup3 (outbonds cn) a b r =
                         Graph.max_weight (flat_map Graph.out_entries fs) a b r.
Proof.
  destruct (init_Ok _ _ _ _ _ Hinit) as (_ & bd & Hb & _ & ->).
  by apply (Graph.loaded_lookup3 _ _ _ _ _ Hfs Hb).
Qed.

Lemma loaded_in a b r : Graph.lookup3 (inbonds cn) a b r =
                        Graph.max_weight (flat_map Graph.in_entries fs) a b r.
Proof.
  destruct (init_Ok _ _ _ _ _ Hinit) as (_ & bd & Hb & -> & _).
  by apply (Graph.loaded_lookup3 _ _ _ _ _ Hfs Hb).
Qed.

(** C3 (refinement, end to end): on a constructed instance,
    [query_edge(c1, c2, directed=True)] returns exactly one edge per
    relation fed to [(c1, c2)] by the accepted lines, with the maximum of
    their weights from [0.0]. *)
Theorem query_edge_loaded c1 c2 e :
  In e (query_edge cn c1 c2 true) <->
  exists r w, e = mkEdge c1 r c2 w /\
              Graph.max_weight (flat_map Graph.out_entries fs) c1 c2 r = Some w.
Proof.
  rewrite query_edge_true_In by apply (init_wf _ _ _ _ _ Hinit).
  by setoid_rewrite loaded_out.
Qed.

(** C12 (functional): an accepted line of a symmetric relation is
    reachable from both endpoints as an outgoing edge with the same weight,
    and neither endpoint's [inbonds] holds that relation between them. *)
Theorem symmetric_both_ways r a b w :
  In (r, a, b, w) fs -> Graph.mem r Graph.symmetric_assertions = true ->
  (exists w', In (mkEdge a r b w') (query_edge cn a b true) /\
              In (mkEdge b r a w') (query_edge cn b a true)) /\
  Graph.lookup3 (inbonds cn) a b r = None /\ Graph.lookup3 (inbonds cn) b a r = None.
Proof.
  intros Hin Hs. pose proof (init_wf _ _ _ _ _ Hinit) as [Ho Hi].
  split; [|split]; [|by rewrite loaded_in, sym_not_in..].
  assert (Hab : In (a, b, r, w) (flat_map Graph.out_entries fs)).
  { apply in_flat_map. exists (r, a, b, w). split; [done|].
    unfold Graph.out_entries. rewrite Hs. by left. }
  destruct (max_weight_In _ _ _ _ _ Hab) as [w' Hw'].
  exists w'. rewrite !query_edge_true_In by done. split.
  - exists r, w'. by rewrite loaded_out.
  - exists r, w'. rewrite loaded_out. split; [done|].
    unfold Graph.max_weight in *. by rewrite <- sym_weights.
Qed.

(** C13 (functional): an accepted line [(a, r, b, w)] of a non-symmetric
    relation is an outgoing edge of [a] and, with the same weight, an edge
    of [query_edge(b, a, directed=False)] reported as [(a, r, b, w')]. *)
Theorem non_symmetric_reconstructed r a b w :
  In (r, a, b, w) fs -> Graph.mem r Graph.symmetric_assertions = false ->
  exists w', In (mkEdge a r b w') (query_edge cn a b true) /\
             In (mkEdge a r b w') (query_edge cn b a false).
Proof.
  intros Hin Hs. pose proof (init_wf _ _ _ _ _ Hinit) as [Ho Hi].
  assert (Hab : In (a, b, r, w) (flat_map Graph.out_entries fs)).
  { apply in_flat_map. exists (r, a, b, w). split; [done|].
    unfold Graph.out_entries. rewrite Hs. by left. }
  destruct (max_weight_In _ _ _ _ _ Hab) as [w' Hw'].
  exists w'. rewrite query_edge_true_In, query_edge_false_In by done. split.
  - exists r, w'. by rewrite loaded_out.
  - right. exists r, w'. rewrite loaded_in. split; [done|].
    unfold Graph.max_weight in *. by rewrite <- out_in_weights.
Qed.

Lemma stored_endpoints x y r w :
  rd = true ->
  Graph.lookup3 (outbonds cn) x y r = Some w \/ Graph.lookup3 (inbonds cn) x y r = Some w ->
  PyDict.contains x (concepts cn) = true /\ PyDict.contains y (concepts cn) = true.
Proof.
  intros Hrd Hw. destruct (init_Ok _ _ _ _ _ Hinit) as (_ & bd & Hb & Hin & Hout).
  rewrite Hin, Hout in Hw. exact (Graph.loaded_endpoints _ _ _ _ _ _ _ _ Hrd Hb Hw).
Qed.

Lemma get_embedding_contains x :
  PyDict.contains x (concepts cn) = true -> is_Some (get_embedding cn x).
Proof.
  intros Hc. unfold get_embedding. rewrite Hc. simpl. by apply PyDict.contains_get.
Qed.

(** C7 (safety): with [remove_dangling], no edge returned by [query_edge]
    or [query_concept] references a concept without an embedding. *)
Theorem queries_not_dangling e :
  rd = true ->
  ((exists c1 c2 directed, In e (query_edge cn c1 c2 directed)) \/
   (exists c directed k es, PyDict.get k (query_concept cn c directed) = Some es /\ In e es)) ->
  is_Some (get_embedding cn (e_from e)) /\ is_Some (get_embedding cn (e_to e)).
Proof.
  intros Hrd He. pose proof (init_wf _ _ _ _ _ Hinit) as [Ho Hi].
  assert (Hst : exists x y r w, ((e_from e = x /\ e_to e = y) \/ (e_from e = y /\ e_to e = x)) /\
                (Graph.lookup3 (outbonds cn) x y r = Some w \/ Graph.lookup3 (inbonds cn) x y r = Some w)).
  { destruct He as [(c1 & c2 & [] & He)|(c & directed & k & es & Hk & He)];
      [| |apply query_concept_values in Hk as [->| ->]].
    - apply query_edge_true_In in He as (r & w & -> & Hw); [|done]. eauto 10.
    - apply query_edge_false_In in He as [(r & w & -> & Hw)|(r & w & -> & Hw)]; eauto 10.
    - apply get_outbonds_In in He as (b & r & w & -> & Hw); [|done]. eauto 10.
    - apply get_inbonds_spec in He as (b & r & w & -> & Hw); [|done]. eauto 10. }
  destruct Hst as (x & y & r & w & Hxy & Hw).
  destruct (stored_endpoints _ _ _ _ Hrd Hw) as [Hx Hy].
  destruct Hxy as [[-> ->]|[-> ->]]; auto using get_embedding_contains.
Qed.

End Loaded.

(** C16 (functional): without [remove_duplicate], [get_embedding(c)] on a
    constructed instance is the vector of the last row of [c] in the
    embedding file, and [None] when no row names [c]. *)
Theorem get_embedding_loaded cnf nbf rd cn d rows c :
  init cnf nbf false rd = Ok cn -> Numberbatch.parse_table nbf = Ok (d, rows) ->
  get_embedding cn c = PyDict.get c (Numberbatch.rows_to_dict PyDict.empty rows).
Proof.
  intros Hinit Ht. rewrite get_embedding_get.
  destruct (init_Ok _ _ _ _ _ Hinit) as (Hnb & _).
  rewrite Numberbatch.load_numberbatch_eq, Ht in Hnb. simpl in Hnb.
  by injection Hnb as <-.
Qed.

End Query.
End Query.
