(* ===== verification/GetData.v ===== *)
(** * GetData: the data retrieval pipeline ([src/get_data.py])

    The script fetches the two resources that [ConceptNet.__init__] loads.
    [get_conceptnet] (lines 42-119) goes through three stages, download
    (a [.csv.gz] archive), extraction (the [.csv]) and filtering (the
    English four-column relation file), each verified by its SHA-256 digest;
    [get_numberbatch] (lines 125-171) has the first two. Before running,
    each function decides which stages are still needed from the files
    present and their digests (the [flag_*] variables): a stage runs only
    when no later product is already present and valid.

    State: the working directory, as a finite map from a file name to its
    contents ([FS], a stdpp [gmap]). The effects the script delegates to
    libraries are parameters of the section: [sha256] (hashlib), [fetch]
    (an HTTP GET with [raise_for_status]), [gunzip], [json_loads] and
    [weight_str] (the [str(meta['weight'])] of a decoded JSON object).
    [os.path.isfile], [open] for reading, writing a whole file and
    [os.remove] act on the map. [sys.exit(msg)] is the exception
    [SystemExit msg]. An exception ends the script; the directory it leaves
    behind is not modelled (each run re-checks every file by digest).

    [filter_line] is the body of the loop of [filter_conceptnet]
    (lines 48-53): it keeps an upstream assertion whose two endpoints are
    English concepts ([/c/en/...]) and writes [rel\tsrc\tdst\tweight\n].

    Theorems: each stage's effect, frame and failure cases; the flags
    implement "resume after the latest valid product"; the products are
    valid and re-running changes nothing; no missing file is read or
    removed; the written rows read back through the loader's parser (round
    trip); and with honest oracles [get_conceptnet] and [main] succeed
    (liveness) and leave the two files [ConceptNet()] opens by default. *)

From S2P Require Import Prelude PyStr PyDict PyFloat Graph.
From stdpp Require Import gmap strings.

Module GetData.
Local Open Scope list_scope.

Definition SLASH : ascii := "/".
Definition NL : ascii := "010".

(** [s.startswith(p)] *)
Definition startswith (p s : string) : bool := String.prefix p s.

(** [l[-1]] *)
Definition py_last {A} (l : list A) : res A :=
  match last l with Some x => Ok x | None => Raise IndexError end.

(** [s[:-3]] (empty when [s] has fewer than three characters) *)
Definition drop_last3 (s : string) : string :=
  substring 0 (String.length s - 3) s.

(** ** [filter_conceptnet] *)

(** [v[1]... + '\t' + ... + '\t' + ... + '\t' + str(meta['weight']) + '\n']
    (line 52): the row written for one assertion. *)
Definition render_row (rel src dst w : string) : string :=
  (rel ++ String Graph.TAB (src ++ String Graph.TAB (dst ++ String Graph.TAB
     (w ++ String NL EmptyString))))%string.

Section Filter.
Context {Json : Type}.
(** [json.loads(s)]: the decoded document, or [JSONDecodeError]. *)
Variable json_loads : string -> res Json.
(** [str(meta['weight'])]: [KeyError] when there is no weight. *)
Variable weight_str : Json -> res string.

(** One turn of the loop (lines 49-52), returning what it writes. *)
Definition filter_line (line : string) : res string :=
  let v := PyStr.split_sep Graph.TAB line in
  v2 <- py_index v 2 ;;
  keep <- (if startswith "/c/en/" v2
           then v3 <- py_index v 3 ;; Ok (startswith "/c/en/" v3)
           else Ok false) ;;
  if keep then
    v4 <- py_index v 4 ;;
    meta <- json_loads v4 ;;
    v1 <- py_index v 1 ;;
    rel <- py_index (PyStr.split_sep SLASH v1) 2 ;;
    src <- py_index (PyStr.split_sep SLASH v2) 3 ;;
    v3 <- py_index v 3 ;;
    dst <- py_index (PyStr.split_sep SLASH v3) 3 ;;
    w <- weight_str meta ;;
    Ok (render_row rel src dst w)
  else Ok EmptyString.

(** The [while line:] loop over the lines of [file_all]: what it writes to
    [file_filtered], or the first exception. *)
Definition filter_lines (lines : list string) : res string :=
  foldM (fun out line => s <- filter_line line ;; Ok (out ++ s)%string) EmptyString lines.

End Filter.

(** ** The working directory and the stages *)

(** The working directory: file name -> contents. *)
Abbreviation FS := (gmap string string).

Section Pipeline.
Context {Json : Type}.
Variable sha256 : string -> string.
Variable fetch : string -> res string.
Variable gunzip : string -> res string.
Variable json_loads : string -> res Json.
Variable weight_str : Json -> res string.

(** [os.path.isfile(f)] *)
Definition isfile (fs : FS) (f : string) : bool :=
  match fs !! f with Some _ => true | None => false end.

(** [open(f, 'rb').read()] *)
Definition read_file (fs : FS) (f : string) : res string :=
  match fs !! f with Some c => Ok c | None => Raise FileNotFoundError end.

(** [compute_sha256(f)] (lines 25-30) *)
Definition compute_sha256 (fs : FS) (f : string) : res string :=
  c <- read_file fs f ;; Ok (sha256 c).

(** [download_file(url, f)] (lines 17-22): the body is written only after
    [raise_for_status] succeeds. *)
Definition download_file (url f : string) (fs : FS) : res FS :=
  body <- fetch url ;; Ok (<[f := body]> fs).

(** [unzip_file(fz, fu)] (lines 33-36) *)
Definition unzip_file (fz fu : string) (fs : FS) : res FS :=
  c <- read_file fs fz ;; u <- gunzip c ;; Ok (<[fu := u]> fs).

(** [filter_conceptnet(file_all, file_filtered)] (lines 44-53) *)
Definition filter_conceptnet (file_all file_filtered : string) (fs : FS) : res FS :=
  c <- read_file fs file_all ;;
  out <- filter_lines json_loads weight_str (PyStr.lines_of c) ;;
  Ok (<[file_filtered := out]> fs).

(** [os.remove(f)] *)
Definition remove (fs : FS) (f : string) : res FS :=
  if isfile fs f then Ok (delete f fs) else Raise FileNotFoundError.

(** [flag = True; if os.path.isfile(f) and guard: if h == compute_sha256(f):
    flag = False] (lines 69-85, 138-148): [true] when the stage must run. *)
Definition stage_flag (fs : FS) (f h : string) (guard : bool) : res bool :=
  if isfile fs f && guard
  then sha <- compute_sha256 fs f ;; Ok (negb (String.eqb h sha))
  else Ok true.

(** [if h != compute_sha256(f): sys.exit(msg)] *)
Definition verify (fs : FS) (f h msg : string) : res unit :=
  sha <- compute_sha256 fs f ;;
  if String.eqb h sha then Ok tt else Raise (SystemExit msg).

(** Lines 89-93 / 152-156: download, then check the digest. *)
Definition download_stage (url f h msg : string) (fs : FS) : res FS :=
  fs <- download_file url f fs ;; _ <- verify fs f h msg ;; Ok fs.

(** Lines 99-104 / 162-167: extract, check, delete the archive. *)
Definition unzip_stage (fz fu h msg : string) (fs : FS) : res FS :=
  fs <- unzip_file fz fu fs ;; _ <- verify fs fu h msg ;; remove fs fz.

(** Lines 110-115: filter, check, delete the extracted file. *)
Definition filter_stage (fu ff h msg : string) (fs : FS) : res FS :=
  fs <- filter_conceptnet fu ff fs ;; _ <- verify fs ff h msg ;; remove fs fu.

(** [get_conceptnet()] (lines 68-117) on the names of lines 55-64. *)
Definition get_conceptnet_with (url zipped zipped_hash unzipped unzipped_hash
    filtered filtered_hash : string) (fs : FS) : res FS :=
  flag_filter <- stage_flag fs filtered filtered_hash true ;;
  flag_unzip <- stage_flag fs unzipped unzipped_hash flag_filter ;;
  flag_download <- stage_flag fs zipped zipped_hash (flag_filter && flag_unzip) ;;
  fs <- (if flag_download && flag_unzip && flag_filter
         then download_stage url zipped zipped_hash "ConceptNet download failed!" fs
         else Ok fs) ;;
  fs <- (if flag_unzip && flag_filter
         then unzip_stage zipped unzipped unzipped_hash "ConceptNet extraction failed!" fs
         else Ok fs) ;;
  if flag_filter
  then filter_stage unzipped filtered filtered_hash "ConceptNet filtering failed!" fs
  else Ok fs.

(** [get_numberbatch()] (lines 137-169) on the names of lines 127-133. *)
Definition get_numberbatch_with (url zipped zipped_hash unzipped unzipped_hash : string)
    (fs : FS) : res FS :=
  flag_unzip <- stage_flag fs unzipped unzipped_hash true ;;
  flag_download <- stage_flag fs zipped zipped_hash flag_unzip ;;
  fs <- (if flag_download && flag_unzip
         then download_stage url zipped zipped_hash "NumberBatch download failed!" fs
         else Ok fs) ;;
  if flag_unzip
  then unzip_stage zipped unzipped unzipped_hash "NumberBatch extraction failed!" fs
  else Ok fs.

(** ** Specification: resume from the latest valid product *)

(** [f] is present and its digest is [h]. *)
Definition valid (fs : FS) (f h : string) : bool :=
  match fs !! f with Some c => String.eqb h (sha256 c) | None => false end.

(** What [get_conceptnet] promises: nothing to do when the filtered file is
    valid; otherwise run the stages after the latest valid product. *)
Definition resume_conceptnet (url zipped zipped_hash unzipped unzipped_hash
    filtered filtered_hash : string) (fs : FS) : res FS :=
  let dl := download_stage url zipped zipped_hash "ConceptNet download failed!" in
  let uz := unzip_stage zipped unzipped unzipped_hash "ConceptNet extraction failed!" in
  let ft := filter_stage unzipped filtered filtered_hash "ConceptNet filtering failed!" in
  if valid fs filtered filtered_hash then Ok fs
  else if valid fs unzipped unzipped_hash then ft fs
  else if valid fs zipped zipped_hash then (fs <- uz fs ;; ft fs)
  else (fs <- dl fs ;; fs <- uz fs ;; ft fs).

(** The same for [get_numberbatch]. *)
Definition resume_numberbatch (url zipped zipped_hash unzipped unzipped_hash : string)
    (fs : FS) : res FS :=
  let dl := download_stage url zipped zipped_hash "NumberBatch download failed!" in
  let uz := unzip_stage zipped unzipped unzipped_hash "NumberBatch extraction failed!" in
  if valid fs unzipped unzipped_hash then Ok fs
  else if valid fs zipped zipped_hash then uz fs
  else (fs <- dl fs ;; uz fs).

End Pipeline.

(** ** The names of the script *)

(** [url.split('/')[-1]] *)
Definition url_basename (url : string) : res string := py_last (PyStr.split_sep SLASH url).

Definition conceptnet_url : string :=
  "https://s3.amazonaws.com/conceptnet/downloads/2019/edges/conceptnet-assertions-5.7.0.csv.gz".
Definition conceptnet_filename_zipped_hash : string :=
  "accd65fe94038584295574ddc26e1500c1919c8c4532bf771811cafd0948af7e".
Definition conceptnet_filename_hash : string :=
  "40ad6e34b1bf86b013e46645fcb20e9b9c74091614c8b914c3c42f55c117afd2".
Definition conceptnet_filename_filtered : string := "conceptnet-en-5.7.0.txt".
Definition conceptnet_filename_filtered_hash : string :=
  "e554b78c27825be13a7d6b8799c79c099ce8d425b2c6b24c80ef7652704ba482".

Definition numberbatch_url : string :=
  "https://conceptnet.s3.amazonaws.com/downloads/2019/numberbatch/numberbatch-en-19.08.txt.gz".
Definition numberbatch_filename_zipped_hash : string :=
  "90e57611eb71077ada9fd0b011fd0206de8ec13d035aced40b81b1a4d549c6a2".
Definition numberbatch_filename_hash : string :=
  "42f92fcd49a63baf4d643bde39c996079432b383077afddebac20c2844c9a6f7".

(** The default file names of [ConceptNet.__init__] (conceptnet.py line 11). *)
Definition default_conceptnet_filename : string := "conceptnet-en-5.7.0.txt".
Definition default_numberbatch_filename : string := "numberbatch-en-19.08.txt".

Section Main.
Context {Json : Type}.
Variable sha256 : string -> string.
Variable fetch : string -> res string.
Variable gunzip : string -> res string.
Variable json_loads : string -> res Json.
Variable weight_str : Json -> res string.

(** [get_conceptnet()] *)
Definition get_conceptnet (fs : FS) : res FS :=
  zipped <- url_basename conceptnet_url ;;
  let unzipped := drop_last3 zipped in
  get_conceptnet_with sha256 fetch gunzip json_loads weight_str conceptnet_url
    zipped conceptnet_filename_zipped_hash unzipped conceptnet_filename_hash
    conceptnet_filename_filtered conceptnet_filename_filtered_hash fs.

(** [get_numberbatch()] *)
Definition get_numberbatch (fs : FS) : res FS :=
  zipped <- url_basename numberbatch_url ;;
  let unzipped := drop_last3 zipped in
  get_numberbatch_with sha256 fetch gunzip numberbatch_url
    zipped numberbatch_filename_zipped_hash unzipped numberbatch_filename_hash fs.

(** The script: lines 177-179. *)
Definition main (fs : FS) : res FS :=
  fs <- get_conceptnet fs ;; get_numberbatch fs.

End Main.

(** ** The format [filter_conceptnet] writes *)

(** A field without tab or newline. *)
Definition clean (p : string) : Prop :=
  PyStr.has_char Graph.TAB p = false /\ PyStr.has_char NL p = false.

(** A written row: [rel\tsrc\tdst\tweight\n] with clean fields. *)
Definition good_row (s : string) : Prop :=
  exists rel src dst w, Forall clean [rel; src; dst; w] /\ s = render_row rel src dst w.

(** ** Lemmas on the stages *)

Section Valid.
Variable sha256 : string -> string.

Lemma valid_Some fs f h :
  GetData.valid sha256 fs f h = true -> exists c, fs !! f = Some c /\ String.eqb h (sha256 c) = true.
Proof. unfold GetData.valid. destruct (fs !! f); naive_solver. Qed.

Lemma valid_present fs f h : GetData.valid sha256 fs f h = true -> is_Some (fs !! f).
Proof. unfold GetData.valid. destruct (fs !! f); naive_solver. Qed.

End Valid.


Section Stages.
Context {Json : Type}.
Variable sha256 : string -> string.
Variable fetch : string -> res string.
Variable gunzip : string -> res string.
Variable json_loads : string -> res Json.
Variable weight_str : Json -> res string.

Local Abbreviation valid := (valid sha256).
Local Abbreviation stage_flag := (stage_flag sha256).
Local Abbreviation download_stage := (download_stage sha256 fetch).
Local Abbreviation unzip_stage := (unzip_stage sha256 gunzip).
Local Abbreviation filter_stage := (filter_stage sha256 json_loads weight_str).

Lemma stage_flag_valid fs f h g : stage_flag fs f h g = Ok (negb (g && valid fs f h)).
Proof.
  unfold GetData.stage_flag, GetData.valid, isfile, compute_sha256, read_file.
  destruct (fs !! f); destruct g; done.
Qed.

Lemma download_stage_Ok url f h msg fs fs' :
  download_stage url f h msg fs = Ok fs' ->
  exists body, fetch url = Ok body /\ fs' = <[f := body]> fs /\ String.eqb h (sha256 body) = true.
Proof.
  unfold GetData.download_stage, download_file, verify, compute_sha256, read_file.
  destruct (fetch url) as [body|]; cbn [res_bind]; [|done]. rewrite lookup_insert_eq. cbn [res_bind].
  destruct (String.eqb h (sha256 body)) eqn:E; cbn [res_bind]; [|done]. intros [= <-]. eauto.
Qed.

Lemma unzip_stage_Ok fz fu h msg fs fs' :
  fz <> fu -> unzip_stage fz fu h msg fs = Ok fs' ->
  exists c u, fs !! fz = Some c /\ gunzip c = Ok u /\ String.eqb h (sha256 u) = true /\
              fs' = delete fz (<[fu := u]> fs).
Proof.
  intros Hne. unfold GetData.unzip_stage, unzip_file, verify, compute_sha256, read_file, remove, isfile.
  destruct (fs !! fz) as [c|] eqn:Ec; cbn [res_bind]; [|done].
  destruct (gunzip c) as [u|] eqn:Eu; cbn [res_bind]; [|done]. rewrite lookup_insert_eq. cbn [res_bind].
  destruct (String.eqb h (sha256 u)) eqn:E; cbn [res_bind]; [|done].
  rewrite lookup_insert_ne, Ec by done. intros [= <-]. eauto 10.
Qed.

Lemma filter_stage_Ok fu ff h msg fs fs' :
  fu <> ff -> filter_stage fu ff h msg fs = Ok fs' ->
  exists c out, fs !! fu = Some c /\ filter_lines json_loads weight_str (PyStr.lines_of c) = Ok out /\
                String.eqb h (sha256 out) = true /\ fs' = delete fu (<[ff := out]> fs).
Proof.
  intros Hne. unfold GetData.filter_stage, filter_conceptnet, verify, compute_sha256, read_file, remove, isfile.
  destruct (fs !! fu) as [c|] eqn:Ec; cbn [res_bind]; [|done].
  destruct (filter_lines _ _ _) as [out|] eqn:Eo; cbn [res_bind]; [|done]. rewrite lookup_insert_eq. cbn [res_bind].
  destruct (String.eqb h (sha256 out)) eqn:E; cbn [res_bind]; [|done].
  rewrite lookup_insert_ne, Ec by done. intros [= <-]. eauto 10.
Qed.

Lemma download_stage_frame url f h msg fs fs' g :
  download_stage url f h msg fs = Ok fs' -> g <> f -> fs' !! g = fs !! g.
Proof. intros (body & _ & -> & _)%download_stage_Ok Hg. by rewrite lookup_insert_ne. Qed.

Lemma unzip_stage_frame fz fu h msg fs fs' g :
  fz <> fu -> unzip_stage fz fu h msg fs = Ok fs' -> g <> fz -> g <> fu -> fs' !! g = fs !! g.
Proof.
  intros Hne (c & u & _ & _ & _ & ->)%unzip_stage_Ok Hz Hu; [|done].
  by rewrite lookup_delete_ne, lookup_insert_ne.
Qed.

Lemma filter_stage_frame fu ff h msg fs fs' g :
  fu <> ff -> filter_stage fu ff h msg fs = Ok fs' -> g <> fu -> g <> ff -> fs' !! g = fs !! g.
Proof.
  intros Hne (c & out & _ & _ & _ & ->)%filter_stage_Ok Hu Hf; [|done].
  by rewrite lookup_delete_ne, lookup_insert_ne.
Qed.

Lemma download_stage_valid url f h msg fs fs' :
  download_stage url f h msg fs = Ok fs' -> valid fs' f h = true.
Proof.
  intros (body & _ & -> & E)%download_stage_Ok.
  unfold GetData.valid. by rewrite lookup_insert_eq.
Qed.

Lemma unzip_stage_valid fz fu h msg fs fs' :
  fz <> fu -> unzip_stage fz fu h msg fs = Ok fs' -> valid fs' fu h = true /\ fs' !! fz = None.
Proof.
  intros Hne (c & u & _ & _ & E & ->)%unzip_stage_Ok; [|done].
  unfold GetData.valid. rewrite lookup_delete_ne, lookup_insert_eq by done.
  by rewrite lookup_delete_eq.
Qed.

Lemma filter_stage_valid fu ff h msg fs fs' :
  fu <> ff -> filter_stage fu ff h msg fs = Ok fs' -> valid fs' ff h = true /\ fs' !! fu = None.
Proof.
  intros Hne (c & out & _ & _ & E & ->)%filter_stage_Ok; [|done].
  unfold GetData.valid. rewrite lookup_delete_ne, lookup_insert_eq by done.
  by rewrite lookup_delete_eq.
Qed.

(** Each stage succeeds when its input is there and the library call
    returns a product with the expected digest. *)
Lemma download_stage_succeeds url f h msg fs z :
  fetch url = Ok z -> String.eqb h (sha256 z) = true ->
  download_stage url f h msg fs = Ok (<[f := z]> fs).
Proof.
  intros Hz Hh. unfold GetData.download_stage, download_file, verify, compute_sha256, read_file.
  rewrite Hz. cbn [res_bind]. rewrite lookup_insert_eq. cbn [res_bind]. by rewrite Hh.
Qed.

Lemma unzip_stage_succeeds fz fu h msg fs c u :
  fz <> fu -> fs !! fz = Some c -> gunzip c = Ok u -> String.eqb h (sha256 u) = true ->
  unzip_stage fz fu h msg fs = Ok (delete fz (<[fu := u]> fs)).
Proof.
  intros Hne Hc Hu Hh.
  unfold GetData.unzip_stage, unzip_file, verify, compute_sha256, read_file, remove, isfile.
  rewrite Hc. cbn [res_bind]. rewrite Hu. cbn [res_bind]. rewrite lookup_insert_eq. cbn [res_bind].
  by rewrite Hh, lookup_insert_ne, Hc.
Qed.

Lemma filter_stage_succeeds fu ff h msg fs c out :
  fu <> ff -> fs !! fu = Some c ->
  filter_lines json_loads weight_str (PyStr.lines_of c) = Ok out -> String.eqb h (sha256 out) = true ->
  filter_stage fu ff h msg fs = Ok (delete fu (<[ff := out]> fs)).
Proof.
  intros Hne Hc Ho Hh.
  unfold GetData.filter_stage, filter_conceptnet, verify, compute_sha256, read_file, remove, isfile.
  rewrite Hc. cbn [res_bind]. rewrite Ho. cbn [res_bind]. rewrite lookup_insert_eq. cbn [res_bind].
  by rewrite Hh, lookup_insert_ne, Hc.
Qed.

(** The stages raise [FileNotFoundError] only when an input is missing
    or a library call raises it. *)
Section NoFNF.
Hypothesis fetch_FNF : forall u, fetch u <> Raise FileNotFoundError.
Hypothesis gunzip_FNF : forall c, gunzip c <> Raise FileNotFoundError.
Hypothesis json_FNF : forall s, json_loads s <> Raise FileNotFoundError.
Hypothesis weight_FNF : forall j, weight_str j <> Raise FileNotFoundError.

Lemma py_index_not_FNF {A} (l : list A) i : py_index l i <> Raise FileNotFoundError.
Proof. unfold py_index. by case_match. Qed.

Lemma filter_line_not_FNF l : filter_line json_loads weight_str l <> Raise FileNotFoundError.
Proof.
  unfold filter_line.
  apply res_bind_not_Raise; [apply py_index_not_FNF|intros v2 _].
  apply res_bind_not_Raise; [|intros [] _; [|done]].
  - case_match; [|done]. apply res_bind_not_Raise; [apply py_index_not_FNF|done].
  - repeat (apply res_bind_not_Raise;
      [first [apply py_index_not_FNF|apply json_FNF|apply weight_FNF]|intros ? _]).
    done.
Qed.

Lemma download_stage_not_FNF url f h msg fs :
  download_stage url f h msg fs <> Raise FileNotFoundError.
Proof.
  unfold GetData.download_stage, download_file, verify, compute_sha256, read_file.
  destruct (fetch url) eqn:E; cbn [res_bind]; [|congruence].
  rewrite lookup_insert_eq. cbn [res_bind]. by case_match.
Qed.

Lemma unzip_stage_not_FNF fz fu h msg fs :
  fz <> fu -> is_Some (fs !! fz) -> unzip_stage fz fu h msg fs <> Raise FileNotFoundError.
Proof.
  intros Hne [c Ec].
  unfold GetData.unzip_stage, unzip_file, verify, compute_sha256, read_file, remove, isfile.
  rewrite Ec. cbn [res_bind]. destruct (gunzip c) eqn:E; cbn [res_bind]; [|congruence].
  rewrite lookup_insert_eq. cbn [res_bind]. case_match; [|done].
  by rewrite lookup_insert_ne, Ec.
Qed.

Lemma filter_stage_not_FNF fu ff h msg fs :
  fu <> ff -> is_Some (fs !! fu) -> filter_stage fu ff h msg fs <> Raise FileNotFoundError.
Proof.
  intros Hne [c Ec].
  unfold GetData.filter_stage, filter_conceptnet, verify, compute_sha256, read_file, remove, isfile.
  rewrite Ec. cbn [res_bind].
  destruct (filter_lines _ _ _) eqn:E; cbn [res_bind].
  - rewrite lookup_insert_eq. cbn [res_bind]. case_match; [|done].
    by rewrite lookup_insert_ne, Ec.
  - intros [= ->]. revert E. apply foldM_not_Raise. intros acc x _.
    apply res_bind_not_Raise; [apply filter_line_not_FNF|done].
Qed.

End NoFNF.

End Stages.

(** ** Every row [filter_conceptnet] writes is a row the loader reads *)

Section Format.
Context {Json : Type}.
Variable json_loads : string -> res Json.
Variable weight_str : Json -> res string.
Hypothesis weight_clean : forall j w, weight_str j = Ok w -> clean w.

Lemma split_clean c s : clean s -> Forall clean (PyStr.split_sep c s).
Proof.
  intros [Ht Hn]. apply Forall_and. split.
  - exact (proj2 (PyStr.split_sep_free c Graph.TAB s) Ht).
  - exact (proj2 (PyStr.split_sep_free c NL s) Hn).
Qed.

(** A field of a line, other than its last, is clean. *)
Lemma line_field_clean l i p :
  (exists x, PyStr.has_char NL x = false /\ (l = x \/ l = (x ++ String NL EmptyString)%string)) ->
  PyStr.split_sep Graph.TAB l !! i = Some p -> is_Some (PyStr.split_sep Graph.TAB l !! S i) -> clean p.
Proof.
  intros (x & Hx & Hl) Hi Hsi. split.
  - pose proof (proj1 (PyStr.split_sep_free Graph.TAB Graph.TAB l)) as Ht.
    rewrite Forall_lookup in Ht. by apply (Ht i).
  - pose proof (proj2 (PyStr.split_sep_free Graph.TAB NL x) Hx) as Hall.
    destruct Hl as [->| ->]; [rewrite Forall_lookup in Hall; by apply (Hall i)|].
    destruct (PyStr.split_sep_snoc Graph.TAB x (String NL EmptyString) eq_refl) as (ps & q & E1 & E2).
    rewrite E2 in Hi, Hsi. rewrite E1 in Hall. apply Forall_app in Hall as [Hps _].
    apply lookup_lt_is_Some in Hsi. rewrite length_app in Hsi. simpl in Hsi.
    rewrite lookup_app_l in Hi by lia. rewrite Forall_lookup in Hps. by apply (Hps i).
Qed.

Lemma filter_line_good l s :
  (exists x, PyStr.has_char NL x = false /\ (l = x \/ l = (x ++ String NL EmptyString)%string)) ->
  filter_line json_loads weight_str l = Ok s -> s = EmptyString \/ good_row s.
Proof.
  intros Hl. unfold filter_line.
  destruct (py_index _ 2) as [v2|] eqn:E2; cbn [res_bind]; [|done].
  destruct (startswith _ v2); cbn [res_bind]; [|intros [= <-]; by left].
  destruct (py_index _ 3) as [v3|] eqn:E3; cbn [res_bind]; [|done].
  destruct (startswith _ v3); cbn [res_bind]; [|intros [= <-]; by left].
  destruct (py_index _ 4) as [v4|] eqn:E4; cbn [res_bind]; [|done].
  destruct (json_loads v4) as [meta|]; cbn [res_bind]; [|done].
  destruct (py_index _ 1) as [v1|] eqn:E1; cbn [res_bind]; [|done].
  destruct (py_index (PyStr.split_sep SLASH v1) 2) as [rel|] eqn:Er; cbn [res_bind]; [|done].
  destruct (py_index (PyStr.split_sep SLASH v2) 3) as [src|] eqn:Es; cbn [res_bind]; [|done].
  cbn [res_bind].
  destruct (py_index (PyStr.split_sep SLASH v3) 3) as [dst|] eqn:Ed; cbn [res_bind]; [|done].
  destruct (weight_str meta) as [w|] eqn:Ew; cbn [res_bind]; [|done].
  intros [= <-]. right. exists rel, src, dst, w. split; [|done].
  apply py_index_Ok in E1, E2, E3, E4, Er, Es, Ed.
  assert (C1 : clean v1) by (eapply line_field_clean; eauto).
  assert (C2 : clean v2) by (eapply line_field_clean; eauto).
  assert (C3 : clean v3) by (eapply line_field_clean; eauto).
  pose proof (split_clean SLASH _ C1) as F1. pose proof (split_clean SLASH _ C2) as F2.
  pose proof (split_clean SLASH _ C3) as F3. rewrite Forall_lookup in F1, F2, F3.
  assert (clean rel) by eauto. assert (clean src) by eauto.
  assert (clean dst) by eauto. assert (clean w) by eauto.
  by repeat (apply List.Forall_cons; [done|]).
Qed.

Lemma good_row_line s :
  good_row s ->
  exists y, PyStr.has_char NL y = false /\ s = (y ++ String NL EmptyString)%string.
Proof.
  intros (rel & src & dst & w & Hc & ->). unfold render_row. rewrite !Forall_cons in Hc.
  destruct Hc as ([_ H1] & [_ H2] & [_ H3] & [_ H4] & _).
  exists (rel ++ String Graph.TAB (src ++ String Graph.TAB (dst ++ String Graph.TAB w)))%string.
  repeat (rewrite PyStr.has_char_app || rewrite PyStr.has_char_String).
  rewrite H1, H2, H3, H4. split; [done|].
  by rewrite !PyStr.append_String_assoc.
Qed.

Lemma render_row_fields rel src dst w :
  Forall clean [rel; src; dst; w] ->
  PyStr.split_sep Graph.TAB (render_row rel src dst w) =
  [rel; src; dst; (w ++ String NL EmptyString)%string].
Proof.
  intros Hc. rewrite !Forall_cons in Hc. destruct Hc as ([T1 _] & [T2 _] & [T3 _] & [T4 _] & _).
  apply (PyStr.split_sep_join Graph.TAB [rel; src; dst; (w ++ String NL EmptyString)%string]); [done|].
  repeat constructor; try done. by rewrite PyStr.has_char_app, T4.
Qed.

Lemma good_row_fields s :
  good_row s ->
  exists rel src dst w, PyStr.split_sep Graph.TAB s = [rel; src; dst; (w ++ String NL EmptyString)%string].
Proof.
  intros (rel & src & dst & w & Hc & ->). exists rel, src, dst, w. by apply render_row_fields.
Qed.

Lemma foldr_append_snoc (segs : list string) s :
  (foldr String.append EmptyString segs ++ s)%string = foldr String.append EmptyString (segs ++ [s]).
Proof.
  induction segs as [|seg segs IH]; simpl; [by rewrite PyStr.append_empty_r|].
  by rewrite PyStr.append_assoc, IH.
Qed.

(** Reading back rows written one after the other gives the rows. *)
Lemma lines_of_rows segs :
  Forall good_row segs -> PyStr.lines_of (foldr String.append EmptyString segs) = segs.
Proof.
  induction segs as [|seg segs IH]; intros Hs; [done|].
  apply Forall_cons in Hs as [(y & Hy & ->)%good_row_line Hs]. simpl.
  by rewrite PyStr.lines_of_line_app, IH.
Qed.

(** What the loop writes is a sequence of good rows. *)
Lemma filter_lines_rows lines out :
  (forall l, In l lines -> exists x, PyStr.has_char NL x = false /\
                                     (l = x \/ l = (x ++ String NL EmptyString)%string)) ->
  filter_lines json_loads weight_str lines = Ok out ->
  exists segs, out = foldr String.append EmptyString segs /\ Forall good_row segs.
Proof.
  intros Hl. apply (foldM_invariant
    (fun acc => exists segs, acc = foldr String.append EmptyString segs /\ Forall good_row segs));
    [|by exists []].
  intros acc x acc' Hin (segs & -> & Hsegs) (s & Hs & [= <-])%res_bind_Ok.
  destruct (filter_line_good x s (Hl x Hin) Hs) as [->|Hg].
  - exists segs. by rewrite PyStr.append_empty_r.
  - exists (segs ++ [s]). split; [apply foldr_append_snoc|]. apply Forall_app. auto.
Qed.

(** C20 (safety): if [str(meta['weight'])] holds no tab or newline, every
    line [filter_conceptnet] writes reads back, through [readline] and
    [line.split('\t')] in [__load_conceptnet], as exactly four fields, the
    last being the weight and the newline; so the loader raises no
    [IndexError] on it, and nothing but the [ValueError] of
    [float(elem[3])]. *)
Theorem filter_output_loads c out :
  filter_lines json_loads weight_str (PyStr.lines_of c) = Ok out ->
  forall l, In l (PyStr.lines_of out) ->
  (exists rel src dst w,
     PyStr.split_sep Graph.TAB l = [rel; src; dst; (w ++ String NL EmptyString)%string]) /\
  (forall (F E : Type) `{PyFloat F} (concepts : PyDict.t string E) rd
     (st : Graph.Bonds (F:=F)) e,
     Graph.load_line concepts rd st l = Raise e -> e = ValueError).
Proof.
  intros Hf l Hl.
  destruct (filter_lines_rows (PyStr.lines_of c) out (fun l' => PyStr.lines_of_shape c l') Hf)
    as (segs & -> & Hsegs).
  rewrite lines_of_rows in Hl by done.
  assert (Hg : good_row l) by (rewrite Forall_forall in Hsegs; apply Hsegs, list_elem_of_In, Hl).
  destruct (good_row_fields l Hg) as (rel & src & dst & w & Hs).
  split; [eauto|]. intros F E HF concepts rd st e He.
  eapply Graph.load_line_four_fields; [exact Hs|exact He].
Qed.

End Format.

(** ** Writing rows and reading them back *)

Section RoundTrip.
Context {F : Type} `{PyFloat F} {E : Type}.
Variable concepts : PyDict.t string E.

(** The loader reads a written row back as its fields, the weight parsed
    by [float()] with the newline [readline] keeps, when its relation is
    whitelisted and, under [remove_dangling], both endpoints have an
    embedding. *)
Lemma parse_line_render rd rel src dst w :
  Forall clean [rel; src; dst; w] ->
  Graph.parse_line concepts rd (render_row rel src dst w) =
  if Graph.mem rel Graph.valid_assertions &&
     (negb rd || (PyDict.contains src concepts && PyDict.contains dst concepts))
  then x <- Graph.parse_weight (w ++ String NL EmptyString)%string ;; Ok (Some (rel, src, dst, x))
  else Ok None.
Proof.
  intros Hc. unfold Graph.parse_line, Graph.accept_line.
  rewrite render_row_fields by done. simpl.
  by destruct (Graph.mem rel _), rd, (PyDict.contains src concepts), (PyDict.contains dst concepts).
Qed.

(** C29 (roundtrip): a relation file made of rows written by
    [filter_conceptnet], with clean fields and parseable weights, is read
    back by [__load_conceptnet], with or without [remove_dangling], as
    exactly the rows of whitelisted relations whose two endpoints have an
    embedding when [remove_dangling] is set, in order, with their weights. *)
Theorem written_rows_read_back rd (rows : list (string * string * string * string * F)) :
  Forall (fun '(rel, src, dst, w, x) =>
            Forall clean [rel; src; dst; w] /\
            Graph.parse_weight (w ++ String NL EmptyString)%string = Ok x) rows ->
  Graph.accepted_facts concepts rd
    (foldr String.append EmptyString (map (fun '(rel, src, dst, w, _) => render_row rel src dst w) rows)) =
  Ok (omap (fun '(rel, src, dst, w, x) =>
              if Graph.mem rel Graph.valid_assertions &&
                 (negb rd || (PyDict.contains src concepts && PyDict.contains dst concepts))
              then Some (rel, src, dst, x) else None) rows).
Proof.
  intros Hrows. unfold Graph.accepted_facts.
  rewrite lines_of_rows.
  2:{ apply Forall_fmap. eapply Forall_impl; [exact Hrows|].
      intros [[[[rel src] dst] w] x] [Hc _]. by exists rel, src, dst, w. }
  induction Hrows as [|[[[[rel src] dst] w] x] rows [Hc Hx] _ IH]; [done|].
  simpl. rewrite parse_line_render by done.
  destruct (Prelude.mapM _ _) as [ofs|]; simpl in IH |- *; [|done]. injection IH as IH.
  destruct (_ && _); simpl; rewrite ?Hx; simpl; [do 2 f_equal|f_equal]; exact IH.
Qed.

End RoundTrip.

(** ** [get_conceptnet] *)

Section Conceptnet.
Context {Json : Type}.
Variable sha256 : string -> string.
Variable fetch : string -> res string.
Variable gunzip : string -> res string.
Variable json_loads : string -> res Json.
Variable weight_str : Json -> res string.
Variables url zipped zipped_hash unzipped unzipped_hash filtered filtered_hash : string.

Local Abbreviation get := (get_conceptnet_with sha256 fetch gunzip json_loads weight_str
  url zipped zipped_hash unzipped unzipped_hash filtered filtered_hash).
Local Abbreviation resume := (resume_conceptnet sha256 fetch gunzip json_loads weight_str
  url zipped zipped_hash unzipped unzipped_hash filtered filtered_hash).
Local Abbreviation valid := (valid sha256).
Local Abbreviation ft := (filter_stage sha256 json_loads weight_str unzipped filtered
  filtered_hash "ConceptNet filtering failed!").

Lemma get_conceptnet_flags fs : get fs = resume fs.
Proof.
  unfold get_conceptnet_with, resume_conceptnet.
  repeat (rewrite stage_flag_valid; cbn [res_bind]).
  destruct (valid fs filtered filtered_hash), (valid fs unzipped unzipped_hash),
    (valid fs zipped zipped_hash); cbn [res_bind negb andb]; try done;
    by rewrite res_bind_ret.
Qed.

(** C18 (refinement): the three [flag_*] tests of [get_conceptnet] implement
    "resume after the latest valid product": nothing when the filtered
    file is valid, else filter a valid extracted file, else extract a valid
    archive and filter, else download, extract and filter. *)
Theorem get_conceptnet_resume fs : get fs = resume fs.
Proof. apply get_conceptnet_flags. Qed.

Section Distinct.
Hypothesis Hzu : zipped <> unzipped.
Hypothesis Huf : unzipped <> filtered.

(** On success, either nothing was to be done, or the filter stage ran last
    on a directory that differs from the initial one only at the archive
    and the extracted file. *)
Lemma get_conceptnet_cases fs fs' :
  get fs = Ok fs' ->
  (valid fs filtered filtered_hash = true /\ fs' = fs) \/
  exists fs1, ft fs1 = Ok fs' /\
              forall g, g <> zipped -> g <> unzipped -> fs1 !! g = fs !! g.
Proof.
  rewrite get_conceptnet_flags. unfold resume_conceptnet. cbv zeta. intros Hg.
  destruct (valid fs filtered filtered_hash); [injection Hg as <-; by left|right].
  destruct (valid fs unzipped unzipped_hash); [by exists fs|].
  destruct (valid fs zipped zipped_hash).
  - apply res_bind_Ok in Hg as (fs1 & H1 & H2). exists fs1. split; [done|].
    intros g Hg1 Hg2. by apply (unzip_stage_frame _ _ _ _ _ _ _ _ _ Hzu H1).
  - apply res_bind_Ok in Hg as (fs0 & H0 & (fs1 & H1 & H2)%res_bind_Ok).
    exists fs1. split; [done|].
    intros g Hg1 Hg2. rewrite (unzip_stage_frame _ _ _ _ _ _ _ _ _ Hzu H1) by done.
    by apply (download_stage_frame _ _ _ _ _ _ _ _ _ H0).
Qed.

Lemma get_conceptnet_success fs fs' :
  get fs = Ok fs' -> valid fs' filtered filtered_hash = true.
Proof.
  intros [[? ->]|(fs1 & H1 & _)]%get_conceptnet_cases; [done|].
  by apply (filter_stage_valid _ _ _ _ _ _ _ _ _ Huf H1).
Qed.

(** When [get_conceptnet] returns, the filtered relation
    file is present with its expected digest. *)
Theorem get_conceptnet_valid fs fs' :
  get fs = Ok fs' -> valid fs' filtered filtered_hash = true.
Proof. apply get_conceptnet_success. Qed.

(** C22 (safety): [get_conceptnet] changes no file but its three own. *)
Theorem get_conceptnet_frame fs fs' g :
  get fs = Ok fs' -> g <> zipped -> g <> unzipped -> g <> filtered -> fs' !! g = fs !! g.
Proof.
  intros [[_ ->]|(fs1 & H1 & Hfr)]%get_conceptnet_cases Hz Hu Hf; [done|].
  rewrite <- Hfr by done. by apply (filter_stage_frame _ _ _ _ _ _ _ _ _ _ Huf H1).
Qed.

(** C23 (invariant): a second run after a successful one does nothing: no
    download, no extraction, no filtering, no change. *)
Theorem get_conceptnet_idempotent fs fs' : get fs = Ok fs' -> get fs' = Ok fs'.
Proof.
  intros Hg. rewrite get_conceptnet_flags. unfold resume_conceptnet.
  by rewrite (get_conceptnet_success _ _ Hg).
Qed.

(** Each stage that runs deletes its input: after a run that had to
    filter, the extracted file is gone. *)
Lemma get_conceptnet_cleanup fs fs' :
  get fs = Ok fs' -> valid fs filtered filtered_hash = false -> fs' !! unzipped = None.
Proof.
  intros [[Hv _]|(fs1 & H1 & _)]%get_conceptnet_cases Hnv; [congruence|].
  by apply (filter_stage_valid _ _ _ _ _ _ _ _ _ Huf H1).
Qed.

(** C21 (error): [os.remove] and the reads never fail: [get_conceptnet]
    raises [FileNotFoundError] only if a library call does. *)
Theorem get_conceptnet_no_FNF fs :
  (forall u, fetch u <> Raise FileNotFoundError) ->
  (forall c, gunzip c <> Raise FileNotFoundError) ->
  (forall s, json_loads s <> Raise FileNotFoundError) ->
  (forall j, weight_str j <> Raise FileNotFoundError) ->
  get fs <> Raise FileNotFoundError.
Proof.
  intros Hf Hg Hj Hw. rewrite get_conceptnet_flags. unfold resume_conceptnet. cbv zeta.
  destruct (valid fs filtered filtered_hash) eqn:Ef; [done|].
  destruct (valid fs unzipped unzipped_hash) eqn:Eu;
    [apply filter_stage_not_FNF; eauto; by eapply valid_present|].
  destruct (valid fs zipped zipped_hash) eqn:Ez.
  - apply res_bind_not_Raise;
      [apply unzip_stage_not_FNF; eauto; by eapply valid_present|].
    intros fs1 H1. destruct (unzip_stage_valid _ _ _ _ _ _ _ _ Hzu H1) as [Hv _].
    apply filter_stage_not_FNF; eauto; by eapply valid_present.
  - apply res_bind_not_Raise; [by apply download_stage_not_FNF|].
    intros fs0 Hv0%download_stage_valid.
    apply res_bind_not_Raise;
      [apply unzip_stage_not_FNF; eauto; by eapply valid_present|].
    intros fs1 H1. destruct (unzip_stage_valid _ _ _ _ _ _ _ _ Hzu H1) as [Hv _].
    apply filter_stage_not_FNF; eauto; by eapply valid_present.
Qed.

(** An honest environment: the server sends an archive with the expected
    digest, every archive with that digest extracts to a file with the
    expected digest, and every such file filters to the expected output. *)
Section Honest.
Hypothesis fetch_ok :
  exists z, fetch url = Ok z /\ String.eqb zipped_hash (sha256 z) = true.
Hypothesis gunzip_ok : forall c, String.eqb zipped_hash (sha256 c) = true ->
  exists u, gunzip c = Ok u /\ String.eqb unzipped_hash (sha256 u) = true.
Hypothesis filter_ok : forall u, String.eqb unzipped_hash (sha256 u) = true ->
  exists out, filter_lines json_loads weight_str (PyStr.lines_of u) = Ok out /\
              String.eqb filtered_hash (sha256 out) = true.

Lemma filter_stage_from fs c :
  fs !! unzipped = Some c -> String.eqb unzipped_hash (sha256 c) = true -> exists fs', ft fs = Ok fs'.
Proof.
  intros Hc Hh. destruct (filter_ok c Hh) as (out & Ho & Hho).
  eexists. by apply (filter_stage_succeeds _ _ _ _ _ _ _ _ c out Huf Hc Ho Hho).
Qed.

Lemma unzip_then_filter_from fs c :
  fs !! zipped = Some c -> String.eqb zipped_hash (sha256 c) = true ->
  exists fs', (fs1 <- unzip_stage sha256 gunzip zipped unzipped unzipped_hash
                       "ConceptNet extraction failed!" fs ;; ft fs1) = Ok fs'.
Proof.
  intros Hc Hh. destruct (gunzip_ok c Hh) as (u & Hu & Hhu).
  rewrite (unzip_stage_succeeds _ _ _ _ _ _ _ c u Hzu Hc Hu Hhu). cbn [res_bind].
  apply (filter_stage_from _ u); [|done].
  by rewrite lookup_delete_ne, lookup_insert_eq by done.
Qed.

Lemma get_conceptnet_progress fs : exists fs', get fs = Ok fs'.
Proof.
  rewrite get_conceptnet_flags. unfold resume_conceptnet. cbv zeta.
  destruct (valid fs filtered filtered_hash); [eauto|].
  destruct (valid fs unzipped unzipped_hash) eqn:Eu;
    [apply valid_Some in Eu as (c & Hc & Hh); by apply (filter_stage_from _ c)|].
  destruct (valid fs zipped zipped_hash) eqn:Ez;
    [apply valid_Some in Ez as (c & Hc & Hh); by apply (unzip_then_filter_from _ c)|].
  destruct fetch_ok as (z & Hz & Hhz).
  rewrite (download_stage_succeeds _ _ _ _ _ _ _ z Hz Hhz). cbn [res_bind].
  apply (unzip_then_filter_from _ z); [by rewrite lookup_insert_eq|done].
Qed.

(** In an honest environment, [get_conceptnet] succeeds
    from every state of the working directory, whatever stale, corrupt or
    valid files it holds. *)
Theorem get_conceptnet_succeeds fs : exists fs', get fs = Ok fs'.
Proof. apply get_conceptnet_progress. Qed.

End Honest.

End Distinct.
End Conceptnet.

(** ** [get_numberbatch] *)

Section Numberbatch.
Context {Json : Type}.
Variable sha256 : string -> string.
Variable fetch : string -> res string.
Variable gunzip : string -> res string.
Variables url zipped zipped_hash unzipped unzipped_hash : string.

Local Abbreviation get := (get_numberbatch_with sha256 fetch gunzip
  url zipped zipped_hash unzipped unzipped_hash).
Local Abbreviation valid := (valid sha256).
Local Abbreviation uz := (unzip_stage sha256 gunzip zipped unzipped unzipped_hash
  "NumberBatch extraction failed!").

(** The two flags of [get_numberbatch] resume after the latest valid
    product, like those of [get_conceptnet]. *)
Lemma get_numberbatch_resume fs :
  get fs = resume_numberbatch sha256 fetch gunzip url zipped zipped_hash unzipped unzipped_hash fs.
Proof.
  unfold get_numberbatch_with, resume_numberbatch.
  repeat (rewrite stage_flag_valid; cbn [res_bind]).
  destruct (valid fs unzipped unzipped_hash), (valid fs zipped zipped_hash);
    cbn [res_bind negb andb]; try done; by rewrite res_bind_ret.
Qed.

Hypothesis Hzu : zipped <> unzipped.

Lemma get_numberbatch_cases fs fs' :
  get fs = Ok fs' ->
  (valid fs unzipped unzipped_hash = true /\ fs' = fs) \/
  exists fs1, uz fs1 = Ok fs' /\ forall g, g <> zipped -> fs1 !! g = fs !! g.
Proof.
  rewrite get_numberbatch_resume. unfold resume_numberbatch. cbv zeta. intros Hg.
  destruct (valid fs unzipped unzipped_hash); [injection Hg as <-; by left|right].
  destruct (valid fs zipped zipped_hash); [by exists fs|].
  apply res_bind_Ok in Hg as (fs1 & H1 & H2). exists fs1. split; [done|].
  intros g Hg. by apply (download_stage_frame _ _ _ _ _ _ _ _ _ H1).
Qed.

Lemma get_numberbatch_valid fs fs' :
  get fs = Ok fs' -> valid fs' unzipped unzipped_hash = true.
Proof.
  intros [[? ->]|(fs1 & H1 & _)]%get_numberbatch_cases; [done|].
  by apply (unzip_stage_valid _ _ _ _ _ _ _ _ Hzu H1).
Qed.

Lemma get_numberbatch_frame fs fs' g :
  get fs = Ok fs' -> g <> zipped -> g <> unzipped -> fs' !! g = fs !! g.
Proof.
  intros [[_ ->]|(fs1 & H1 & Hfr)]%get_numberbatch_cases Hz Hu; [done|].
  rewrite <- Hfr by done. by apply (unzip_stage_frame _ _ _ _ _ _ _ _ _ Hzu H1).
Qed.

Section Honest.
Hypothesis fetch_ok :
  exists z, fetch url = Ok z /\ String.eqb zipped_hash (sha256 z) = true.
Hypothesis gunzip_ok : forall c, String.eqb zipped_hash (sha256 c) = true ->
  exists u, gunzip c = Ok u /\ String.eqb unzipped_hash (sha256 u) = true.

Lemma unzip_from fs c :
  fs !! zipped = Some c -> String.eqb zipped_hash (sha256 c) = true -> exists fs', uz fs = Ok fs'.
Proof.
  intros Hc Hh. destruct (gunzip_ok c Hh) as (u & Hu & Hhu).
  eexists. by apply (unzip_stage_succeeds _ _ _ _ _ _ _ c u Hzu Hc Hu Hhu).
Qed.

(** In an honest environment [get_numberbatch] succeeds from every state
    of the directory. *)
Lemma get_numberbatch_progress fs : exists fs', get fs = Ok fs'.
Proof.
  rewrite get_numberbatch_resume. unfold resume_numberbatch. cbv zeta.
  destruct (valid fs unzipped unzipped_hash); [eauto|].
  destruct (valid fs zipped zipped_hash) eqn:Ez;
    [apply valid_Some in Ez as (c & Hc & Hh); by apply (unzip_from _ c)|].
  destruct fetch_ok as (z & Hz & Hhz).
  rewrite (download_stage_succeeds _ _ _ _ _ _ _ z Hz Hhz). cbn [res_bind].
  apply (unzip_from _ z); [by rewrite lookup_insert_eq|done].
Qed.

End Honest.

End Numberbatch.

(** ** The script *)

(** The names the script derives: [url.split('/')[-1]] and its [[:-3]]. *)
Lemma get_data_file_names :
  url_basename conceptnet_url = Ok "conceptnet-assertions-5.7.0.csv.gz" /\
  drop_last3 "conceptnet-assertions-5.7.0.csv.gz" = "conceptnet-assertions-5.7.0.csv" /\
  url_basename numberbatch_url = Ok "numberbatch-en-19.08.txt.gz" /\
  drop_last3 "numberbatch-en-19.08.txt.gz" = default_numberbatch_filename.
Proof. vm_compute. auto. Qed.

Ltac string_neq := apply (bool_decide_eq_true_1 _); vm_compute; reflexivity.

Section Main.
Context {Json : Type}.
Variable sha256 : string -> string.
Variable fetch : string -> res string.
Variable gunzip : string -> res string.
Variable json_loads : string -> res Json.
Variable weight_str : Json -> res string.

Lemma main_default_files fs fs' :
  main sha256 fetch gunzip json_loads weight_str fs = Ok fs' ->
  valid sha256 fs' default_conceptnet_filename conceptnet_filename_filtered_hash = true /\
  valid sha256 fs' default_numberbatch_filename numberbatch_filename_hash = true.
Proof.
  destruct get_data_file_names as (Hc & Hcu & Hn & Hnu).
  unfold main, get_conceptnet, get_numberbatch. rewrite Hc, Hn. cbn [res_bind].
  rewrite Hnu. intros (fs1 & H1 & H2)%res_bind_Ok. split.
  - unfold valid.
    rewrite (get_numberbatch_frame sha256 fetch gunzip numberbatch_url
      "numberbatch-en-19.08.txt.gz" numberbatch_filename_zipped_hash
      default_numberbatch_filename numberbatch_filename_hash ltac:(string_neq)
      fs1 fs' _ H2) by string_neq.
    exact (get_conceptnet_success sha256 fetch gunzip json_loads weight_str conceptnet_url
      "conceptnet-assertions-5.7.0.csv.gz" conceptnet_filename_zipped_hash
      (drop_last3 "conceptnet-assertions-5.7.0.csv.gz") conceptnet_filename_hash
      conceptnet_filename_filtered conceptnet_filename_filtered_hash
      ltac:(string_neq) ltac:(string_neq) fs fs1 H1).
  - exact (get_numberbatch_valid sha256 fetch gunzip numberbatch_url
      "numberbatch-en-19.08.txt.gz" numberbatch_filename_zipped_hash
      default_numberbatch_filename numberbatch_filename_hash ltac:(string_neq) fs1 fs' H2).
Qed.

(** C19 (functional): when the script ends normally, the two files that
    [ConceptNet()] opens by default (conceptnet.py line 11) are present
    with the digests the script expects. *)
Theorem main_provides_default_files fs fs' :
  main sha256 fetch gunzip json_loads weight_str fs = Ok fs' ->
  valid sha256 fs' default_conceptnet_filename conceptnet_filename_filtered_hash = true /\
  valid sha256 fs' default_numberbatch_filename numberbatch_filename_hash = true.
Proof. apply main_default_files. Qed.

(** C30 (liveness): when the two servers send archives with the expected
    digests and the libraries turn every file with an expected digest into
    one with the next expected digest, [get_data.py] runs to its end from
    every state of the working directory. *)
Theorem main_succeeds fs :
  (exists z, fetch conceptnet_url = Ok z /\
             String.eqb conceptnet_filename_zipped_hash (sha256 z) = true) ->
  (forall c, String.eqb conceptnet_filename_zipped_hash (sha256 c) = true ->
     exists u, gunzip c = Ok u /\ String.eqb conceptnet_filename_hash (sha256 u) = true) ->
  (forall u, String.eqb conceptnet_filename_hash (sha256 u) = true ->
     exists out, filter_lines json_loads weight_str (PyStr.lines_of u) = Ok out /\
                 String.eqb conceptnet_filename_filtered_hash (sha256 out) = true) ->
  (exists z, fetch numberbatch_url = Ok z /\
             String.eqb numberbatch_filename_zipped_hash (sha256 z) = true) ->
  (forall c, String.eqb numberbatch_filename_zipped_hash (sha256 c) = true ->
     exists u, gunzip c = Ok u /\ String.eqb numberbatch_filename_hash (sha256 u) = true) ->
  exists fs', main sha256 fetch gunzip json_loads weight_str fs = Ok fs'.
Proof.
  intros Hc1 Hc2 Hc3 Hn1 Hn2.
  destruct get_data_file_names as (Hc & _ & Hn & _).
  unfold main, get_conceptnet, get_numberbatch. rewrite Hc, Hn. cbn [res_bind].
  destruct (get_conceptnet_progress sha256 fetch gunzip json_loads weight_str conceptnet_url
    "conceptnet-assertions-5.7.0.csv.gz" conceptnet_filename_zipped_hash
    (drop_last3 "conceptnet-assertions-5.7.0.csv.gz") conceptnet_filename_hash
    conceptnet_filename_filtered conceptnet_filename_filtered_hash
    ltac:(string_neq) ltac:(string_neq) Hc1 Hc2 Hc3 fs) as [fs1 H1].
  rewrite H1. cbn [res_bind].
  exact (get_numberbatch_progress sha256 fetch gunzip numberbatch_url
    "numberbatch-en-19.08.txt.gz" numberbatch_filename_zipped_hash
    (drop_last3 "numberbatch-en-19.08.txt.gz") numberbatch_filename_hash
    ltac:(string_neq) Hn1 Hn2 fs1).
Qed.

End Main.

End GetData.
