(* ===== verification/Streams.v ===== *)
(** * Streams: the chunked I/O loops of [src/get_data.py]

    [GetData] models the three helpers of lines 17-36 by what they compute
    on a whole file: [compute_sha256] hashes the contents, [download_file]
    stores the body of the response, [unzip_file] stores the inflated
    archive. The code reaches these results through loops over chunks:

    - [compute_sha256] (lines 25-30) reads [f.read(8192)] until [b'']
      ([iter(callable, sentinel)]) and feeds each chunk to a [hashlib]
      object ([update]), then asks for [hexdigest()];
    - [download_file] (lines 17-22) opens the target with ['wb'], which
      truncates it, then writes each chunk of [r.iter_content(8192)];
    - [unzip_file] (lines 33-36) opens the target with ['wb'] and
      [shutil.copyfileobj] copies [f_in.read(COPY_BUFSIZE)] chunks of the
      inflated stream until [b''];
    - [filter_conceptnet] (lines 44-53) opens its output with ['w'] and
      writes one row per kept line of a [while line:] loop.

    This file models those loops as written: a read cursor [read_str]
    ([f.read(n)]), the chunk sequence [read_chunks] (the [iter] loop, by
    well-founded recursion on the unread length: the loop ends because
    every non-empty chunk shortens the rest), [hashlib]'s object as a type
    class [Hashlib] with the law of its documentation ("repeated calls are
    equivalent to a single call with the concatenation of all the
    arguments", [HashlibLaws]), and [open]/[write] on the working
    directory. The theorems show that the chunked helpers compute exactly
    the one-shot helpers of [GetData] on every input (refinement), so the
    pipeline's theorems hold of the code as written; on the way, the
    chunks of a file concatenate back to it (round trip) and their number
    and sizes are bounded. *)

From S2P Require Import Prelude PyStr PyDict PyFloat Graph GetData.
From stdpp Require Import gmap strings.
From Equations Require Import Equations.

Module Streams.
Local Open Scope list_scope.

(** ** Reading a binary file by chunks *)

(** [f.read(n)] on a file whose unread part is [s]: at most [n] bytes and
    the new unread part. *)
Fixpoint read_str (n : nat) (s : string) : string * string :=
  match n, s with
  | O, _ => (EmptyString, s)
  | _, EmptyString => (EmptyString, EmptyString)
  | S k, String c r => let '(a, b) := read_str k r in (String c a, b)
  end.

Lemma read_str_length n s :
  String.length (snd (read_str n s)) + String.length (fst (read_str n s)) = String.length s.
Proof.
  revert s. induction n as [|n IH]; intros [|c s]; simpl; [lia..|].
  specialize (IH s). destruct (read_str n s); simpl in *. lia.
Qed.

(** [iter(lambda: f.read(n), b'')]: the chunks the loop body receives, in
    order; the loop stops at the first empty read. *)
Equations read_chunks (n : nat) (s : string) : list string by wf (String.length s) lt :=
  read_chunks n s with Equations.Prop.Logic.inspect (read_str n s) := {
  | exist _ (EmptyString, _) _ := [];
  | exist _ (String c a, r) Heq := String c a :: read_chunks n r }.
Next Obligation.
  pose proof (read_str_length n s) as Hl. rewrite Heq in Hl. simpl in Hl. lia.
Qed.

(** [b''.join(chunks)]: the bytes of the chunks in order. *)
Definition str_concat (cs : list string) : string := foldr String.append EmptyString cs.

(** The chunk size of [compute_sha256] and [download_file] (lines 21, 28). *)
Definition CHUNK_SIZE : nat := 8 * 1024.

(** ** Lemmas on the cursor *)

Lemma read_str_app n s : (fst (read_str n s) ++ snd (read_str n s))%string = s.
Proof.
  revert s. induction n as [|n IH]; intros [|c s]; simpl; [done..|].
  specialize (IH s). destruct (read_str n s); simpl in *. by rewrite <- IH.
Qed.

Lemma read_str_fst_length n s : String.length (fst (read_str n s)) = Nat.min n (String.length s).
Proof.
  revert s. induction n as [|n IH]; intros [|c s]; simpl; [done..|].
  specialize (IH s). destruct (read_str n s); simpl in *. by rewrite IH.
Qed.

(** With [n > 0], an empty read means the end of the file. *)
Lemma read_str_empty n s r :
  0 < n -> read_str n s = (EmptyString, r) -> s = EmptyString /\ r = EmptyString.
Proof.
  intros Hn Hr. pose proof (read_str_fst_length n s) as Hl. pose proof (read_str_app n s) as Ha.
  rewrite Hr in Hl, Ha. simpl in Hl, Ha. destruct s; simpl in Hl; [|lia]. by subst.
Qed.

(** A non-empty read of a file of [len] bytes leaves [len - min n len]. *)
Lemma read_str_rest n s c a r :
  read_str n s = (String c a, r) ->
  String.length (String c a) = Nat.min n (String.length s) /\
  String.length r = String.length s - Nat.min n (String.length s).
Proof.
  intros Hr. pose proof (read_str_fst_length n s) as Hl. pose proof (read_str_length n s) as Hs.
  rewrite Hr in Hl, Hs. simpl in *. lia.
Qed.

(** ** The chunk loop *)

(** [f.read(0)] returns [b'']: a loop with chunk size 0 sees nothing. *)
Lemma read_chunks_zero s : read_chunks 0 s = [].
Proof. destruct s; simp read_chunks; reflexivity. Qed.

(** At the end of the file the loop stops at once. *)
Lemma read_chunks_empty n : read_chunks n EmptyString = [].
Proof. destruct n; simp read_chunks; reflexivity. Qed.

(** The chunks are consecutive pieces of the file, of 1 to [n] bytes. *)
Lemma read_chunks_spec n s :
  0 < n ->
  str_concat (read_chunks n s) = s /\
  Forall (fun c => 0 < String.length c <= n) (read_chunks n s).
Proof.
  funelim (read_chunks n s); intros Hn.
  - destruct (read_str_empty _ _ _ Hn e) as [-> _]. split; [done|constructor].
  - destruct (H Hn) as [Hc Hs]. split.
    + unfold str_concat in *. cbn. rewrite Hc. pose proof (read_str_app n s) as Ha. by rewrite Heq in Ha.
    + constructor; [|done]. destruct (read_str_rest _ _ _ _ _ Heq) as [Hl _]. simpl in *; lia.
Qed.

(** [ceil(len / n)] as the loop computes it: one chunk of [min n len]
    bytes, then the rest. *)
Lemma ceil_div_step n L :
  0 < n -> 0 < L -> (L + n - 1) / n = S ((L - Nat.min n L + n - 1) / n).
Proof.
  intros Hn HL. destruct (Nat.le_gt_cases n L).
  - rewrite Nat.min_l by lia. replace (L + n - 1) with ((L - n + n - 1) + 1 * n) by lia.
    rewrite Nat.div_add by lia. lia.
  - rewrite Nat.min_r by lia. replace (L + n - 1) with ((L - 1) + 1 * n) by lia.
    rewrite Nat.div_add by lia. rewrite !Nat.div_small by lia. done.
Qed.

(** The loop body runs [ceil(len / n)] times (and [f.read] is called once
    more, returning [b'']). *)
Lemma read_chunks_count n s :
  0 < n -> length (read_chunks n s) = (String.length s + n - 1) / n.
Proof.
  funelim (read_chunks n s); intros Hn.
  - destruct (read_str_empty _ _ _ Hn e) as [-> _]. simpl. rewrite Nat.div_small; lia.
  - simpl. rewrite (H Hn). destruct (read_str_rest _ _ _ _ _ Heq) as [Hl Hr]. simpl in Hl.
    rewrite Hr, (ceil_div_step n (String.length s)); [done|lia..].
Qed.

(** Every chunk but the last has exactly [n] bytes. *)
Lemma read_chunks_full n s :
  0 < n -> Forall (fun c => String.length c = n) (removelast (read_chunks n s)).
Proof.
  funelim (read_chunks n s); intros Hn; [constructor|].
  destruct (read_str_rest _ _ _ _ _ Heq) as [Hl Hr]. revert H Hr; simpl.
  destruct (read_chunks n r) as [|c' cs] eqn:Hcs; intros IH Hr; [constructor|].
  constructor; [|by apply IH].
  assert (r <> EmptyString) as Hne by (intros ->; by rewrite read_chunks_empty in Hcs).
  destruct r; [done|]. simpl in *. lia.
Qed.

(** ** [hashlib]'s hash object *)

(** What [compute_sha256] uses of a [hashlib.sha256()] object: a fresh
    state, [update(chunk)] and [hexdigest()]. The object is mutated in
    place by [update]; here each call returns the new state. *)
Class Hashlib (St : Type) := {
  hash_new : St;
  hash_update : St -> string -> St;
  hash_hexdigest : St -> string
}.

(** The contract of [update] in the [hashlib] documentation: repeated calls
    are equivalent to one call on the concatenation of their arguments. *)
Class HashlibLaws (St : Type) `{Hashlib St} := {
  hash_update_app h a b : hash_update (hash_update h a) b = hash_update h (a ++ b)%string;
  hash_update_empty h : hash_update h EmptyString = h
}.

(** [hashlib.sha256(c).hexdigest()]: the digest of a whole file, which
    [GetData] takes as its [sha256] parameter. *)
Definition hash_digest `{Hashlib St} (c : string) : string :=
  hash_hexdigest (hash_update hash_new c).

(** [compute_sha256(filename)] (lines 25-30) as written: open, feed every
    chunk of [f.read(8192)] to [update], then [hexdigest()]. *)
Definition compute_sha256_stream `{Hashlib St} (fs : GetData.FS) (filename : string) : res string :=
  c <- GetData.read_file fs filename ;;
  Ok (hash_hexdigest (fold_left hash_update (read_chunks CHUNK_SIZE c) hash_new)).

(** ** Writing a file by chunks *)

(** [open(f, 'wb')] / [open(f, 'w')]: create or truncate [f]. *)
Definition open_w (fs : GetData.FS) (f : string) : GetData.FS := <[f := EmptyString]> fs.

(** [f.write(s)] on a file opened for writing: append [s]. *)
Definition write (f : string) (fs : GetData.FS) (s : string) : GetData.FS :=
  <[f := (default EmptyString (fs !! f) ++ s)%string]> fs.

Section Helpers.
Context {Json : Type}.
Variable fetch : string -> res string.
Variable gunzip : string -> res string.
Variable json_loads : string -> res Json.
Variable weight_str : Json -> res string.

(** [download_file(url, filename)] (lines 17-22) as written: the response,
    [raise_for_status()], then [open(filename, 'wb')] and one [write] per
    chunk of [r.iter_content(chunk_size=8192)]. *)
Definition download_file_stream (url filename : string) (fs : GetData.FS) : res GetData.FS :=
  body <- fetch url ;;
  let fs := open_w fs filename in
  Ok (fold_left (write filename) (read_chunks CHUNK_SIZE body) fs).

(** [shutil.copyfileobj(f_in, f_out)] with its buffer size [bufsize]
    ([COPY_BUFSIZE], 64 KiB on POSIX): [while buf := f_in.read(bufsize):
    f_out.write(buf)]. *)
Definition copyfileobj (bufsize : nat) (src dst : string) (fs : GetData.FS) : GetData.FS :=
  fold_left (write dst) (read_chunks bufsize src) fs.

(** [unzip_file(file_zipped, file_unzipped)] (lines 33-36) as written:
    [gzip.open] the archive (a missing archive raises here), [open] the
    target with ['wb'], then copy the inflated stream. *)
Definition unzip_file_stream (bufsize : nat) (file_zipped file_unzipped : string)
    (fs : GetData.FS) : res GetData.FS :=
  c <- GetData.read_file fs file_zipped ;;
  let fs := open_w fs file_unzipped in
  u <- gunzip c ;;
  Ok (copyfileobj bufsize u file_unzipped fs).

(** [filter_conceptnet(file_all, file_filtered)] (lines 44-53) as written:
    [open(file_all, 'r')], [open(file_filtered, 'w')], then the
    [line = f_in.readline(); while line: ...] loop with one [f_out.write]
    per kept line (a skipped line is the empty row, and writing nothing
    leaves the file unchanged); [None] when [fuel] runs out. *)
Definition filter_conceptnet_stream (fuel : nat) (file_all file_filtered : string)
    (fs : GetData.FS) : option (res GetData.FS) :=
  match GetData.read_file fs file_all with
  | Raise e => Some (Raise e)
  | Ok c =>
      PyStr.while_lines fuel
        (fun fs line => row <- GetData.filter_line json_loads weight_str line ;;
                        Ok (write file_filtered fs row))
        (open_w fs file_filtered) c
  end.

End Helpers.

(** ** Lemmas: the loops compute the one-shot results *)

(** The round trip of the chunk loop, for any positive chunk size. *)
Lemma read_chunks_concat n s : 0 < n -> str_concat (read_chunks n s) = s.
Proof. intros Hn. exact (proj1 (read_chunks_spec n s Hn)). Qed.

Section Laws.
Context `{HashlibLaws St}.

(** Feeding the chunks one by one is feeding their concatenation. *)
Lemma fold_update h cs : fold_left hash_update cs h = hash_update h (str_concat cs).
Proof.
  revert h. induction cs as [|c cs IH]; intros h; simpl.
  - by rewrite hash_update_empty.
  - by rewrite IH, hash_update_app.
Qed.

End Laws.

(** Writing the chunks one by one after [x] leaves [x] and their
    concatenation. *)
Lemma writes_insert f x cs (fs : GetData.FS) :
  fold_left (write f) cs (<[f := x]> fs) = <[f := (x ++ str_concat cs)%string]> fs.
Proof.
  revert x. induction cs as [|c cs IH]; intros x; simpl.
  - by rewrite PyStr.append_empty_r.
  - unfold write at 2. rewrite lookup_insert_eq, insert_insert_eq. simpl.
    by rewrite IH, PyStr.append_assoc.
Qed.

(** A file opened for writing and fed the chunks of [s] holds [s]. *)
Lemma write_chunks f n s (fs : GetData.FS) :
  0 < n -> fold_left (write f) (read_chunks n s) (open_w fs f) = <[f := s]> fs.
Proof. intros Hn. unfold open_w. by rewrite writes_insert, read_chunks_concat. Qed.

(** The [while line:] loop writing each row to the open file is the
    accumulation of the rows followed by one store. *)
Lemma foldM_writes (g : string -> res string) f x (fs : GetData.FS) ls :
  foldM (fun fs l => row <- g l ;; Ok (write f fs row)) (<[f := x]> fs) ls =
  (o <- foldM (fun out l => row <- g l ;; Ok (out ++ row)%string) x ls ;; Ok (<[f := o]> fs)).
Proof.
  revert x. induction ls as [|l ls IH]; intros x; simpl; [done|].
  destruct (g l) as [row|e]; simpl; [|done].
  unfold write. rewrite lookup_insert_eq, insert_insert_eq. apply IH.
Qed.

(** Reading [n] bytes from [c ++ t] returns [c] when [c] fills the read or
    is the end of the file. *)
Lemma read_str_prefix n c t :
  String.length c <= n -> (String.length c = n \/ t = EmptyString) ->
  read_str n (c ++ t) = (c, t).
Proof.
  revert n. induction c as [|x c IH]; intros n Hle Hor; simpl in *.
  - destruct Hor as [<- | ->]; [done|]. by destruct n.
  - destruct n as [|n]; [lia|]. simpl. rewrite (IH n); [done|lia|]. destruct Hor; [left; lia|by right].
Qed.

(** Conversely, a list of chunks of that shape is the one the loop reads. *)
Lemma read_chunks_unique n s :
  0 < n -> forall cs, str_concat cs = s ->
  Forall (fun c => 0 < String.length c <= n) cs ->
  Forall (fun c => String.length c = n) (removelast cs) ->
  read_chunks n s = cs.
Proof.
  funelim (read_chunks n s); intros Hn cs Hcat Hsz Hfull.
  - destruct (read_str_empty _ _ _ Hn e) as [-> _].
    destruct cs as [|[|x c] cs]; [done| |]; inversion Hsz; simpl in *; [lia|done].
  - destruct cs as [|c' cs'].
    { simpl in Hcat. subst s. by destruct n. }
    change (str_concat (c' :: cs')) with (c' ++ str_concat cs')%string in Hcat.
    apply Forall_cons in Hsz as [Hc' Hsz'].
    assert (Hpre : read_str n (c' ++ str_concat cs') = (c', str_concat cs')).
    { apply read_str_prefix; [lia|]. destruct cs' as [|c'' cs'']; [by right|].
      left. by inversion Hfull. }
    rewrite Hcat, Heq in Hpre. injection Hpre as <- Hr. f_equal. apply H; [done|by rewrite Hr|done|].
    destruct cs' as [|c'' cs'']; [constructor|]. by inversion Hfull.
Qed.

(** ** Theorems *)

(** The chunks the loop [iter(lambda: f.read(n), b'')]
    hands to its body are the only split of the file into pieces of 1 to
    [n] bytes, all but the last of exactly [n] bytes, that concatenate back
    to the file. *)
Theorem read_chunks_characterization n s cs :
  0 < n ->
  read_chunks n s = cs <->
  str_concat cs = s /\ Forall (fun c => 0 < String.length c <= n) cs /\
  Forall (fun c => String.length c = n) (removelast cs).
Proof.
  intros Hn. split.
  - intros <-. destruct (read_chunks_spec n s Hn) as [Hc Hs]. split_and!; [done..|].
    by apply read_chunks_full.
  - intros (Hc & Hs & Hf). by apply read_chunks_unique.
Qed.

(** A file of [len] bytes is read in [ceil(len / n)] chunks,
    so [compute_sha256] calls [update] [ceil(len / 8192)] times and
    [f.read] once more. *)
Theorem read_chunks_number n s :
  0 < n -> length (read_chunks n s) = (String.length s + n - 1) / n.
Proof. apply read_chunks_count. Qed.

(** C27 (refinement): for any [hashlib] object whose [update] obeys its
    documented contract, [compute_sha256] as written (chunks of 8192 bytes
    fed to [update]) returns the digest of the whole file, the one-shot
    [GetData.compute_sha256], and raises [FileNotFoundError] on the same
    inputs. *)
Theorem compute_sha256_stream_refines `{HashlibLaws St} fs filename :
  compute_sha256_stream fs filename = GetData.compute_sha256 hash_digest fs filename.
Proof.
  unfold compute_sha256_stream, GetData.compute_sha256, hash_digest.
  destruct (GetData.read_file fs filename) as [c|e]; [|done]. cbn.
  by rewrite fold_update, read_chunks_concat by (unfold CHUNK_SIZE; lia).
Qed.

Section HelperTheorems.
Context {Json : Type}.
Variable fetch : string -> res string.
Variable gunzip : string -> res string.
Variable json_loads : string -> res Json.
Variable weight_str : Json -> res string.

(** [download_file] as written (truncate, then write each
    8192-byte chunk of the response) leaves exactly the body of the
    response in the target file and nothing else changed, and raises what
    the request raises: it is [GetData.download_file]. *)
Theorem download_file_stream_refines url filename fs :
  download_file_stream fetch url filename fs = GetData.download_file fetch url filename fs.
Proof.
  unfold download_file_stream, GetData.download_file.
  destruct (fetch url) as [body|e]; [|done]. cbn.
  by rewrite write_chunks by (unfold CHUNK_SIZE; lia).
Qed.

(** For any positive buffer size of
    [shutil.copyfileobj], [unzip_file] as written leaves exactly the
    inflated archive in the target, and raises when the archive is missing
    or does not inflate: it is [GetData.unzip_file]. *)
Theorem unzip_file_stream_refines bufsize file_zipped file_unzipped fs :
  0 < bufsize ->
  unzip_file_stream gunzip bufsize file_zipped file_unzipped fs =
  GetData.unzip_file gunzip file_zipped file_unzipped fs.
Proof.
  intros Hb. unfold unzip_file_stream, GetData.unzip_file, copyfileobj.
  destruct (GetData.read_file fs file_zipped) as [c|e]; [|done]. cbn.
  destruct (gunzip c) as [u|e]; [|done]. cbn. by rewrite write_chunks.
Qed.

(** C28 (termination, refinement): the [while line:] loop of
    [filter_conceptnet], reading [file_all] line by line and writing each
    kept row to the open [file_filtered], stops within one turn per byte of
    the file plus one, and leaves the same directory (or raises the same
    exception) as [GetData.filter_conceptnet]. *)
Theorem filter_conceptnet_stream_refines fuel file_all file_filtered fs :
  (forall c, fs !! file_all = Some c -> String.length c < fuel) ->
  filter_conceptnet_stream json_loads weight_str fuel file_all file_filtered fs =
  Some (GetData.filter_conceptnet json_loads weight_str file_all file_filtered fs).
Proof.
  intros Hf. unfold filter_conceptnet_stream, GetData.filter_conceptnet, GetData.read_file.
  destruct (fs !! file_all) as [c|] eqn:Hc; [|done]. cbn.
  rewrite PyStr.while_lines_enough by (by apply Hf). unfold open_w. by rewrite foldM_writes.
Qed.

End HelperTheorems.

End Streams.
