(* ===== verification/Interrupt.v ===== *)
(** * Interrupt: the directory a stopped run of [get_data.py] leaves behind

    [GetData] models a run of the script as a function from the working
    directory to a result: a final directory, or an exception. That is
    enough for a run that ends, but the script is meant to be re-run after
    a run that did not: a [sys.exit] on a bad digest, an exception of a
    library, a [KeyboardInterrupt] or a killed process. What such a run
    leaves on disk is the point of the [flag_*] tests and of the order
    "write, verify, then [os.remove] the previous product" of every stage
    (lines 88-117, 151-167).

    This file models a run as the sequence of file-system effects it
    performs ([effect]: [open(f, 'w'/'wb')], [f.write(s)], [os.remove(f)]),
    with the reads done on the directory as those effects left it: a
    state-and-error monad that logs its effects ([M], notation [x <-! m ;
    k] in [io_scope]). The helpers are written as in the source, with the
    chunked writes of [Streams]: [download_file] opens its target after
    [raise_for_status()] and writes each chunk, [unzip_file] opens its
    target before inflating, [filter_conceptnet] opens its output and
    writes one row per line. [interrupted fs es s] (an inductive relation)
    says that a run performing [es] from [fs] can be stopped in state [s]:
    before any effect, after any of them, or inside an [f.write] with any
    contents in [f].

    Theorems: forgetting the log gives back the [GetData] model
    ([get_conceptnet_m_refines], [main_m_refines]), so every theorem of [GetData]
    holds of this one; and stopping a run anywhere never loses a validated
    product: the latest valid product of the directory ([cn_level],
    [nb_level]) is at least what it was when the run started
    ([get_conceptnet_interrupt_safe], [main_interrupt_safe]). *)

From S2P Require Import Prelude PyStr PyDict PyFloat Graph GetData Streams.
From stdpp Require Import gmap strings.

Module Interrupt.
Local Open Scope list_scope.

(** ** Effects on the working directory *)

Inductive effect :=
| Open (f : string)       (** [open(f, 'w')] or [open(f, 'wb')]: create or truncate *)
| Write (f s : string)    (** [f.write(s)] on the open file [f] *)
| Remove (f : string).    (** [os.remove(f)] *)

Definition apply_effect (fs : GetData.FS) (e : effect) : GetData.FS :=
  match e with
  | Open f => Streams.open_w fs f
  | Write f s => Streams.write f fs s
  | Remove f => delete f fs
  end.

Definition apply_effects (fs : GetData.FS) (es : list effect) : GetData.FS :=
  fold_left apply_effect es fs.

(** ** The monad: read the directory, log effects, raise *)

Definition M (A : Type) : Type := GetData.FS -> list effect * res A.

Definition ret {A} (a : A) : M A := fun _ => ([], Ok a).

Definition bind {A B} (m : M A) (k : A -> M B) : M B := fun fs =>
  match m fs with
  | (es, Ok a) => let '(es', r) := k a (apply_effects fs es) in (es ++ es', r)
  | (es, Raise e) => (es, Raise e)
  end.

Declare Scope io_scope.
Delimit Scope io_scope with io.
Notation "x <-! m ; k" := (bind m (fun x => k))
  (at level 60, m at next level, right associativity) : io_scope.
Local Open Scope io_scope.

(** A computation of [res] that neither reads nor writes. *)
Definition lift {A} (r : res A) : M A := fun _ => ([], r).

(** The directory as the effects so far left it. *)
Definition get_fs : M GetData.FS := fun fs => ([], Ok fs).

Definition emit (es : list effect) : M unit := fun _ => (es, Ok tt).

(** The result and final directory of a run, forgetting its effects. *)
Definition exec {A} (m : M A) (fs : GetData.FS) : res (A * GetData.FS) :=
  let '(es, r) := m fs in a <- r ;; Ok (a, apply_effects fs es).

(** ** Where a run can be stopped *)

(** [interrupted fs es s]: a run that performs [es] from [fs] can stop with
    the directory [s]: before its next effect, inside an [f.write] (the
    file then holds any contents: a prefix of what was written, or
    whatever the buffers flushed), or later. *)
Inductive interrupted : GetData.FS -> list effect -> GetData.FS -> Prop :=
| int_now fs es : interrupted fs es fs
| int_inside_write fs f s es p : interrupted fs (Write f s :: es) (<[f := p]> fs)
| int_later fs e es s : interrupted (apply_effect fs e) es s -> interrupted fs (e :: es) s.

(** [P] holds at every state where the run can be stopped. *)
Fixpoint all_states (P : GetData.FS -> Prop) (fs : GetData.FS) (es : list effect) : Prop :=
  match es with
  | [] => P fs
  | e :: es' =>
      P fs /\
      (match e with Write f _ => forall p, P (<[f := p]> fs) | _ => True end) /\
      all_states P (apply_effect fs e) es'
  end.

(** ** Lemmas on the monad *)

Lemma apply_effects_app fs es1 es2 :
  apply_effects fs (es1 ++ es2) = apply_effects (apply_effects fs es1) es2.
Proof. apply fold_left_app. Qed.

Lemma exec_bind {A B} (m : M A) (k : A -> M B) fs :
  exec (bind m k) fs = (p <- exec m fs ;; exec (k p.1) p.2).
Proof.
  unfold exec, bind. destruct (m fs) as [es [a|e]]; cbn; [|done].
  destruct (k a (apply_effects fs es)) as [es' [b|e]]; cbn; [|done].
  by rewrite apply_effects_app.
Qed.

Lemma exec_lift {A} (r : res A) fs : exec (lift r) fs = (a <- r ;; Ok (a, fs)).
Proof. done. Qed.

Lemma exec_get_fs fs : exec get_fs fs = Ok (fs, fs).
Proof. done. Qed.

Lemma exec_emit es fs : exec (emit es) fs = Ok (tt, apply_effects fs es).
Proof. done. Qed.

Create HintDb interrupt discriminated.
Create Rewrite HintDb interrupt.
#[export] Hint Rewrite @exec_bind @exec_lift exec_get_fs exec_emit : interrupt.

(** Push [exec] through the monad and compute the binds of [res]. *)
Ltac exec_simpl := repeat progress (autorewrite with interrupt; cbn [res_bind fst snd]).

(** ** Lemmas on the stopping points *)

Lemma all_states_now P fs es : all_states P fs es -> P fs.
Proof. destruct es; simpl; tauto. Qed.

Lemma all_states_interrupted P fs es s :
  all_states P fs es -> interrupted fs es s -> P s.
Proof.
  intros Ha Hi. induction Hi as [fs es|fs f s es p|fs e es s Hi IH].
  - by eapply all_states_now.
  - by destruct Ha as (_ & Hw & _).
  - apply IH. by destruct Ha as (_ & _ & Ha).
Qed.

(** A run can stop after any number of its effects. *)
Lemma interrupted_prefix fs es k : interrupted fs es (apply_effects fs (firstn k es)).
Proof.
  revert fs k. induction es as [|e es IH]; intros fs [|k]; simpl; try apply int_now.
  apply int_later. apply IH.
Qed.

Lemma all_states_app P fs es1 es2 :
  all_states P fs (es1 ++ es2) <->
  all_states P fs es1 /\ all_states P (apply_effects fs es1) es2.
Proof.
  revert fs. induction es1 as [|e es1 IH]; intros fs; simpl.
  - split; [|tauto]. intros Ha. split; [|done]. by eapply all_states_now.
  - rewrite IH. tauto.
Qed.

(** ** The script as a sequence of effects *)

Section Script.
Context {Json : Type}.
Variable sha256 : string -> string.
Variable fetch : string -> res string.
Variable gunzip : string -> res string.
Variable json_loads : string -> res Json.
Variable weight_str : Json -> res string.
(** [shutil.COPY_BUFSIZE], the chunk size of [copyfileobj]. *)
Variable bufsize : nat.

(** [download_file(url, f)] (lines 17-22): the request and
    [raise_for_status()] come first, then [open(f, 'wb')] and one write per
    chunk of [r.iter_content(8192)]. *)
Definition download_file_m (url f : string) : M unit :=
  body <-! lift (fetch url) ;
  emit (Open f :: map (Write f) (Streams.read_chunks Streams.CHUNK_SIZE body)).

(** [if h != compute_sha256(f): sys.exit(msg)], on the directory as it is. *)
Definition verify_m (f h msg : string) : M unit :=
  fs <-! get_fs ; lift (GetData.verify sha256 fs f h msg).

(** [os.remove(f)] *)
Definition remove_m (f : string) : M unit :=
  fs <-! get_fs ;
  if GetData.isfile fs f then emit [Remove f] else lift (Raise FileNotFoundError).

(** [unzip_file(fz, fu)] (lines 33-36): [gzip.open(fz)] (a missing archive
    raises), [open(fu, 'wb')], then inflate and copy by [bufsize] chunks; a
    corrupt archive raises after [fu] was truncated. *)
Definition unzip_file_m (fz fu : string) : M unit :=
  fs <-! get_fs ;
  c <-! lift (GetData.read_file fs fz) ;
  _ <-! emit [Open fu] ;
  u <-! lift (gunzip c) ;
  emit (map (Write fu) (Streams.read_chunks bufsize u)).

(** The [while line:] loop of [filter_conceptnet] (lines 47-53): one row
    written per line (the empty row for a skipped line), up to the first
    line that raises; the rows before it stay in the file. *)
Fixpoint filter_rows_m (ff : string) (lines : list string) : M unit :=
  match lines with
  | [] => ret tt
  | line :: lines' =>
      row <-! lift (GetData.filter_line json_loads weight_str line) ;
      _ <-! emit [Write ff row] ;
      filter_rows_m ff lines'
  end.

(** [filter_conceptnet(fa, ff)] (lines 44-53). *)
Definition filter_conceptnet_m (fa ff : string) : M unit :=
  fs <-! get_fs ;
  c <-! lift (GetData.read_file fs fa) ;
  _ <-! emit [Open ff] ;
  filter_rows_m ff (PyStr.lines_of c).

(** A [flag_*] test (lines 69-85, 138-148): reads only. *)
Definition stage_flag_m (f h : string) (guard : bool) : M bool :=
  fs <-! get_fs ; lift (GetData.stage_flag sha256 fs f h guard).

(** The stages: write, verify, then remove the previous product. *)
Definition download_stage_m (url f h msg : string) : M unit :=
  _ <-! download_file_m url f ; verify_m f h msg.

Definition unzip_stage_m (fz fu h msg : string) : M unit :=
  _ <-! unzip_file_m fz fu ; _ <-! verify_m fu h msg ; remove_m fz.

Definition filter_stage_m (fu ff h msg : string) : M unit :=
  _ <-! filter_conceptnet_m fu ff ; _ <-! verify_m ff h msg ; remove_m fu.

(** [get_conceptnet()] (lines 66-119). *)
Definition get_conceptnet_m (url zipped zipped_hash unzipped unzipped_hash
    filtered filtered_hash : string) : M unit :=
  flag_filter <-! stage_flag_m filtered filtered_hash true ;
  flag_unzip <-! stage_flag_m unzipped unzipped_hash flag_filter ;
  flag_download <-! stage_flag_m zipped zipped_hash (flag_filter && flag_unzip) ;
  _ <-! (if flag_download && flag_unzip && flag_filter
         then download_stage_m url zipped zipped_hash "ConceptNet download failed!"
         else ret tt) ;
  _ <-! (if flag_unzip && flag_filter
         then unzip_stage_m zipped unzipped unzipped_hash "ConceptNet extraction failed!"
         else ret tt) ;
  if flag_filter
  then filter_stage_m unzipped filtered filtered_hash "ConceptNet filtering failed!"
  else ret tt.

(** [get_numberbatch()] (lines 135-171). *)
Definition get_numberbatch_m (url zipped zipped_hash unzipped unzipped_hash : string) : M unit :=
  flag_unzip <-! stage_flag_m unzipped unzipped_hash true ;
  flag_download <-! stage_flag_m zipped zipped_hash flag_unzip ;
  _ <-! (if flag_download && flag_unzip
         then download_stage_m url zipped zipped_hash "NumberBatch download failed!"
         else ret tt) ;
  if flag_unzip
  then unzip_stage_m zipped unzipped unzipped_hash "NumberBatch extraction failed!"
  else ret tt.

(** The script (lines 177-179), on the names of lines 55-64 and 127-133. *)
Definition main_m : M unit :=
  zipped <-! lift (GetData.url_basename GetData.conceptnet_url) ;
  _ <-! get_conceptnet_m GetData.conceptnet_url zipped GetData.conceptnet_filename_zipped_hash
          (GetData.drop_last3 zipped) GetData.conceptnet_filename_hash
          GetData.conceptnet_filename_filtered GetData.conceptnet_filename_filtered_hash ;
  zipped <-! lift (GetData.url_basename GetData.numberbatch_url) ;
  get_numberbatch_m GetData.numberbatch_url zipped GetData.numberbatch_filename_zipped_hash
    (GetData.drop_last3 zipped) GetData.numberbatch_filename_hash.

End Script.

(** ** Forgetting the effects gives the [GetData] model *)

Lemma apply_effects_writes f cs fs :
  apply_effects fs (map (Write f) cs) = fold_left (Streams.write f) cs fs.
Proof. revert fs. induction cs as [|c cs IH]; intros fs; [done|]. apply IH. Qed.

(** A file opened and written chunk by chunk holds the whole contents. *)
Lemma apply_open_chunks f n s fs :
  0 < n -> apply_effects fs (Open f :: map (Write f) (Streams.read_chunks n s)) = <[f := s]> fs.
Proof.
  intros Hn. change (apply_effects (Streams.open_w fs f) (map (Write f) (Streams.read_chunks n s)) = <[f := s]> fs).
  rewrite apply_effects_writes. by apply Streams.write_chunks.
Qed.

Lemma CHUNK_SIZE_pos : 0 < Streams.CHUNK_SIZE.
Proof. unfold Streams.CHUNK_SIZE. lia. Qed.

(** [m] performs [f]: same exception, or same final directory. *)
Definition refines (m : M unit) (f : GetData.FS -> res GetData.FS) : Prop :=
  forall fs, exec m fs = (fs' <- f fs ;; Ok (tt, fs')).

Lemma refines_ret : refines (ret tt) Ok.
Proof. done. Qed.

Lemma refines_seq m1 m2 f1 f2 :
  refines m1 f1 -> refines m2 f2 -> refines (_ <-! m1 ; m2) (fun fs => fs' <- f1 fs ;; f2 fs').
Proof. intros H1 H2 fs. rewrite exec_bind, H1. destruct (f1 fs); [apply H2|done]. Qed.

Lemma refines_if (b : bool) m1 m2 f1 f2 :
  refines m1 f1 -> refines m2 f2 ->
  refines (if b then m1 else m2) (fun fs => if b then f1 fs else f2 fs).
Proof. by destruct b. Qed.

#[export] Hint Resolve refines_ret refines_seq refines_if : interrupt.

Section Refines.
Context {Json : Type}.
Variable sha256 : string -> string.
Variable fetch : string -> res string.
Variable gunzip : string -> res string.
Variable json_loads : string -> res Json.
Variable weight_str : Json -> res string.
Variable bufsize : nat.
Hypothesis Hbuf : 0 < bufsize.

Lemma verify_m_exec f h msg fs :
  exec (verify_m sha256 f h msg) fs = (u <- GetData.verify sha256 fs f h msg ;; Ok (u, fs)).
Proof. done. Qed.

Lemma remove_m_exec f fs :
  exec (remove_m f) fs = (fs' <- GetData.remove fs f ;; Ok (tt, fs')).
Proof. unfold remove_m, GetData.remove. exec_simpl. by destruct (GetData.isfile fs f). Qed.

Lemma download_stage_m_exec url f h msg :
  refines (download_stage_m sha256 fetch url f h msg) (GetData.download_stage sha256 fetch url f h msg).
Proof.
  intros fs.
  unfold download_stage_m, download_file_m, GetData.download_stage, GetData.download_file.
  exec_simpl. destruct (fetch url) as [body|e]; exec_simpl; [|done].
  rewrite (apply_open_chunks _ _ _ _ CHUNK_SIZE_pos), verify_m_exec.
  by destruct (GetData.verify sha256 _ f h msg) as [[]|].
Qed.

Lemma unzip_stage_m_exec fz fu h msg :
  refines (unzip_stage_m sha256 gunzip bufsize fz fu h msg) (GetData.unzip_stage sha256 gunzip fz fu h msg).
Proof.
  intros fs.
  unfold unzip_stage_m, unzip_file_m, GetData.unzip_stage, GetData.unzip_file.
  exec_simpl. destruct (GetData.read_file fs fz) as [c|e]; exec_simpl; [|done].
  destruct (gunzip c) as [u|e]; exec_simpl; [|done].
  rewrite <- apply_effects_app. cbn [app]. rewrite (apply_open_chunks _ _ _ _ Hbuf), verify_m_exec.
  destruct (GetData.verify sha256 _ fu h msg); exec_simpl; [|done]. apply remove_m_exec.
Qed.

(** The row loop writing into the open file accumulates the rows. *)
Lemma filter_rows_m_exec ff lines x fs :
  exec (filter_rows_m json_loads weight_str ff lines) (<[ff := x]> fs) =
  (o <- foldM (fun out l => row <- GetData.filter_line json_loads weight_str l ;;
                            Ok (out ++ row)%string) x lines ;;
   Ok (tt, <[ff := o]> fs)).
Proof.
  revert x. induction lines as [|l lines IH]; intros x; [done|]. cbn [filter_rows_m foldM].
  exec_simpl. destruct (GetData.filter_line json_loads weight_str l) as [row|e]; exec_simpl; [|done].
  cbn [apply_effects fold_left apply_effect]. unfold Streams.write. rewrite lookup_insert_eq, insert_insert_eq. apply IH.
Qed.

Lemma filter_stage_m_exec fu ff h msg :
  refines (filter_stage_m sha256 json_loads weight_str fu ff h msg) (GetData.filter_stage sha256 json_loads weight_str fu ff h msg).
Proof.
  intros fs.
  unfold filter_stage_m, filter_conceptnet_m, GetData.filter_stage, GetData.filter_conceptnet.
  exec_simpl. destruct (GetData.read_file fs fu) as [c|e]; exec_simpl; [|done].
  cbn [apply_effects fold_left apply_effect]. unfold Streams.open_w. rewrite filter_rows_m_exec. unfold GetData.filter_lines.
  destruct (foldM _ _ _) as [out|e]; exec_simpl; [|done]. rewrite verify_m_exec.
  destruct (GetData.verify sha256 _ ff h msg); exec_simpl; [|done]. apply remove_m_exec.
Qed.

Hint Resolve download_stage_m_exec unzip_stage_m_exec filter_stage_m_exec : interrupt.

Lemma get_conceptnet_m_refines url zipped zipped_hash unzipped unzipped_hash filtered filtered_hash :
  refines (get_conceptnet_m sha256 fetch gunzip json_loads weight_str bufsize
             url zipped zipped_hash unzipped unzipped_hash filtered filtered_hash)
          (GetData.get_conceptnet_with sha256 fetch gunzip json_loads weight_str
             url zipped zipped_hash unzipped unzipped_hash filtered filtered_hash).
Proof.
  intros fs. unfold get_conceptnet_m, stage_flag_m, GetData.get_conceptnet_with. exec_simpl.
  destruct (GetData.stage_flag sha256 fs filtered _ _) as [ff|e]; exec_simpl; [|done].
  destruct (GetData.stage_flag sha256 fs unzipped _ _) as [fu|e]; exec_simpl; [|done].
  destruct (GetData.stage_flag sha256 fs zipped _ _) as [fd|e]; cbn [res_bind fst snd]; [|done].
  revert fs. apply refines_seq; eauto 10 with interrupt.
Qed.

Lemma get_numberbatch_m_refines url zipped zipped_hash unzipped unzipped_hash :
  refines (get_numberbatch_m sha256 fetch gunzip bufsize url zipped zipped_hash unzipped unzipped_hash)
          (GetData.get_numberbatch_with sha256 fetch gunzip url zipped zipped_hash unzipped unzipped_hash).
Proof.
  intros fs. unfold get_numberbatch_m, stage_flag_m, GetData.get_numberbatch_with. exec_simpl.
  destruct (GetData.stage_flag sha256 fs unzipped _ _) as [fu|e]; exec_simpl; [|done].
  destruct (GetData.stage_flag sha256 fs zipped _ _) as [fd|e]; cbn [res_bind fst snd]; [|done].
  revert fs. apply refines_seq; eauto with interrupt.
Qed.

(** C26 (refinement): the script as a sequence of effects, with the chunked
    writes of its helpers, ends exactly as the [GetData] model of
    [get_data.py] says: the same exception, or the same final directory.
    So every theorem about [GetData.main] holds of the effect model, and
    the effect model adds only what happens between the effects. *)
Theorem main_m_refines :
  refines (main_m sha256 fetch gunzip json_loads weight_str bufsize)
          (GetData.main sha256 fetch gunzip json_loads weight_str).
Proof.
  intros fs. unfold main_m, GetData.main, GetData.get_conceptnet, GetData.get_numberbatch. exec_simpl.
  destruct (GetData.url_basename GetData.conceptnet_url) as [z|e]; exec_simpl; [|done].
  rewrite get_conceptnet_m_refines.
  destruct (GetData.get_conceptnet_with _ _ _ _ _ _ _ _ _ _ _ _ fs) as [fs1|e]; exec_simpl; [|done].
  destruct (GetData.url_basename GetData.numberbatch_url) as [z'|e]; exec_simpl; [|done].
  apply get_numberbatch_m_refines.
Qed.

End Refines.

(** ** Which files a run touches *)

Definition effect_file (e : effect) : string :=
  match e with Open f | Write f _ | Remove f => f end.

(** Every effect of [m], from any directory, is on a file of [S]. *)
Definition touches (S : string -> Prop) {A} (m : M A) : Prop :=
  forall fs, Forall (fun e => S (effect_file e)) (m fs).1.

Lemma touches_ret S {A} (a : A) : touches S (ret a).
Proof. intros fs. constructor. Qed.

Lemma touches_lift S {A} (r : res A) : touches S (lift r).
Proof. intros fs. constructor. Qed.

Lemma touches_get_fs S : touches S get_fs.
Proof. intros fs. constructor. Qed.

Lemma touches_emit (S : string -> Prop) es : Forall (fun e => S (effect_file e)) es -> touches S (emit es).
Proof. by intros Hes fs. Qed.

Lemma touches_bind S {A B} (m : M A) (k : A -> M B) :
  touches S m -> (forall a, touches S (k a)) -> touches S (bind m k).
Proof.
  intros Hm Hk fs. specialize (Hm fs). unfold bind.
  destruct (m fs) as [es [a|e]]; simpl in *; [|done].
  specialize (Hk a (apply_effects fs es)). destruct (k a _) as [es' r]. simpl in *.
  by apply Forall_app.
Qed.

Lemma touches_if S {A} (b : bool) (m1 m2 : M A) : touches S m1 -> touches S m2 -> touches S (if b then m1 else m2).
Proof. by destruct b. Qed.

Lemma touches_writes (S : string -> Prop) f cs : S f -> Forall (fun e => S (effect_file e)) (map (Write f) cs).
Proof. intros Hf. apply Forall_forall. intros e (c & -> & _)%list_elem_of_fmap. exact Hf. Qed.

#[export] Hint Resolve touches_ret touches_lift touches_get_fs touches_bind touches_if : interrupt.

(** ** Predicates at every stopping point *)

Lemma all_states_impl (P Q : GetData.FS -> Prop) fs es :
  (forall s, Q s -> P s) -> all_states Q fs es -> all_states P fs es.
Proof.
  intros HQP. revert fs. induction es as [|[] es IH]; intros fs; simpl; [auto|naive_solver..].
Qed.

Lemma all_states_and (P Q : GetData.FS -> Prop) fs es :
  all_states P fs es -> all_states Q fs es -> all_states (fun s => P s /\ Q s) fs es.
Proof. revert fs. induction es as [|[] es IH]; intros fs; simpl; naive_solver. Qed.

Lemma all_states_bind {A B} P (m : M A) (k : A -> M B) fs :
  all_states P fs (m fs).1 ->
  (forall a fs1, exec m fs = Ok (a, fs1) -> all_states P fs1 (k a fs1).1) ->
  all_states P fs (bind m k fs).1.
Proof.
  unfold bind, exec. intros H1 H2. destruct (m fs) as [es [a|e]]; simpl in *; [|done].
  specialize (H2 a _ eq_refl). destruct (k a (apply_effects fs es)) as [es' r]. simpl in *.
  apply all_states_app. by split.
Qed.

(** A predicate that no write or removal of a file of [S] can break holds
    at every stopping point of a run that touches only [S]. *)
Lemma all_states_frame (S : string -> Prop) (Q : GetData.FS -> Prop) {A} (m : M A) fs :
  touches S m ->
  (forall s g p, S g -> Q s -> Q (<[g := p]> s) /\ Q (delete g s)) ->
  Q fs -> all_states Q fs (m fs).1.
Proof.
  intros Ht HQ Hq. specialize (Ht fs). remember (m fs).1 as es eqn:Hes. clear Hes.
  revert fs Ht Hq. induction es as [|e es IH]; intros fs Ht Hq; simpl; [done|].
  apply Forall_cons in Ht as [He Ht]. split; [done|]. split.
  - destruct e; simpl in *; [done| |done]. intros p. by apply HQ.
  - apply IH; [done|]. destruct e; simpl in *; unfold Streams.open_w, Streams.write; by apply HQ.
Qed.

(** Each state of a run, hence the one it stops in, satisfies [P]. *)
Lemma all_states_trivial (P : GetData.FS -> Prop) fs es : (forall s, P s) -> all_states P fs es.
Proof. intros HP. revert fs. induction es as [|[] es IH]; intros fs; simpl; auto. Qed.

(** ** The progress of a retrieval *)

(** The latest valid product of [get_conceptnet] in a directory: 3 for the
    filtered file, 2 for the extracted file, 1 for the archive. *)
Definition cn_level (sha256 : string -> string) (zipped zipped_hash unzipped unzipped_hash
    filtered filtered_hash : string) (fs : GetData.FS) : nat :=
  if GetData.valid sha256 fs filtered filtered_hash then 3
  else if GetData.valid sha256 fs unzipped unzipped_hash then 2
  else if GetData.valid sha256 fs zipped zipped_hash then 1
  else 0.

(** The same for [get_numberbatch]: 2 for the extracted file, 1 for the
    archive. *)
Definition nb_level (sha256 : string -> string) (zipped zipped_hash unzipped unzipped_hash : string)
    (fs : GetData.FS) : nat :=
  if GetData.valid sha256 fs unzipped unzipped_hash then 2
  else if GetData.valid sha256 fs zipped zipped_hash then 1
  else 0.

Lemma valid_insert_ne sha256 fs f g h p :
  g <> f -> GetData.valid sha256 (<[g := p]> fs) f h = GetData.valid sha256 fs f h.
Proof. intros Hne. unfold GetData.valid. by rewrite lookup_insert_ne. Qed.

Lemma valid_delete_ne sha256 fs f g h :
  g <> f -> GetData.valid sha256 (delete g fs) f h = GetData.valid sha256 fs f h.
Proof. intros Hne. unfold GetData.valid. by rewrite lookup_delete_ne. Qed.

(** ** The files each step touches *)

Lemma touches_mono (S S' : string -> Prop) {A} (m : M A) :
  (forall g, S g -> S' g) -> touches S m -> touches S' m.
Proof. intros HS Ht fs. eapply Forall_impl; [apply Ht|]. auto. Qed.

Lemma exec_Ok_state {A} (m : M A) fs a fs1 :
  exec m fs = Ok (a, fs1) -> fs1 = apply_effects fs (m fs).1.
Proof. unfold exec. destruct (m fs) as [es [b|e]]; simpl; [|done]. by injection 1. Qed.

Lemma all_states_final P fs es : all_states P fs es -> P (apply_effects fs es).
Proof. revert fs. induction es as [|e es IH]; intros fs; simpl; [done|]. intros (_ & _ & H). by apply IH. Qed.

Section Steps.
Context {Json : Type}.
Variable sha256 : string -> string.
Variable fetch : string -> res string.
Variable gunzip : string -> res string.
Variable json_loads : string -> res Json.
Variable weight_str : Json -> res string.
Variable bufsize : nat.

Lemma touches_download_file url f : touches (eq f) (download_file_m fetch url f).
Proof.
  unfold download_file_m. apply touches_bind; [apply touches_lift|]. intros body.
  apply touches_emit. constructor; [done|]. by apply touches_writes.
Qed.

Lemma touches_unzip_file fz fu : touches (eq fu) (unzip_file_m gunzip bufsize fz fu).
Proof.
  unfold unzip_file_m. repeat (apply touches_bind; [auto with interrupt|]; intros).
  - by apply touches_emit; repeat constructor.
  - by apply touches_emit, touches_writes.
Qed.

Lemma touches_filter_rows ff lines : touches (eq ff) (filter_rows_m json_loads weight_str ff lines).
Proof.
  induction lines as [|l lines IH]; simpl; [apply touches_ret|].
  apply touches_bind; [apply touches_lift|]. intros row.
  apply touches_bind; [|done]. by apply touches_emit; repeat constructor.
Qed.

Lemma touches_filter_conceptnet fa ff : touches (eq ff) (filter_conceptnet_m json_loads weight_str fa ff).
Proof.
  unfold filter_conceptnet_m. repeat (apply touches_bind; [auto with interrupt|]; intros).
  - by apply touches_emit; repeat constructor.
  - apply touches_filter_rows.
Qed.

Lemma verify_m_trace f h msg fs : (verify_m sha256 f h msg fs).1 = [].
Proof. done. Qed.

Lemma verify_m_Ok f h msg fs fs1 :
  exec (verify_m sha256 f h msg) fs = Ok (tt, fs1) -> fs1 = fs /\ GetData.valid sha256 fs f h = true.
Proof.
  rewrite verify_m_exec. unfold GetData.verify, GetData.compute_sha256, GetData.read_file, GetData.valid.
  destruct (fs !! f); cbn [res_bind]; [|done]. destruct (String.eqb h (sha256 s)); [|done].
  by injection 1.
Qed.

Lemma stage_flag_m_exec f h g fs :
  exec (stage_flag_m sha256 f h g) fs = Ok (negb (g && GetData.valid sha256 fs f h), fs).
Proof. unfold stage_flag_m. exec_simpl. by rewrite GetData.stage_flag_valid. Qed.

Lemma stage_flag_m_trace f h g fs : (stage_flag_m sha256 f h g fs).1 = [].
Proof. done. Qed.

(** A stage "write [f], verify [f], remove [g]" keeps [P] at every stopping
    point when a reason [Q] for [P] survives the writes to [f], and [P]
    holds once [f] is valid, before and after the removal of [g]. *)
Lemma stage_safe (P Q : GetData.FS -> Prop) (W : M unit) f h msg g fs :
  touches (eq f) W -> Q fs ->
  (forall s p, Q s -> Q (<[f := p]> s) /\ Q (delete f s)) -> (forall s, Q s -> P s) ->
  (forall s, GetData.valid sha256 s f h = true -> P s /\ P (delete g s)) ->
  all_states P fs ((_ <-! W ; _ <-! verify_m sha256 f h msg ; remove_m g) fs).1.
Proof.
  intros Ht Hq HQ HQP HV. apply all_states_bind.
  - eapply all_states_impl; [exact HQP|]. apply (all_states_frame (eq f)); [done| |done].
    intros s ? p <-. by apply HQ.
  - intros [] fs1 Hw. pose proof (all_states_final Q fs (W fs).1) as Hq1.
    rewrite <- (exec_Ok_state _ _ _ _ Hw) in Hq1.
    assert (Q fs1) as Hq1'.
    { apply Hq1. apply (all_states_frame (eq f)); [done| |done]. intros s ? p <-. by apply HQ. }
    apply all_states_bind; [rewrite verify_m_trace; by apply HQP|].
    intros [] fs2 (-> & Hv)%verify_m_Ok. destruct (HV _ Hv) as [HP1 HP2].
    unfold remove_m, bind, get_fs. simpl. destruct (GetData.isfile fs1 g); simpl; auto.
Qed.

(** After a stage "write [f], verify [f], remove [g]" ends, [f] is valid. *)
Lemma stage_post (W : M unit) f h msg g fs fs' :
  g <> f -> exec (_ <-! W ; _ <-! verify_m sha256 f h msg ; remove_m g) fs = Ok (tt, fs') ->
  GetData.valid sha256 fs' f h = true.
Proof.
  intros Hne. rewrite exec_bind. destruct (exec W fs) as [[[] fs1]|e]; cbn [res_bind fst snd]; [|done].
  rewrite exec_bind. destruct (exec (verify_m sha256 f h msg) fs1) as [[[] fs2]|e] eqn:Hv; cbn [res_bind fst snd]; [|done].
  apply verify_m_Ok in Hv as [-> Hv]. rewrite remove_m_exec. unfold GetData.remove.
  destruct (GetData.isfile fs1 g); cbn [res_bind]; [|done]. injection 1 as <-.
  by rewrite valid_delete_ne.
Qed.

End Steps.

Lemma trace_bind_ret {A B} (a : A) (k : A -> M B) fs : (bind (ret a) k fs).1 = (k a fs).1.
Proof. unfold bind, ret. simpl. by destruct (k a fs). Qed.

Section Safety.
Context {Json : Type}.
Variable sha256 : string -> string.
Variable fetch : string -> res string.
Variable gunzip : string -> res string.
Variable json_loads : string -> res Json.
Variable weight_str : Json -> res string.
Variable bufsize : nat.
Variables url zipped zipped_hash unzipped unzipped_hash filtered filtered_hash : string.
Hypothesis Hzu : zipped <> unzipped.
Hypothesis Huf : unzipped <> filtered.
Hypothesis Hzf : zipped <> filtered.

Local Abbreviation level := (cn_level sha256 zipped zipped_hash unzipped unzipped_hash filtered filtered_hash).
Local Abbreviation valid := (GetData.valid sha256).

Lemma level_filtered s : valid s filtered filtered_hash = true -> level s = 3.
Proof. unfold cn_level. by intros ->. Qed.

Lemma level_unzipped s : valid s unzipped unzipped_hash = true -> 2 <= level s.
Proof. unfold cn_level. intros ->. destruct (valid s filtered filtered_hash); lia. Qed.

Lemma level_zipped s : valid s zipped zipped_hash = true -> 1 <= level s.
Proof. unfold cn_level. intros ->. destruct (valid s filtered filtered_hash), (valid s unzipped unzipped_hash); lia. Qed.

(** The filter stage from a directory with a valid extracted file keeps the
    level at 2 or more wherever it stops. *)
Lemma filter_stage_m_safe L msg fs :
  L <= 2 -> valid fs unzipped unzipped_hash = true ->
  all_states (fun s => L <= level s) fs
    (filter_stage_m sha256 json_loads weight_str unzipped filtered filtered_hash msg fs).1.
Proof.
  intros HL Hv. apply (stage_safe _ _ (fun s => valid s unzipped unzipped_hash = true));
    [apply touches_filter_conceptnet|done| | |].
  - intros s p Hs. by rewrite valid_insert_ne, valid_delete_ne by done.
  - intros s Hs. pose proof (level_unzipped s Hs). lia.
  - intros s Hs. assert (valid (delete unzipped s) filtered filtered_hash = true)
      by (by rewrite valid_delete_ne). rewrite !level_filtered by done. lia.
Qed.

(** The extraction stage from a directory with a valid archive keeps the
    level at 1 or more wherever it stops. *)
Lemma unzip_stage_m_safe L msg fs :
  L <= 1 -> valid fs zipped zipped_hash = true ->
  all_states (fun s => L <= level s) fs
    (unzip_stage_m sha256 gunzip bufsize zipped unzipped unzipped_hash msg fs).1.
Proof.
  intros HL Hv. apply (stage_safe _ _ (fun s => valid s zipped zipped_hash = true));
    [apply touches_unzip_file|done| | |].
  - intros s p Hs. by rewrite valid_insert_ne, valid_delete_ne by done.
  - intros s Hs. pose proof (level_zipped s Hs). lia.
  - intros s Hs. assert (valid (delete zipped s) unzipped unzipped_hash = true) as Hd
      by (by rewrite valid_delete_ne). apply level_unzipped in Hs, Hd. split; lia.
Qed.

Lemma get_conceptnet_m_safe fs :
  all_states (fun s => level fs <= level s) fs
    (get_conceptnet_m sha256 fetch gunzip json_loads weight_str bufsize
       url zipped zipped_hash unzipped unzipped_hash filtered filtered_hash fs).1.
Proof.
  unfold get_conceptnet_m.
  apply all_states_bind; [simpl; lia|]. intros b1 fs1 Hb. rewrite stage_flag_m_exec in Hb. injection Hb as <- <-.
  apply all_states_bind; [simpl; lia|]. intros b2 fs2 Hb. rewrite stage_flag_m_exec in Hb. injection Hb as <- <-.
  apply all_states_bind; [simpl; lia|]. intros b3 fs3 Hb. rewrite stage_flag_m_exec in Hb. injection Hb as <- <-.
  destruct (valid fs filtered filtered_hash) eqn:V3;
    [|destruct (valid fs unzipped unzipped_hash) eqn:V2;
      [|destruct (valid fs zipped zipped_hash) eqn:V1]]; cbn [negb andb].
  - rewrite !trace_bind_ret. simpl. lia.
  - rewrite !trace_bind_ret. apply filter_stage_m_safe; [|done]. unfold cn_level. rewrite V3, V2. lia.
  - rewrite trace_bind_ret. assert (level fs = 1) as -> by (unfold cn_level; by rewrite V3, V2, V1).
    apply all_states_bind; [by apply unzip_stage_m_safe|]. intros [] fs1 Hs1.
    apply filter_stage_m_safe; [lia|]. eapply stage_post; [done|exact Hs1].
  - apply all_states_trivial. intros s. unfold cn_level at 1. rewrite V3, V2, V1. lia.
Qed.

(** C25 (safety): stopping [get_conceptnet] anywhere (an exception, a
    [sys.exit] on a bad digest, an interrupt between two effects or inside
    a write) never loses a validated product: the latest valid product of
    the directory it leaves is at least the one it started from. A product
    is removed only after the next one has been verified. *)
Theorem get_conceptnet_interrupt_safe fs s :
  interrupted fs (get_conceptnet_m sha256 fetch gunzip json_loads weight_str bufsize
                    url zipped zipped_hash unzipped unzipped_hash filtered filtered_hash fs).1 s ->
  level fs <= level s.
Proof. intros Hi. exact (all_states_interrupted _ _ _ _ (get_conceptnet_m_safe fs) Hi). Qed.

End Safety.

Section NbSafety.
Variable sha256 : string -> string.
Variable fetch : string -> res string.
Variable gunzip : string -> res string.
Variable bufsize : nat.
Variables url zipped zipped_hash unzipped unzipped_hash : string.
Hypothesis Hzu : zipped <> unzipped.

Local Abbreviation level := (nb_level sha256 zipped zipped_hash unzipped unzipped_hash).
Local Abbreviation valid := (GetData.valid sha256).

Lemma get_numberbatch_m_safe fs :
  all_states (fun s => level fs <= level s) fs
    (get_numberbatch_m sha256 fetch gunzip bufsize url zipped zipped_hash unzipped unzipped_hash fs).1.
Proof.
  unfold get_numberbatch_m.
  apply all_states_bind; [simpl; lia|]. intros b1 fs1 Hb. rewrite stage_flag_m_exec in Hb. injection Hb as <- <-.
  apply all_states_bind; [simpl; lia|]. intros b2 fs2 Hb. rewrite stage_flag_m_exec in Hb. injection Hb as <- <-.
  destruct (valid fs unzipped unzipped_hash) eqn:V2; [|destruct (valid fs zipped zipped_hash) eqn:V1];
    cbn [negb andb].
  - rewrite trace_bind_ret. simpl. lia.
  - rewrite trace_bind_ret. assert (level fs = 1) as -> by (unfold nb_level; by rewrite V2, V1).
    apply (stage_safe _ _ (fun s => valid s zipped zipped_hash = true));
      [apply touches_unzip_file|done| | |].
    + intros s p Hs. by rewrite valid_insert_ne, valid_delete_ne by done.
    + intros s Hs. unfold nb_level. rewrite Hs. destruct (valid s unzipped unzipped_hash); lia.
    + intros s Hs. unfold nb_level. rewrite valid_delete_ne, Hs by done. lia.
  - apply all_states_trivial. intros s. unfold nb_level at 1. rewrite V2, V1. lia.
Qed.

End NbSafety.

(** ** The whole script *)

(** Prove [touches S m] for a run built from the helpers. *)
Ltac touches_tac :=
  repeat first
    [ eapply touches_mono; [|apply touches_download_file]; intros ? <-; simpl; tauto
    | eapply touches_mono; [|apply touches_unzip_file]; intros ? <-; simpl; tauto
    | eapply touches_mono; [|apply touches_filter_conceptnet]; intros ? <-; simpl; tauto
    | apply touches_ret | apply touches_lift | apply touches_get_fs | apply touches_if
    | apply touches_emit; repeat constructor; simpl; tauto
    | apply touches_bind; [|intros] ].

Lemma touches_get_conceptnet_m {Json} sha256 fetch gunzip (json_loads : string -> res Json)
    weight_str bufsize url zipped zipped_hash unzipped unzipped_hash filtered filtered_hash :
  touches (fun g => g = zipped \/ g = unzipped \/ g = filtered)
    (get_conceptnet_m sha256 fetch gunzip json_loads weight_str bufsize
       url zipped zipped_hash unzipped unzipped_hash filtered filtered_hash).
Proof.
  unfold get_conceptnet_m, stage_flag_m, download_stage_m, unzip_stage_m, filter_stage_m,
    verify_m, remove_m. touches_tac.
Qed.

Lemma touches_get_numberbatch_m sha256 fetch gunzip bufsize url zipped zipped_hash unzipped unzipped_hash :
  touches (fun g => g = zipped \/ g = unzipped)
    (get_numberbatch_m sha256 fetch gunzip bufsize url zipped zipped_hash unzipped unzipped_hash).
Proof.
  unfold get_numberbatch_m, stage_flag_m, download_stage_m, unzip_stage_m, verify_m, remove_m.
  touches_tac.
Qed.

(** A write or a removal elsewhere does not change the levels. *)
Lemma cn_level_frame sha256 z zh u uh f fh s g p :
  g <> z -> g <> u -> g <> f ->
  cn_level sha256 z zh u uh f fh (<[g := p]> s) = cn_level sha256 z zh u uh f fh s /\
  cn_level sha256 z zh u uh f fh (delete g s) = cn_level sha256 z zh u uh f fh s.
Proof. intros. unfold cn_level. by rewrite !valid_insert_ne, !valid_delete_ne. Qed.

Lemma nb_level_frame sha256 z zh u uh s g p :
  g <> z -> g <> u ->
  nb_level sha256 z zh u uh (<[g := p]> s) = nb_level sha256 z zh u uh s /\
  nb_level sha256 z zh u uh (delete g s) = nb_level sha256 z zh u uh s.
Proof. intros. unfold nb_level. by rewrite !valid_insert_ne, !valid_delete_ne. Qed.

(** The file names [main] computes from the URLs (lines 57, 60, 129, 132). *)
Definition cn_zipped : string := "conceptnet-assertions-5.7.0.csv.gz".
Definition cn_unzipped : string := "conceptnet-assertions-5.7.0.csv".
Definition nb_zipped : string := "numberbatch-en-19.08.txt.gz".
Definition nb_unzipped : string := "numberbatch-en-19.08.txt".

Lemma main_names :
  GetData.url_basename GetData.conceptnet_url = Ok cn_zipped /\
  GetData.drop_last3 cn_zipped = cn_unzipped /\
  GetData.url_basename GetData.numberbatch_url = Ok nb_zipped /\
  GetData.drop_last3 nb_zipped = nb_unzipped.
Proof. vm_compute. auto. Qed.

(** The progress of the two retrievals of the script. *)
Definition main_levels (sha256 : string -> string) (fs : GetData.FS) : nat * nat :=
  (cn_level sha256 cn_zipped GetData.conceptnet_filename_zipped_hash
     cn_unzipped GetData.conceptnet_filename_hash
     GetData.conceptnet_filename_filtered GetData.conceptnet_filename_filtered_hash fs,
   nb_level sha256 nb_zipped GetData.numberbatch_filename_zipped_hash
     nb_unzipped GetData.numberbatch_filename_hash fs).

Section MainSafety.
Context {Json : Type}.
Variable sha256 : string -> string.
Variable fetch : string -> res string.
Variable gunzip : string -> res string.
Variable json_loads : string -> res Json.
Variable weight_str : Json -> res string.
Variable bufsize : nat.

Local Abbreviation cnl := (fun s => (main_levels sha256 s).1).
Local Abbreviation nbl := (fun s => (main_levels sha256 s).2).

Lemma main_m_safe fs :
  all_states (fun s => cnl fs <= cnl s /\ nbl fs <= nbl s) fs
    (main_m sha256 fetch gunzip json_loads weight_str bufsize fs).1.
Proof.
  destruct main_names as (Hc & Hcu & Hn & Hnu). unfold main_m.
  apply all_states_bind; [simpl; lia|]. intros z fs1 Hz.
  rewrite exec_lift, Hc in Hz. injection Hz as <- <-. rewrite Hcu.
  assert (Hcn : touches (fun g => g = cn_zipped \/ g = cn_unzipped \/ g = GetData.conceptnet_filename_filtered)
     (get_conceptnet_m sha256 fetch gunzip json_loads weight_str bufsize GetData.conceptnet_url
        cn_zipped GetData.conceptnet_filename_zipped_hash cn_unzipped GetData.conceptnet_filename_hash
        GetData.conceptnet_filename_filtered GetData.conceptnet_filename_filtered_hash))
    by apply touches_get_conceptnet_m.
  assert (Hcs : all_states (fun s => cnl fs <= cnl s) fs
     (get_conceptnet_m sha256 fetch gunzip json_loads weight_str bufsize GetData.conceptnet_url
        cn_zipped GetData.conceptnet_filename_zipped_hash cn_unzipped GetData.conceptnet_filename_hash
        GetData.conceptnet_filename_filtered GetData.conceptnet_filename_filtered_hash fs).1)
    by (apply get_conceptnet_m_safe; GetData.string_neq).
  assert (Hnf : forall L, all_states (fun s => L = nbl s) fs
     (get_conceptnet_m sha256 fetch gunzip json_loads weight_str bufsize GetData.conceptnet_url
        cn_zipped GetData.conceptnet_filename_zipped_hash cn_unzipped GetData.conceptnet_filename_hash
        GetData.conceptnet_filename_filtered GetData.conceptnet_filename_filtered_hash fs).1 <-> L = nbl fs).
  { intros L. split; [apply all_states_now|]. intros HL. apply (all_states_frame _ _ _ _ Hcn); [|done].
    intros s g p Hg Hs. destruct (nb_level_frame sha256 nb_zipped GetData.numberbatch_filename_zipped_hash
      nb_unzipped GetData.numberbatch_filename_hash s g p) as [E1 E2];
      [destruct Hg as [->|[->| ->]]; GetData.string_neq..|]. simpl in *. by rewrite E1, E2. }
  apply all_states_bind.
  - apply all_states_and; [exact Hcs|]. eapply all_states_impl; [|apply (Hnf (nbl fs)); done]. simpl. lia.
  - intros [] fs2 Hg. apply exec_Ok_state in Hg as ->.
    pose proof (all_states_final _ _ _ Hcs) as Hc2. pose proof (all_states_final _ _ _ (proj2 (Hnf (nbl fs)) eq_refl)) as Hn2.
    apply all_states_bind; [simpl in *; lia|]. intros z fs3 Hz.
    rewrite exec_lift, Hn in Hz. injection Hz as <- <-. rewrite Hnu.
    apply all_states_and.
    + apply (all_states_frame (fun g => g = nb_zipped \/ g = nb_unzipped)); [apply touches_get_numberbatch_m| |done].
      intros s g p Hg Hs. destruct (cn_level_frame sha256 cn_zipped GetData.conceptnet_filename_zipped_hash
        cn_unzipped GetData.conceptnet_filename_hash GetData.conceptnet_filename_filtered
        GetData.conceptnet_filename_filtered_hash s g p) as [E1 E2];
        [destruct Hg as [->| ->]; GetData.string_neq..|]. simpl in *. by rewrite E1, E2.
    + eapply all_states_impl; [|apply get_numberbatch_m_safe; GetData.string_neq]. simpl in *. lia.
Qed.

(** C24 (safety): stopping [get_data.py] anywhere, in [get_conceptnet] or
    in [get_numberbatch], at an exception, between two effects or inside a
    write, never loses a validated product of either retrieval: each one
    only touches its own three (or two) files, and each keeps its latest
    valid product until the next one is verified. *)
Theorem main_interrupt_safe fs s :
  interrupted fs (main_m sha256 fetch gunzip json_loads weight_str bufsize fs).1 s ->
  (main_levels sha256 fs).1 <= (main_levels sha256 s).1 /\
  (main_levels sha256 fs).2 <= (main_levels sha256 s).2.
Proof. intros Hi. exact (all_states_interrupted _ _ _ _ (main_m_safe fs) Hi). Qed.

End MainSafety.

End Interrupt.
