(* ===== verification/TestScript.v ===== *)
(** * TestScript: the smoke test [src/test.py]

    [test.py] builds [ConceptNet()] with its default arguments, that is the
    two files [get_data.py] produces, [remove_duplicate=False] and
    [remove_dangling=True], and prints six queries. [init_files] is
    [__init__] on the working directory of [GetData]: [__load_numberbatch]
    opens its file (line 48) and loads it before [__load_conceptnet] opens
    the relation file (lines 100-101), so a missing relation file is
    noticed only after the embeddings have loaded. [test_script] returns
    what the six [print] calls show, in order. *)

From S2P Require Import Prelude PyStr PyDict PyFloat Numberbatch Graph Query GetData.
From stdpp Require Import gmap strings.

Module TestScript.
Import Query.

Section Test.
Context {F : Type} `{PyFloat F}.

(** The value one [print] call shows. *)
Inductive printed :=
| PEmbedding (v : option (list F))
| PConcept (d : PyDict.t string (list (Edge (F:=F))))
| PEdges (es : list (Edge (F:=F))).

(** [ConceptNet(conceptnet_filename, numberbatch_filename, remove_duplicate,
    remove_dangling)] on the files of the working directory. *)
Definition init_files (fs : GetData.FS) (conceptnet_filename numberbatch_filename : string)
    (remove_duplicate remove_dangling : bool) : res (ConceptNet (E:=F) (F:=F)) :=
  nbf <- GetData.read_file fs numberbatch_filename ;;
  cs <- Numberbatch.load_numberbatch nbf remove_duplicate PyDict.empty ;;
  cnf <- GetData.read_file fs conceptnet_filename ;;
  b <- Graph.load_conceptnet cs remove_dangling (Graph.mkBonds PyDict.empty PyDict.empty) cnf ;;
  Ok (mkCN cs (Graph.inbonds b) (Graph.outbonds b) PyDict.empty).

(** The six [print] calls of [test.py] (lines 5-15) on [cnet]. *)
Definition test_queries (cnet : ConceptNet (E:=F) (F:=F)) : list printed :=
  [PEmbedding (get_embedding cnet "headset");
   PConcept (query_concept cnet "headset" false);
   PConcept (query_concept cnet "headset" true);
   PEdges (query_edge cnet "hand" "arm" false);
   PEdges (query_edge cnet "hand" "arm" true);
   PEdges (query_edge cnet "arm" "hand" true)].

(** [test.py] (lines 3-15): [cnet = ConceptNet()], then the six prints. *)
Definition test_script (fs : GetData.FS) : res (list printed) :=
  cnet <- init_files fs GetData.default_conceptnet_filename
                        GetData.default_numberbatch_filename false true ;;
  Ok (test_queries cnet).

(** ** Lemmas *)

(** With both files present, the constructor is [init] on their contents. *)
Lemma init_files_init fs cnn nbn rdup rd c n :
  fs !! nbn = Some n -> fs !! cnn = Some c ->
  init_files fs cnn nbn rdup rd = init c n rdup rd.
Proof.
  intros Hn Hc. unfold init_files, init, GetData.read_file. rewrite Hn, Hc. cbn [res_bind].
  by destruct (Numberbatch.load_numberbatch n rdup PyDict.empty).
Qed.

(** With both files present, the constructor raises only on bad data. *)
Lemma init_files_raises fs cnn nbn rdup rd e :
  is_Some (fs !! nbn) -> is_Some (fs !! cnn) ->
  init_files fs cnn nbn rdup rd = Raise e -> data_error e.
Proof.
  intros [n Hn] [c Hc]. rewrite (init_files_init _ _ _ _ _ c n Hn Hc). unfold init.
  intros Hr. raise_inv Hr.
  - by apply Numberbatch.load_numberbatch_raises in Hr.
  - by apply Graph.load_conceptnet_raises in Hr.
Qed.

Lemma test_script_init fs c n :
  fs !! GetData.default_numberbatch_filename = Some n ->
  fs !! GetData.default_conceptnet_filename = Some c ->
  test_script fs = (cnet <- init c n false true ;; Ok (test_queries cnet)).
Proof. intros Hn Hc. unfold test_script. by rewrite (init_files_init _ _ _ _ _ c n Hn Hc). Qed.


End Test.
End TestScript.
