(* ===== verification/Examples.v ===== *)
(** * Examples: the theorems applied to concrete files

    The end-to-end example of the specification (two embeddings, three
    relation lines), evaluated through [Query.init] with the exact-decimal
    float instance; one witness per theorem with hypotheses, applying it
    where its hypotheses hold; and the concrete runs behind the findings
    (the nesting order and edge orientation, clamped negative weights,
    malformed lines, crashes and repeated names in the embedding loader);
    and the retrieval script run on a stand-in network whose digests are
    the expected ones, followed by [test.py] on the files it leaves (and on
    a network that serves a malformed embedding table), and runs of the
    script stopped part-way ([Interrupt]). *)

From S2P Require Import Prelude PyStr PyDict PyFloat Numberbatch Graph Query GetData Streams Interrupt TestScript.
From stdpp Require Import gmap strings.
From Stdlib Require Import QArith.
Local Open Scope string_scope.
Local Open Scope list_scope.

Module Examples.
Import Query.

(** The embedding file of the specification's example. *)
Definition nb_file : string :=
  "2 3
hand 1.0 0.0 0.0
arm 0.0 1.0 0.0
".

(** The relation file of the specification's example. *)
Definition cn_file : string :=
  "RelatedTo	hand	arm	0.5
RelatedTo	hand	arm	0.8
PartOf	arm	hand	0.9
".

Definition from_res {A} (dflt : A) (r : res A) : A :=
  match r with Ok a => a | Raise _ => dflt end.

(** The instance [ConceptNet(cn_file, nb_file)] with the default options
    ([remove_duplicate=False], [remove_dangling=True]). *)
Definition ex_cn : ConceptNet (E:=Q) (F:=Q) :=
  from_res (mkCN [] [] [] []) (init cn_file nb_file false true).

Definition ex_concepts : PyDict.t string (list Q) :=
  from_res [] (Numberbatch.load_numberbatch nb_file false PyDict.empty).

Definition ex_facts : list (Graph.fact (F:=Q)) :=
  from_res [] (Graph.accepted_facts ex_concepts true cn_file).

Lemma ex_init : init (E:=Q) (F:=Q) cn_file nb_file false true = Ok ex_cn.
Proof. vm_compute. reflexivity. Qed.

Definition ex_bonds : Graph.Bonds (F:=Q) :=
  from_res Graph.empty_bonds (Graph.load_conceptnet ex_concepts true Graph.empty_bonds cn_file).

Definition ex_edge : Edge (F:=Q) := mkEdge "hand" "RelatedTo" "arm" (8#10).

(** ** Witnesses *)

Lemma load_conceptnet_refines_witness :
  Graph.accepted_facts ex_concepts true cn_file = Ok ex_facts /\
  exists st, Graph.load_conceptnet ex_concepts true Graph.empty_bonds cn_file = Ok st /\
    (forall a b r, Graph.lookup3 (Graph.outbonds st) a b r =
                   Graph.max_weight (flat_map Graph.out_entries ex_facts) a b r) /\
    (forall a b r, Graph.lookup3 (Graph.inbonds st) a b r =
                   Graph.max_weight (flat_map Graph.in_entries ex_facts) a b r).
Proof.
  split; [vm_compute; reflexivity|].
  apply (Graph.load_conceptnet_refines ex_concepts true cn_file ex_facts).
  vm_compute. reflexivity.
Defined.

Definition dup_file : string :=
  "3 2
a 1 0
b 0 1
c 1.0 0.0
".

Definition dup_rows : list (string * list Q) :=
  snd (from_res (0%Z, []) (Numberbatch.parse_table dup_file)).

Lemma load_numberbatch_dedup_witness :
  Numberbatch.parse_table dup_file = Ok (2%Z, dup_rows) /\ (0 < 2)%Z /\
  NoDup (map fst dup_rows) /\
  Numberbatch.load_numberbatch dup_file true [] =
  Ok (Numberbatch.rows_to_dict [] (Numberbatch.dedup_ref dup_rows)).
Proof.
  split; [vm_compute; reflexivity|]. split; [lia|].
  assert (Hnd : NoDup (map fst dup_rows)) by (apply (bool_decide_eq_true_1 _); vm_compute; reflexivity).
  split; [exact Hnd|].
  apply (Numberbatch.load_numberbatch_dedup dup_file 2%Z dup_rows); [vm_compute; reflexivity|lia|exact Hnd].
Defined.

Lemma query_edge_loaded_witness :
  init cn_file nb_file false true = Ok ex_cn /\
  Graph.accepted_facts (concepts ex_cn) true cn_file = Ok ex_facts /\
  (In ex_edge (query_edge ex_cn "hand" "arm" true) <->
   exists r w, ex_edge = mkEdge "hand" r "arm" w /\
               Graph.max_weight (flat_map Graph.out_entries ex_facts) "hand" "arm" r = Some w).
Proof.
  split; [vm_compute; reflexivity|]. split; [vm_compute; reflexivity|].
  apply (query_edge_loaded cn_file nb_file false true ex_cn ex_facts); vm_compute; reflexivity.
Defined.

Lemma non_symmetric_reconstructed_witness :
  init cn_file nb_file false true = Ok ex_cn /\
  Graph.accepted_facts (concepts ex_cn) true cn_file = Ok ex_facts /\
  In ("PartOf", "arm", "hand", 9#10) ex_facts /\
  Graph.mem "PartOf" Graph.symmetric_assertions = false /\
  exists w', In (mkEdge "arm" "PartOf" "hand" w') (query_edge ex_cn "arm" "hand" true) /\
             In (mkEdge "arm" "PartOf" "hand" w') (query_edge ex_cn "hand" "arm" false).
Proof.
  split; [vm_compute; reflexivity|]. split; [vm_compute; reflexivity|].
  split; [vm_compute; auto|]. split; [vm_compute; reflexivity|].
  apply (@non_symmetric_reconstructed Q Q QFloat.QFloat_PyFloat QFloat.QFloat_PyFloat cn_file nb_file false true ex_cn ex_facts
           ltac:(vm_compute; reflexivity) ltac:(vm_compute; reflexivity) "PartOf" "arm" "hand" (9#10));
    vm_compute; auto.
Defined.

Lemma symmetric_both_ways_witness :
  init cn_file nb_file false true = Ok ex_cn /\
  Graph.accepted_facts (concepts ex_cn) true cn_file = Ok ex_facts /\
  In ("RelatedTo", "hand", "arm", 5#10) ex_facts /\
  Graph.mem "RelatedTo" Graph.symmetric_assertions = true /\
  (exists w', In (mkEdge "hand" "RelatedTo" "arm" w') (query_edge ex_cn "hand" "arm" true) /\
              In (mkEdge "arm" "RelatedTo" "hand" w') (query_edge ex_cn "arm" "hand" true)) /\
  Graph.lookup3 (inbonds ex_cn) "hand" "arm" "RelatedTo" = None /\
  Graph.lookup3 (inbonds ex_cn) "arm" "hand" "RelatedTo" = None.
Proof.
  split; [vm_compute; reflexivity|]. split; [vm_compute; reflexivity|].
  split; [vm_compute; auto|]. split; [vm_compute; reflexivity|].
  apply (@symmetric_both_ways Q Q QFloat.QFloat_PyFloat QFloat.QFloat_PyFloat cn_file nb_file false true ex_cn ex_facts
           ltac:(vm_compute; reflexivity) ltac:(vm_compute; reflexivity) "RelatedTo" "hand" "arm" (5#10));
    vm_compute; auto.
Defined.

Lemma inbonds_not_symmetric_witness :
  Graph.load_conceptnet ex_concepts true Graph.empty_bonds cn_file = Ok ex_bonds /\
  Graph.lookup3 (Graph.inbonds ex_bonds) "hand" "arm" "PartOf" = Some (9#10) /\
  Graph.mem "PartOf" Graph.symmetric_assertions = false.
Proof.
  split; [vm_compute; reflexivity|]. split; [vm_compute; reflexivity|].
  apply (Graph.inbonds_not_symmetric ex_concepts true cn_file ex_bonds "hand" "arm" "PartOf" (9#10));
    vm_compute; reflexivity.
Defined.

Lemma no_dangling_edges_witness :
  Graph.load_conceptnet ex_concepts true Graph.empty_bonds cn_file = Ok ex_bonds /\
  Graph.lookup3 (Graph.outbonds ex_bonds) "arm" "hand" "PartOf" = Some (9#10) /\
  PyDict.contains "arm" ex_concepts = true /\ PyDict.contains "hand" ex_concepts = true.
Proof.
  split; [vm_compute; reflexivity|]. split; [vm_compute; reflexivity|].
  apply (Graph.no_dangling_edges ex_concepts true cn_file ex_bonds "arm" "hand" "PartOf" (9#10));
    [reflexivity|vm_compute; reflexivity|left; vm_compute; reflexivity].
Defined.

Lemma queries_not_dangling_witness :
  init cn_file nb_file false true = Ok ex_cn /\
  In ex_edge (query_edge ex_cn "hand" "arm" false) /\
  is_Some (get_embedding ex_cn (e_from ex_edge)) /\ is_Some (get_embedding ex_cn (e_to ex_edge)).
Proof.
  split; [vm_compute; reflexivity|]. split; [vm_compute; auto|].
  apply (queries_not_dangling cn_file nb_file false true ex_cn); [vm_compute; reflexivity|reflexivity|].
  left. exists "hand", "arm", false. vm_compute. auto.
Defined.

Lemma stored_weight_bounds_witness :
  Graph.lookup3 (Graph.outbonds ex_bonds) "hand" "arm" "RelatedTo" = Some (8#10) /\
  Graph.lookup3 (Graph.inbonds ex_bonds) "hand" "arm" "PartOf" = Some (9#10) /\
  Graph.weight_bounded (flat_map Graph.out_entries ex_facts) "hand" "arm" "RelatedTo" (8#10) /\
  Graph.weight_bounded (flat_map Graph.in_entries ex_facts) "hand" "arm" "PartOf" (9#10).
Proof.
  split; [vm_compute; reflexivity|]. split; [vm_compute; reflexivity|]. split.
  - apply (Graph.stored_weight_bounds ex_concepts true cn_file ex_facts ex_bonds "hand" "arm" "RelatedTo");
      vm_compute; reflexivity.
  - apply (Graph.stored_weight_bounds ex_concepts true cn_file ex_facts ex_bonds "hand" "arm" "PartOf");
      vm_compute; reflexivity.
Defined.

Lemma query_edge_directed_spec_witness :
  Graph.adj_wf (outbonds ex_cn) /\
  (In ex_edge (query_edge ex_cn "hand" "arm" true) <->
   exists r w, ex_edge = mkEdge "hand" r "arm" w /\ Graph.lookup3 (outbonds ex_cn) "hand" "arm" r = Some w).
Proof.
  assert (Hwf : Graph.adj_wf (outbonds ex_cn)) by (apply (bool_decide_eq_true_1 _); vm_compute; reflexivity).
  split; [exact Hwf|]. apply (query_edge_directed_spec ex_cn "hand" "arm" ex_edge Hwf).
Defined.

Lemma query_edge_undirected_spec_witness :
  Graph.adj_wf (outbonds ex_cn) /\ Graph.adj_wf (inbonds ex_cn) /\
  (In ex_edge (query_edge ex_cn "hand" "arm" false) <->
   (exists r w, ex_edge = mkEdge "hand" r "arm" w /\ Graph.lookup3 (outbonds ex_cn) "hand" "arm" r = Some w) \/
   (exists r w, ex_edge = mkEdge "arm" r "hand" w /\ Graph.lookup3 (inbonds ex_cn) "hand" "arm" r = Some w)).
Proof.
  assert (Ho : Graph.adj_wf (outbonds ex_cn)) by (apply (bool_decide_eq_true_1 _); vm_compute; reflexivity).
  assert (Hi : Graph.adj_wf (inbonds ex_cn)) by (apply (bool_decide_eq_true_1 _); vm_compute; reflexivity).
  split; [exact Ho|]. split; [exact Hi|].
  apply (query_edge_undirected_spec ex_cn "hand" "arm" ex_edge Ho Hi).
Defined.

Lemma get_outbonds_spec_witness :
  Graph.adj_wf (outbonds ex_cn) /\
  (In ex_edge (get_outbonds ex_cn "hand") <->
   exists b r w, ex_edge = mkEdge "hand" r b w /\ Graph.lookup3 (outbonds ex_cn) "hand" b r = Some w).
Proof.
  assert (Hwf : Graph.adj_wf (outbonds ex_cn)) by (apply (bool_decide_eq_true_1 _); vm_compute; reflexivity).
  split; [exact Hwf|]. apply (get_outbonds_spec ex_cn "hand" ex_edge Hwf).
Defined.

Lemma load_conceptnet_wf_witness :
  Graph.load_conceptnet ex_concepts true Graph.empty_bonds cn_file = Ok ex_bonds /\
  Graph.adj_wf (Graph.outbonds ex_bonds) /\ Graph.adj_wf (Graph.inbonds ex_bonds).
Proof.
  split; [vm_compute; reflexivity|].
  apply (Graph.load_conceptnet_wf ex_concepts true cn_file ex_bonds). vm_compute. reflexivity.
Defined.

Definition ex_adj : Graph.Adj (F:=Q) := [("hand", [("arm", [("RelatedTo", 5#10)])])].

Lemma add_bond_updates_witness :
  Graph.add_bond ex_adj ["RelatedTo"; "hand"; "arm"; "0.8"] = Ok (Graph.insert_entry ex_adj ("hand", "arm", "RelatedTo", 8#10)) /\
  exists w, py_float "0.8" = Some w /\
    forall a' b' r', Graph.lookup3 (Graph.insert_entry ex_adj ("hand", "arm", "RelatedTo", 8#10)) a' b' r' =
      if decide (("hand", "arm", "RelatedTo") = (a', b', r'))
      then Some (py_max (default fzero (Graph.lookup3 ex_adj "hand" "arm" "RelatedTo")) w)
      else Graph.lookup3 ex_adj a' b' r'.
Proof.
  split; [vm_compute; reflexivity|].
  apply (Graph.add_bond_updates ex_adj "RelatedTo" "hand" "arm" "0.8" []). vm_compute. reflexivity.
Defined.

Definition ex_rows : list (string * list Q) :=
  snd (from_res (0%Z, []) (Numberbatch.parse_table nb_file)).

Lemma get_embedding_loaded_witness :
  init cn_file nb_file false true = Ok ex_cn /\
  Numberbatch.parse_table nb_file = Ok (3%Z, ex_rows) /\
  get_embedding ex_cn "arm" = PyDict.get "arm" (Numberbatch.rows_to_dict PyDict.empty ex_rows).
Proof.
  split; [vm_compute; reflexivity|]. split; [vm_compute; reflexivity|].
  apply (get_embedding_loaded cn_file nb_file true ex_cn 3%Z ex_rows); vm_compute; reflexivity.
Defined.

Lemma split_sep_join_witness :
  ["RelatedTo"; "hand"; "arm"; "0.5"] <> [] /\
  Forall (fun p => PyStr.has_char Graph.TAB p = false) ["RelatedTo"; "hand"; "arm"; "0.5"] /\
  PyStr.split_sep Graph.TAB (PyStr.join Graph.TAB ["RelatedTo"; "hand"; "arm"; "0.5"]) =
  ["RelatedTo"; "hand"; "arm"; "0.5"].
Proof.
  assert (Hall : Forall (fun p => PyStr.has_char Graph.TAB p = false) ["RelatedTo"; "hand"; "arm"; "0.5"])
    by repeat constructor.
  assert (Hne : ["RelatedTo"; "hand"; "arm"; "0.5"] <> []) by congruence.
  split; [exact Hne|]. split; [exact Hall|]. apply (PyStr.split_sep_join _ _ Hne Hall).
Defined.

(** ** The retrieval script on a stand-in network *)

(** Two upstream assertions (URI, relation, start, end, JSON metadata);
    the second has a French endpoint and is filtered out. *)
Definition upstream_csv : string :=
  "/a/1	/r/RelatedTo	/c/en/hand/n	/c/en/arm	{}
/a/2	/r/RelatedTo	/c/fr/main	/c/en/arm	{}
".

(** What [filter_conceptnet] writes for it. *)
Definition ex_filtered : string := "RelatedTo	hand	arm	1.0
".

Definition ex_json_loads (s : string) : res string := Ok s.
Definition ex_weight_str (j : string) : res string := Ok "1.0".

Definition ex_fetch (url : string) : res string :=
  if String.eqb url GetData.conceptnet_url then Ok "CZ"
  else if String.eqb url GetData.numberbatch_url then Ok "NZ"
  else Raise HTTPError.

Definition ex_gunzip (c : string) : res string :=
  if String.eqb c "CZ" then Ok upstream_csv
  else if String.eqb c "NZ" then Ok nb_file
  else Raise OSError.

(** A digest function that gives each stand-in file the digest the script
    expects for the real one. *)
Definition ex_sha256 (c : string) : string :=
  if String.eqb c "CZ" then GetData.conceptnet_filename_zipped_hash
  else if String.eqb c upstream_csv then GetData.conceptnet_filename_hash
  else if String.eqb c ex_filtered then GetData.conceptnet_filename_filtered_hash
  else if String.eqb c "NZ" then GetData.numberbatch_filename_zipped_hash
  else if String.eqb c nb_file then GetData.numberbatch_filename_hash
  else EmptyString.

Definition cn_zipped : string := "conceptnet-assertions-5.7.0.csv.gz".
Definition cn_unzipped : string := "conceptnet-assertions-5.7.0.csv".

Definition ex_get_conceptnet : GetData.FS -> res GetData.FS :=
  GetData.get_conceptnet_with ex_sha256 ex_fetch ex_gunzip ex_json_loads ex_weight_str
    GetData.conceptnet_url cn_zipped GetData.conceptnet_filename_zipped_hash
    cn_unzipped GetData.conceptnet_filename_hash
    GetData.conceptnet_filename_filtered GetData.conceptnet_filename_filtered_hash.

(** A directory holding an unrelated file. *)
Definition ex_dir : GetData.FS := {[ "notes.txt" := "x" ]}.
Definition ex_dir_after : GetData.FS :=
  <[GetData.conceptnet_filename_filtered := ex_filtered]> ex_dir.

Lemma get_conceptnet_valid_witness :
  ex_get_conceptnet ex_dir = Ok ex_dir_after /\
  GetData.valid ex_sha256 ex_dir_after GetData.conceptnet_filename_filtered
    GetData.conceptnet_filename_filtered_hash = true.
Proof.
  assert (Hr : ex_get_conceptnet ex_dir = Ok ex_dir_after) by (vm_compute; reflexivity).
  split; [exact Hr|].
  apply (GetData.get_conceptnet_valid ex_sha256 ex_fetch ex_gunzip ex_json_loads ex_weight_str
    GetData.conceptnet_url cn_zipped GetData.conceptnet_filename_zipped_hash
    cn_unzipped GetData.conceptnet_filename_hash
    GetData.conceptnet_filename_filtered GetData.conceptnet_filename_filtered_hash
    ltac:(vm_compute; congruence) ltac:(vm_compute; congruence) ex_dir ex_dir_after Hr).
Defined.

Lemma get_conceptnet_frame_witness :
  ex_dir_after !! "notes.txt" = ex_dir !! "notes.txt".
Proof.
  apply (GetData.get_conceptnet_frame ex_sha256 ex_fetch ex_gunzip ex_json_loads ex_weight_str
    GetData.conceptnet_url cn_zipped GetData.conceptnet_filename_zipped_hash
    cn_unzipped GetData.conceptnet_filename_hash
    GetData.conceptnet_filename_filtered GetData.conceptnet_filename_filtered_hash
    ltac:(vm_compute; congruence) ltac:(vm_compute; congruence) ex_dir ex_dir_after "notes.txt");
    vm_compute; [reflexivity|congruence..].
Defined.

Lemma get_conceptnet_idempotent_witness :
  ex_get_conceptnet ex_dir_after = Ok ex_dir_after.
Proof.
  apply (GetData.get_conceptnet_idempotent ex_sha256 ex_fetch ex_gunzip ex_json_loads ex_weight_str
    GetData.conceptnet_url cn_zipped GetData.conceptnet_filename_zipped_hash
    cn_unzipped GetData.conceptnet_filename_hash
    GetData.conceptnet_filename_filtered GetData.conceptnet_filename_filtered_hash
    ltac:(vm_compute; congruence) ltac:(vm_compute; congruence) ex_dir ex_dir_after).
  vm_compute. reflexivity.
Defined.

Lemma get_conceptnet_no_FNF_witness :
  ex_get_conceptnet (<[cn_zipped := "corrupt"]> ex_dir) <> Raise FileNotFoundError.
Proof.
  apply (GetData.get_conceptnet_no_FNF ex_sha256 ex_fetch ex_gunzip ex_json_loads ex_weight_str
    GetData.conceptnet_url cn_zipped GetData.conceptnet_filename_zipped_hash
    cn_unzipped GetData.conceptnet_filename_hash
    GetData.conceptnet_filename_filtered GetData.conceptnet_filename_filtered_hash
    ltac:(vm_compute; congruence) ltac:(vm_compute; congruence)).
  - intros u. unfold ex_fetch. destruct (String.eqb _ _); [|destruct (String.eqb _ _)]; discriminate.
  - intros c. unfold ex_gunzip. destruct (String.eqb _ _); [|destruct (String.eqb _ _)]; discriminate.
  - intros c. discriminate.
  - intros j. discriminate.
Defined.

(** The whole script on an empty directory leaves exactly the two files
    [ConceptNet()] opens by default. *)
Definition ex_final : GetData.FS :=
  <[GetData.default_numberbatch_filename := nb_file]>
    {[ GetData.default_conceptnet_filename := ex_filtered ]}.

Lemma main_provides_default_files_witness :
  GetData.main ex_sha256 ex_fetch ex_gunzip ex_json_loads ex_weight_str ∅ = Ok ex_final /\
  GetData.valid ex_sha256 ex_final GetData.default_conceptnet_filename
    GetData.conceptnet_filename_filtered_hash = true /\
  GetData.valid ex_sha256 ex_final GetData.default_numberbatch_filename
    GetData.numberbatch_filename_hash = true.
Proof.
  assert (Hm : GetData.main ex_sha256 ex_fetch ex_gunzip ex_json_loads ex_weight_str ∅ = Ok ex_final)
    by (vm_compute; reflexivity).
  split; [exact Hm|]. exact (GetData.main_provides_default_files _ _ _ _ _ ∅ ex_final Hm).
Defined.

Lemma filter_output_loads_witness :
  (exists rel src dst w,
     PyStr.split_sep Graph.TAB ex_filtered = [rel; src; dst; (w ++ String "010" EmptyString)%string]) /\
  (forall (F E : Type) `{PyFloat F} (concepts : PyDict.t string E) rd
     (st : Graph.Bonds (F:=F)) e,
     Graph.load_line concepts rd st ex_filtered = Raise e -> e = ValueError).
Proof.
  apply (GetData.filter_output_loads ex_json_loads ex_weight_str
    ltac:(intros j w [= <-]; split; vm_compute; reflexivity) upstream_csv ex_filtered
    ltac:(vm_compute; reflexivity) ex_filtered ltac:(vm_compute; left; reflexivity)).
Defined.

(** ** Termination, round trip, liveness and the smoke test *)

Lemma load_conceptnet_terminates_witness :
  Graph.load_conceptnet_loop ex_concepts true (S (String.length cn_file)) Graph.empty_bonds cn_file =
  Some (Graph.load_conceptnet ex_concepts true Graph.empty_bonds cn_file).
Proof. apply (Graph.load_conceptnet_terminates ex_concepts true). lia. Defined.

(** Two rows written by the filter; the [IsA] row is not read back. *)
(** Three rows written by the filter: under [remove_dangling] (the
    default of [ConceptNet()]) the row to [leg], which has no embedding, is
    not read back, and the [IsA] row never is. *)
Definition written_rows : list (string * string * string * string * Q) :=
  [("RelatedTo", "hand", "arm", "0.8", 0.8); ("RelatedTo", "hand", "leg", "0.5", 0.5);
   ("IsA", "hand", "body", "1.0", 1.0)].

Lemma written_rows_read_back_witness :
  Graph.accepted_facts ex_concepts true
    (foldr String.append EmptyString
       (map (fun '(rel, src, dst, w, _) => GetData.render_row rel src dst w) written_rows)) =
  Ok [("RelatedTo", "hand", "arm", 0.8)].
Proof.
  rewrite (GetData.written_rows_read_back ex_concepts true written_rows).
  - vm_compute. reflexivity.
  - repeat constructor; vm_compute; reflexivity.
Defined.

(** Only the stand-in file of a stage has that stage's expected digest. *)
Ltac sha_cases c Hc :=
  unfold ex_sha256 in Hc;
  repeat match type of Hc with
  | context [String.eqb c ?x] =>
      let Heq := fresh "Heq" in destruct (String.eqb_spec c x) as [Heq|?]; [subst c|]
  end;
  try (vm_compute in Hc; discriminate Hc).

Lemma get_conceptnet_succeeds_witness : exists fs', ex_get_conceptnet ex_dir = Ok fs'.
Proof.
  apply (GetData.get_conceptnet_succeeds ex_sha256 ex_fetch ex_gunzip ex_json_loads ex_weight_str
    GetData.conceptnet_url cn_zipped GetData.conceptnet_filename_zipped_hash
    cn_unzipped GetData.conceptnet_filename_hash
    GetData.conceptnet_filename_filtered GetData.conceptnet_filename_filtered_hash
    ltac:(vm_compute; congruence) ltac:(vm_compute; congruence)).
  - exists "CZ". split; vm_compute; reflexivity.
  - intros c Hc. sha_cases c Hc. exists upstream_csv. split; vm_compute; reflexivity.
  - intros u Hu. sha_cases u Hu. exists ex_filtered. split; vm_compute; reflexivity.
Defined.

Lemma main_succeeds_witness :
  exists fs', GetData.main ex_sha256 ex_fetch ex_gunzip ex_json_loads ex_weight_str ∅ = Ok fs'.
Proof.
  apply (GetData.main_succeeds ex_sha256 ex_fetch ex_gunzip ex_json_loads ex_weight_str ∅).
  - exists "CZ". split; vm_compute; reflexivity.
  - intros c Hc. sha_cases c Hc. exists upstream_csv. split; vm_compute; reflexivity.
  - intros u Hu. sha_cases u Hu. exists ex_filtered. split; vm_compute; reflexivity.
  - exists "NZ". split; vm_compute; reflexivity.
  - intros c Hc. sha_cases c Hc. exists nb_file. split; vm_compute; reflexivity.
Defined.


(** [test.py] after the script: [headset] is not in the stand-in data, so
    its embedding prints [None] and its queries print empty lists; the
    symmetric [RelatedTo] edge is found from both ends. *)
Lemma test_script_example :
  TestScript.test_script (F:=Q) ex_final =
  Ok [TestScript.PEmbedding None;
      TestScript.PConcept [("out", []); ("in", [])];
      TestScript.PConcept [("out", [])];
      TestScript.PEdges [mkEdge "hand" "RelatedTo" "arm" 1.0];
      TestScript.PEdges [mkEdge "hand" "RelatedTo" "arm" 1.0];
      TestScript.PEdges [mkEdge "arm" "RelatedTo" "hand" 1.0]].
Proof. vm_compute. reflexivity. Qed.

Lemma load_numberbatch_data_errors_witness : data_error AssertionError.
Proof.
  apply (Numberbatch.load_numberbatch_data_errors (F:=Q) "2 3
hand 1.0
" false []).
  vm_compute. reflexivity.
Defined.

(** ** Concrete runs behind the findings *)

(** The example of the specification.  The
    directed answers are as specified; the undirected [query_edge(hand,
    arm)] reports the inbound [PartOf] edge as [(arm, PartOf, hand, 0.9)],
    its original orientation, not [(hand, PartOf, arm, 0.9)]. *)
Theorem spec_example :
  exists cn, init (E:=Q) cn_file nb_file false true = Ok cn /\
    query_edge cn "hand" "arm" true = [mkEdge "hand" "RelatedTo" "arm" (8#10)] /\
    query_edge cn "arm" "hand" true =
      [mkEdge "arm" "RelatedTo" "hand" (8#10); mkEdge "arm" "PartOf" "hand" (9#10)] /\
    query_edge cn "hand" "arm" false =
      [mkEdge "hand" "RelatedTo" "arm" (8#10); mkEdge "arm" "PartOf" "hand" (9#10)].
Proof. exists ex_cn. split; [exact ex_init|]. vm_compute. auto. Qed.

(** The dicts are nested concept -> other concept ->
    relation, not concept -> relation -> other. *)
Theorem nesting_order :
  outbonds ex_cn = [("hand", [("arm", [("RelatedTo", 8#10)])]);
                    ("arm", [("hand", [("RelatedTo", 8#10); ("PartOf", 9#10)])])] /\
  inbonds ex_cn = [("hand", [("arm", [("PartOf", 9#10)])])].
Proof. vm_compute. auto. Qed.

(** A negative weight is stored as [0.0], since the running
    maximum starts at [0.0]; the stored weight is then no input weight. *)
Theorem negative_weight_clamped :
  exists cn, init (E:=Q) "RelatedTo	a	b	-1.5
" "0 1
" false false = Ok cn /\
    query_edge cn "a" "b" true = [mkEdge "a" "RelatedTo" "b" 0].
Proof. eexists. split; [vm_compute; reflexivity|]. vm_compute. reflexivity. Qed.

Definition malformed_file : string :=
  "RelatedTo	hand	arm	0.5	extra
RelatedTo	hand	arm
not a relation line
".

(** Lines that break the four-field format are not
    all fatal: a fifth field is ignored, a three-field line is skipped when
    its last field (with its newline) has no embedding, and a line with an
    unknown label is skipped whatever its shape; the three-field line is
    fatal ([IndexError]) only without [remove_dangling]. *)
Theorem malformed_lines :
  (exists cn, init (E:=Q) (F:=Q) malformed_file nb_file false true = Ok cn /\
     query_edge cn "hand" "arm" true = [mkEdge "hand" "RelatedTo" "arm" (5#10)]) /\
  init (E:=Q) (F:=Q) malformed_file nb_file false false = Raise IndexError.
Proof. split; [eexists; split; [vm_compute; reflexivity|vm_compute; reflexivity]|]. vm_compute. reflexivity. Qed.

(** With [remove_duplicate], a table of dimension 0 crashes
    on [embedding[0]] ([IndexError]); without it, it loads. *)
Theorem dedup_dimension_zero :
  Numberbatch.load_numberbatch (F:=Q) "1 0
a
" true [] = Raise IndexError /\
  Numberbatch.load_numberbatch (F:=Q) "1 0
a
" false [] = Ok [("a", [])].
Proof. vm_compute. auto. Qed.

Lemma dimension_zero_dedup_raises_witness :
  Numberbatch.parse_header (fst (PyStr.readline (PyStr.lines_of "1 0
a
"))) = Ok (1%Z, 0%Z) /\ (0 < 1)%Z /\
  exists e, Numberbatch.load_numberbatch (F:=Q) "1 0
a
" true [] = Raise e.
Proof.
  split; [vm_compute; reflexivity|]. split; [lia|].
  apply (Numberbatch.dimension_zero_dedup_raises "1 0
a
" [] 1%Z); [vm_compute; reflexivity|lia].
Defined.

Definition renamed_file : string :=
  "3 2
a 1 0
a 1 1
b 1 0
".

(** When a concept name repeats, [remove_duplicate] compares
    with the concept's current vector: the first vector of [a] is
    forgotten, so [b], which repeats it, is kept, while "keep the first
    concept of each vector" drops it. *)
Theorem dedup_repeated_name :
  exists rows, Numberbatch.parse_table (F:=Q) renamed_file = Ok (2%Z, rows) /\
    Numberbatch.load_numberbatch renamed_file true [] =
      Ok [("a", [1; 1]); ("b", [1; 0])] /\
    Numberbatch.rows_to_dict [] (Numberbatch.dedup_ref rows) = [("a", [1; 1])].
Proof. eexists. split; [vm_compute; reflexivity|]. vm_compute. auto. Qed.

(** A header that announces more rows than the file has makes
    the loader read [''] and raise [IndexError]; rows past the announced
    count are ignored. *)
Theorem header_count_mismatch :
  Numberbatch.load_numberbatch (F:=Q) "3 1
a 1
" false [] = Raise IndexError /\
  Numberbatch.load_numberbatch (F:=Q) "1 1
a 1
b 2
" false [] = Ok [("a", [1])].
Proof. vm_compute. auto. Qed.

(** ** The chunked helpers of [get_data.py] *)

(** A stand-in [hashlib] object whose state is the bytes fed so far and
    whose digest is that state: it obeys the documented contract. *)
#[local] Instance concat_hashlib : Streams.Hashlib string := {
  Streams.hash_new := EmptyString;
  Streams.hash_update h c := (h ++ c)%string;
  Streams.hash_hexdigest h := h
}.

#[local] Instance concat_hashlib_laws : Streams.HashlibLaws string.
Proof. split; intros; [apply PyStr.append_assoc|apply PyStr.append_empty_r]. Qed.

Lemma read_chunks_characterization_witness :
  Streams.read_chunks 3 "abcdefgh" = ["abc"; "def"; "gh"].
Proof.
  apply (proj2 (Streams.read_chunks_characterization 3%nat "abcdefgh" _ ltac:(lia))).
  split; [reflexivity|]. cbn. split; repeat constructor.
Defined.

Lemma read_chunks_number_witness :
  (0 < 3)%nat /\ length (Streams.read_chunks 3 "abcdefgh") = 3%nat.
Proof. split; [lia|]. rewrite (Streams.read_chunks_number 3%nat "abcdefgh") by lia. reflexivity. Defined.

(** A file of 10000 bytes is hashed in two chunks. *)
Definition big_file : string := Eval vm_compute in
  String.concat EmptyString (repeat "0123456789" 1000).

Lemma compute_sha256_stream_refines_witness :
  length (Streams.read_chunks Streams.CHUNK_SIZE big_file) = 2%nat /\
  Streams.compute_sha256_stream {[ "f" := big_file ]} "f" =
  GetData.compute_sha256 Streams.hash_digest {[ "f" := big_file ]} "f".
Proof. split; [vm_compute; reflexivity|apply Streams.compute_sha256_stream_refines]. Defined.

Lemma download_file_stream_refines_witness :
  Streams.download_file_stream ex_fetch GetData.conceptnet_url cn_zipped ex_dir =
  Ok (<[cn_zipped := "CZ"]> ex_dir).
Proof.
  rewrite (Streams.download_file_stream_refines ex_fetch). vm_compute. reflexivity.
Defined.

Lemma unzip_file_stream_refines_witness :
  (0 < 4)%nat /\
  Streams.unzip_file_stream ex_gunzip 4%nat cn_zipped cn_unzipped {[ cn_zipped := "CZ" ]} =
  Ok (<[cn_unzipped := upstream_csv]> {[ cn_zipped := "CZ" ]}).
Proof.
  split; [lia|]. rewrite (Streams.unzip_file_stream_refines ex_gunzip 4%nat) by lia.
  vm_compute. reflexivity.
Defined.

Lemma filter_conceptnet_stream_refines_witness :
  Streams.filter_conceptnet_stream ex_json_loads ex_weight_str
    (S (String.length upstream_csv)) cn_unzipped GetData.conceptnet_filename_filtered
    {[ cn_unzipped := upstream_csv ]} =
  Some (Ok (<[GetData.conceptnet_filename_filtered := ex_filtered]> {[ cn_unzipped := upstream_csv ]})).
Proof.
  rewrite (Streams.filter_conceptnet_stream_refines ex_json_loads ex_weight_str).
  - vm_compute. reflexivity.
  - intros c Hc. rewrite lookup_singleton_eq in Hc. injection Hc as <-. apply Nat.lt_succ_diag_r.
Defined.

(** ** Runs of the script stopped part-way *)

Lemma main_m_refines_witness :
  (0 < 64)%nat /\
  Interrupt.refines (Interrupt.main_m ex_sha256 ex_fetch ex_gunzip ex_json_loads ex_weight_str 64)
                    (GetData.main ex_sha256 ex_fetch ex_gunzip ex_json_loads ex_weight_str).
Proof. split; [lia|]. apply Interrupt.main_m_refines. lia. Defined.

(** The effect model run to its end on an empty directory leaves the two
    files [ConceptNet()] opens, as the one-shot model does. *)
Example main_m_run :
  Interrupt.exec (Interrupt.main_m ex_sha256 ex_fetch ex_gunzip ex_json_loads ex_weight_str 64) ∅ =
  Ok (tt, ex_final).
Proof. vm_compute. reflexivity. Qed.

(** A directory with a valid archive: the run is stopped right after it
    has truncated the extracted file. *)
Definition cn_archive_dir : GetData.FS := {[ Interrupt.cn_zipped := "CZ" ]}.

Definition ex_cn_level : GetData.FS -> nat :=
  Interrupt.cn_level ex_sha256 Interrupt.cn_zipped GetData.conceptnet_filename_zipped_hash
    Interrupt.cn_unzipped GetData.conceptnet_filename_hash
    GetData.conceptnet_filename_filtered GetData.conceptnet_filename_filtered_hash.

Definition cn_archive_trace : list Interrupt.effect :=
  (Interrupt.get_conceptnet_m ex_sha256 ex_fetch ex_gunzip ex_json_loads ex_weight_str 64
     GetData.conceptnet_url Interrupt.cn_zipped GetData.conceptnet_filename_zipped_hash
     Interrupt.cn_unzipped GetData.conceptnet_filename_hash
     GetData.conceptnet_filename_filtered GetData.conceptnet_filename_filtered_hash cn_archive_dir).1.

Lemma get_conceptnet_interrupt_safe_witness :
  ex_cn_level cn_archive_dir = 1%nat /\
  ex_cn_level (Interrupt.apply_effects cn_archive_dir (firstn 1 cn_archive_trace)) = 1%nat /\
  (ex_cn_level cn_archive_dir <= ex_cn_level (Interrupt.apply_effects cn_archive_dir (firstn 1 cn_archive_trace)))%nat.
Proof.
  split; [vm_compute; reflexivity|]. split; [vm_compute; reflexivity|].
  unfold cn_archive_trace, ex_cn_level.
  apply (Interrupt.get_conceptnet_interrupt_safe ex_sha256 ex_fetch ex_gunzip ex_json_loads ex_weight_str 64
           GetData.conceptnet_url); [GetData.string_neq..|apply Interrupt.interrupted_prefix].
Defined.

(** A directory where ConceptNet is done and NumberBatch has a valid
    archive: the script is stopped inside the extraction. *)
Definition nb_archive_dir : GetData.FS :=
  {[ GetData.conceptnet_filename_filtered := ex_filtered; Interrupt.nb_zipped := "NZ" ]}.

Lemma main_interrupt_safe_witness :
  Interrupt.main_levels ex_sha256 nb_archive_dir = (3, 1)%nat /\
  ((Interrupt.main_levels ex_sha256 nb_archive_dir).1 <=
   (Interrupt.main_levels ex_sha256
      (<[Interrupt.nb_unzipped := "numb"]> (Streams.open_w nb_archive_dir Interrupt.nb_unzipped))).1 /\
   (Interrupt.main_levels ex_sha256 nb_archive_dir).2 <=
   (Interrupt.main_levels ex_sha256
      (<[Interrupt.nb_unzipped := "numb"]> (Streams.open_w nb_archive_dir Interrupt.nb_unzipped))).2)%nat.
Proof.
  split; [vm_compute; reflexivity|].
  apply (Interrupt.main_interrupt_safe ex_sha256 ex_fetch ex_gunzip ex_json_loads ex_weight_str 4096).
  assert (Ht : (Interrupt.main_m ex_sha256 ex_fetch ex_gunzip ex_json_loads ex_weight_str 4096
                  nb_archive_dir).1 =
               [Interrupt.Open Interrupt.nb_unzipped; Interrupt.Write Interrupt.nb_unzipped nb_file;
                Interrupt.Remove Interrupt.nb_zipped]) by (vm_compute; reflexivity).
  rewrite Ht. apply Interrupt.int_later, Interrupt.int_inside_write.
Defined.

End Examples.
